(** * A2A proxy client: a shallow embedding of [a2a_client.py]

    The development embeds [A2AProxyClient] (endpoint discovery, the
    JSON-RPC transport, the response interpreter and the polling loop of
    [send_prompt]) and proves the properties stated by the specification
    of the client.

    Conventions.
    - A Python [str] is a [string] whose characters are read as code
      points below 256.
    - A decoded JSON document is a [json] value; a Python [dict] is an
      association list whose first binding of a key is the live one.
    - A Python exception is a [py_error]; a function that may raise
      returns a [result].
    - What the interpreter and the libraries contribute (floating point
      arithmetic and printing, [repr] of strings, [time.sleep]'s argument
      check, [urllib.parse.urlparse]) is collected in the class
      [Platform] and left abstract. *)

From Stdlib Require Import String Ascii List ZArith Bool Lia DecimalString Sorted.
Import ListNotations.
Open Scope string_scope.

(** ** Interpreter and library operations the client relies on *)

Class Platform : Type := {
  (** Python's [float]. *)
  float : Type;
  (** [a + b] on floats. *)
  float_add : float -> float -> float;
  (** [a < b] on floats. *)
  float_ltb : float -> float -> bool;
  (** [float(n)] for an [int]; [None] when it raises [OverflowError]. *)
  float_of_int : Z -> option float;
  (** [x == 0.0], the falsy floats. *)
  float_is_zero : float -> bool;
  (** [str(x)] (and [repr(x)]) of a float. *)
  str_float : float -> string;
  (** [repr(s)] of a string. *)
  repr_str : string -> string;
  (** whether [time.sleep(x)] accepts [x] (it raises [ValueError] on a
      negative or NaN argument). *)
  sleep_ok : float -> bool;
  (** [urlparse(u).path]; [None] when [urlparse] raises. *)
  urlparse_path : string -> option string
}.

(** ** Python strings *)

Module PyStr.

Definition slash : ascii := "/"%char.

(** The line feed used by ["\n".join]. *)
Definition nl : string := String (ascii_of_nat 10) EmptyString.

Definition is_empty (s : string) : bool :=
  match s with EmptyString => true | String _ _ => false end.

(** [str.isspace] on one character (code points below 256). *)
Definition isspace (c : ascii) : bool :=
  let n := nat_of_ascii c in
  (((9 <=? n) && (n <=? 13)) || ((28 <=? n) && (n <=? 32))
   || (n =? 133) || (n =? 160))%nat.

(** [s.lstrip(chars)] with the character set given as a predicate. *)
Fixpoint lstrip_by (p : ascii -> bool) (s : string) : string :=
  match s with
  | EmptyString => EmptyString
  | String c s' => if p c then lstrip_by p s' else s
  end.

(** [s.rstrip(chars)]: a character goes when it is in the set and all
    that follows it went. *)
Fixpoint rstrip_by (p : ascii -> bool) (s : string) : string :=
  match s with
  | EmptyString => EmptyString
  | String c s' =>
      let r := rstrip_by p s' in
      if p c && is_empty r then EmptyString else String c r
  end.

(** [s.rstrip("/")] *)
Definition rstrip_slash (s : string) : string :=
  rstrip_by (Ascii.eqb slash) s.

(** [s.strip()] *)
Definition strip (s : string) : string :=
  lstrip_by isspace (rstrip_by isspace s).

(** [s.startswith("/")] *)
Definition startswith_slash (s : string) : bool :=
  match s with
  | String c _ => Ascii.eqb c slash
  | EmptyString => false
  end.

(** [needle in s] for two strings. *)
Fixpoint contains (needle s : string) : bool :=
  prefix needle s
  || match s with
     | EmptyString => false
     | String _ s' => contains needle s'
     end.

(** [sep.join(parts)] *)
Definition join (sep : string) (parts : list string) : string :=
  String.concat sep parts.

(** [str(n)] for an [int]. *)
Definition of_int (n : Z) : string :=
  NilEmpty.string_of_int (Z.to_int n).

End PyStr.

(** ** Exceptions and results *)

Inductive py_error : Type :=
| ValueError (msg : string)
| RuntimeError (msg : string)
| TimeoutError (msg : string)
| KeyError (key : string)
| TypeError
| AttributeError
| OverflowError
| RequestException (msg : string).

Inductive result (A : Type) : Type :=
| Ok (a : A)
| Raise (e : py_error).
Arguments Ok {A} a.
Arguments Raise {A} e.

Definition rbind {A B : Type} (r : result A) (k : A -> result B) : result B :=
  match r with
  | Ok a => k a
  | Raise e => Raise e
  end.

(** The outcome of a computation with effects; [Unfinished] when the
    fuel given to a loop ran out before the loop ended. *)
Inductive outcome (A : Type) : Type :=
| Returns (a : A)
| Raises (e : py_error)
| Unfinished.
Arguments Returns {A} a.
Arguments Raises {A} e.
Arguments Unfinished {A}.

Section Model.
Context {P : Platform}.

(** ** Decoded JSON values *)

#[warnings="-register-all"]
Inductive json : Type :=
| JNull
| JBool (b : bool)
| JInt (n : Z)
| JFloat (x : float)
| JStr (s : string)
| JArr (items : list json)
| JObj (fields : list (string * json)).

(** [d.get(k)] on the bindings of a dict, before the default. *)
Fixpoint dict_get (k : string) (fields : list (string * json)) : option json :=
  match fields with
  | [] => None
  | (k', v) :: rest => if String.eqb k k' then Some v else dict_get k rest
  end.

(** Truth value of a decoded JSON value ([if v:]). *)
Definition truthy (v : json) : bool :=
  match v with
  | JNull => false
  | JBool b => b
  | JInt n => negb (Z.eqb n 0)
  | JFloat x => negb (float_is_zero x)
  | JStr s => negb (PyStr.is_empty s)
  | JArr items => match items with [] => false | _ => true end
  | JObj fields => match fields with [] => false | _ => true end
  end.

(** [v == s] for a string literal [s]. *)
Definition eq_str (v : json) (s : string) : bool :=
  match v with
  | JStr t => String.eqb t s
  | _ => false
  end.

(** [repr(v)] and [str(v)]. *)
Fixpoint py_repr (v : json) : string :=
  match v with
  | JNull => "None"
  | JBool true => "True"
  | JBool false => "False"
  | JInt n => PyStr.of_int n
  | JFloat x => str_float x
  | JStr s => repr_str s
  | JArr items => "[" ++ PyStr.join ", " (map py_repr items) ++ "]"
  | JObj fields =>
      "{" ++ PyStr.join ", "
               (map (fun kv => match kv with
                               | (k, x) => repr_str k ++ ": " ++ py_repr x
                               end) fields)
          ++ "}"
  end.

Definition py_str (v : json) : string :=
  match v with
  | JStr s => s
  | _ => py_repr v
  end.

(** [k in v] for a string literal [k]: key test on a dict, substring test
    on a string, element test on a list, [TypeError] elsewhere. *)
Definition py_in (k : string) (v : json) : result bool :=
  match v with
  | JObj fields =>
      Ok (match dict_get k fields with Some _ => true | None => false end)
  | JStr s => Ok (PyStr.contains k s)
  | JArr items => Ok (existsb (fun x => eq_str x k) items)
  | _ => Raise TypeError
  end.

(** [v[k]] for a string literal [k]. *)
Definition py_getitem (v : json) (k : string) : result json :=
  match v with
  | JObj fields =>
      match dict_get k fields with
      | Some x => Ok x
      | None => Raise (KeyError k)
      end
  | _ => Raise TypeError
  end.

(** [v.get(k, default)]; only a dict has the method. *)
Definition py_get (v : json) (k : string) (default : json) : result json :=
  match v with
  | JObj fields =>
      Ok (match dict_get k fields with Some x => x | None => default end)
  | _ => Raise AttributeError
  end.

(** ** Response interpreter *)

(** The loop that fills [text_parts]: the [text] of every dict part whose
    [kind] is ["text"] and whose [text] is truthy, in order. *)
Fixpoint collect_text_parts (parts : list json) : list json :=
  match parts with
  | [] => []
  | part :: rest =>
      match part with
      | JObj fields =>
          if eq_str (match dict_get "kind" fields with
                     | Some k => k
                     | None => JNull
                     end) "text"
          then
            let text := match dict_get "text" fields with
                        | Some t => t
                        | None => JStr ""
                        end in
            if truthy text then text :: collect_text_parts rest
            else collect_text_parts rest
          else collect_text_parts rest
      | _ => collect_text_parts rest
      end
  end.

(** The strings of a list of values, when all of them are strings. *)
Fixpoint all_strings (vs : list json) : option (list string) :=
  match vs with
  | [] => Some []
  | JStr s :: rest =>
      match all_strings rest with
      | Some ss => Some (s :: ss)
      | None => None
      end
  | _ :: _ => None
  end.

(** ["\n".join(text_parts)]: [str.join] raises [TypeError] on an item
    that is not a string. *)
Definition join_text_parts (text_parts : list json) : result string :=
  match all_strings text_parts with
  | Some ss => Ok (PyStr.join PyStr.nl ss)
  | None => Raise TypeError
  end.

(** The second half of [_extract_text_from_message]: the [content]
    fallback. *)
Definition message_content_fallback (message : json) : result string :=
  rbind (py_in "content" message) (fun has_content =>
  if has_content
  then rbind (py_getitem message "content") (fun c => Ok (py_str c))
  else Raise (ValueError "Could not extract text from message")).

Definition _extract_text_from_message (message : json) : result string :=
  rbind (py_in "parts" message) (fun has_parts =>
  if has_parts then
    rbind (py_getitem message "parts") (fun parts =>
    match parts with
    | JArr items =>
        match collect_text_parts items with
        | [] => message_content_fallback message
        | text_parts => join_text_parts text_parts
        end
    | _ => message_content_fallback message
    end)
  else message_content_fallback message).

(** The [result] fallback of [_extract_text_from_task]. *)
Definition task_result_fallback (task : json) : result string :=
  let no_text := Raise (ValueError "Could not extract text from task result") in
  rbind (py_in "result" task) (fun has_result =>
  if has_result then
    rbind (py_getitem task "result") (fun res =>
    match res with
    | JObj fields =>
        match dict_get "message" fields with
        | Some m => _extract_text_from_message m
        | None =>
            match dict_get "text" fields with
            | Some t => Ok (py_str t)
            | None =>
                match dict_get "content" fields with
                | Some c => Ok (py_str c)
                | None => no_text
                end
            end
        end
    | JStr s => Ok s
    | _ => no_text
    end)
  else no_text).

(** The artifact branch of [_extract_text_from_task], then the fallback. *)
Definition task_artifacts_then_result (task : json) : result string :=
  rbind (py_in "artifacts" task) (fun has_artifacts =>
  if has_artifacts then
    rbind (py_getitem task "artifacts") (fun artifacts =>
    match artifacts with
    | JArr (JObj afields :: _) =>
        match dict_get "parts" afields with
        | Some (JArr items) =>
            match collect_text_parts items with
            | [] => task_result_fallback task
            | text_parts => join_text_parts text_parts
            end
        | _ => task_result_fallback task
        end
    | _ => task_result_fallback task
    end)
  else task_result_fallback task).

Definition _extract_text_from_task (task : json) : result string :=
  rbind (py_get task "status" (JObj [])) (fun status =>
  rbind (py_get status "state" JNull) (fun state =>
  if eq_str state "failed" then
    rbind (py_get status "error" (JStr "Unknown error")) (fun error =>
    Raise (ValueError ("Task failed: " ++ py_str error)))
  else if eq_str state "canceled" then
    Raise (ValueError "Task was canceled")
  else if eq_str state "rejected" then
    Raise (ValueError "Task was rejected")
  else task_artifacts_then_result task)).

(** ** Configuration ([A2AConfig]) *)

Record A2AConfig : Type := {
  base_url : string;
  timeout_seconds : Z;
  auth_token : option string;
  verify_tls : bool;
  endpoint_path : string
}.

(** ** The outside world: HTTP peers, the clock, the uuid source *)

(** What a request made through [requests] comes to: the decoded body, or
    the exception raised by the call itself, by [raise_for_status] or by
    [response.json()]. *)
Inductive http_reply : Type :=
| ReplyJson (data : json)
| ReplyRaise (e : py_error).

Record env : Type := {
  (** reply to [GET card_url] *)
  agent_card : string -> http_reply;
  (** reply to the [n]-th [POST], given its URL and JSON body *)
  rpc_reply : nat -> string -> json -> http_reply;
  (** the [n]-th reading of [time.time()] *)
  clock : nat -> float;
  (** the [n]-th [str(uuid.uuid4())] *)
  uuid4 : nat -> string
}.

Inductive event : Type :=
| EvGet (url : string)
| EvPost (url : string) (payload : json)
| EvTime (t : float)
| EvSleep (d : float)
| EvUuid (u : string).

Record state : Type := {
  posts : nat;
  ticks : nat;
  uuids : nat;
  trace : list event
}.

(** ** Computations with effects and exceptions *)

Definition M (A : Type) : Type := state -> outcome A * state.

Definition ret {A : Type} (a : A) : M A := fun s => (Returns a, s).

Definition bind {A B : Type} (m : M A) (k : A -> M B) : M B :=
  fun s =>
    match m s with
    | (Returns a, s') => k a s'
    | (Raises e, s') => (Raises e, s')
    | (Unfinished, s') => (Unfinished, s')
    end.

Definition raise {A : Type} (e : py_error) : M A := fun s => (Raises e, s).

Definition unfinished {A : Type} : M A := fun s => (Unfinished, s).

Definition lift {A : Type} (r : result A) : M A :=
  match r with
  | Ok a => ret a
  | Raise e => raise e
  end.

(** [try: m  except Exception as e: h e] *)
Definition catch {A : Type} (m : M A) (h : py_error -> M A) : M A :=
  fun s =>
    match m s with
    | (Raises e, s') => h e s'
    | other => other
    end.

Notation "x <- m ;; k" := (bind m (fun x => k))
  (at level 61, m at next level, right associativity).
Notation "m ;;; k" := (bind m (fun _ => k))
  (at level 61, right associativity).

Definition emit (e : event) (s : state) : state :=
  {| posts := posts s; ticks := ticks s; uuids := uuids s;
     trace := trace s ++ [e] |}.

Section World.
Variable E : env.

(** [requests.Session.get] followed by [raise_for_status] and [json]. *)
Definition session_get (url : string) : M json :=
  fun s =>
    let s' := emit (EvGet url) s in
    match agent_card E url with
    | ReplyJson data => (Returns data, s')
    | ReplyRaise e => (Raises e, s')
    end.

(** [requests.Session.post] followed by [raise_for_status] and [json]. *)
Definition session_post (url : string) (payload : json) : M json :=
  fun s =>
    let s' := {| posts := S (posts s); ticks := ticks s; uuids := uuids s;
                 trace := trace s ++ [EvPost url payload] |} in
    match rpc_reply E (posts s) url payload with
    | ReplyJson data => (Returns data, s')
    | ReplyRaise e => (Raises e, s')
    end.

(** [time.time()] *)
Definition time_time : M float :=
  fun s =>
    let t := clock E (ticks s) in
    (Returns t, {| posts := posts s; ticks := S (ticks s); uuids := uuids s;
                   trace := trace s ++ [EvTime t] |}).

(** [time.sleep(d)] *)
Definition time_sleep (d : float) : M unit :=
  fun s =>
    let s' := emit (EvSleep d) s in
    if sleep_ok d then (Returns tt, s')
    else (Raises (ValueError "sleep length must be non-negative"), s').

(** [str(uuid.uuid4())] *)
Definition uuid4_str : M string :=
  fun s =>
    let u := uuid4 E (uuids s) in
    (Returns u, {| posts := posts s; ticks := ticks s; uuids := S (uuids s);
                   trace := trace s ++ [EvUuid u] |}).

(** ** Endpoint resolver *)

Definition _normalize_endpoint_path (cfg : A2AConfig) : string :=
  let endpoint_path :=
    PyStr.strip (if PyStr.is_empty (endpoint_path cfg) then "/"
                 else endpoint_path cfg) in
  let endpoint_path :=
    if PyStr.is_empty endpoint_path then "/" else endpoint_path in
  if PyStr.startswith_slash endpoint_path then endpoint_path
  else "/" ++ endpoint_path.

Definition _build_rpc_url (cfg : A2AConfig) (base : string) : string :=
  PyStr.rstrip_slash base ++ _normalize_endpoint_path cfg.

Definition card_url (cfg : A2AConfig) : string :=
  PyStr.rstrip_slash (base_url cfg) ++ "/.well-known/agent-card.json".

(** The handler of [_get_agent_card] logs and re-raises. *)
Definition _get_agent_card (cfg : A2AConfig) : M json :=
  catch (session_get (card_url cfg)) (fun e => raise e).

(** [urlparse(v).path]; [urlparse] raises on a value that is not a
    string. *)
Definition parsed_path (v : json) : result string :=
  match v with
  | JStr u =>
      match urlparse_path u with
      | Some path => Ok path
      | None => Raise (ValueError "urlparse")
      end
  | _ => Raise AttributeError
  end.

(** The body of the [try] of [_discover_rpc_url]. *)
Definition discover_from_card (cfg : A2AConfig) : M string :=
  card <- _get_agent_card cfg ;;
  service_url <- lift (py_get card "url" JNull) ;;
  if truthy service_url then
    path <- lift (parsed_path service_url) ;;
    if negb (PyStr.is_empty path) && negb (String.eqb path "/")
    then ret (PyStr.rstrip_slash (py_str service_url))
    else ret (_build_rpc_url cfg (py_str service_url))
  else ret (_build_rpc_url cfg (base_url cfg)).

Definition _discover_rpc_url (cfg : A2AConfig) : M string :=
  catch (discover_from_card cfg)
        (fun _ => ret (_build_rpc_url cfg (base_url cfg))).

(** ** The client object *)

Record A2AProxyClient : Type := {
  config : A2AConfig;
  headers : list (string * string);
  rpc_url : string
}.

Definition default_headers (cfg : A2AConfig) : list (string * string) :=
  [("Content-Type", "application/json"); ("Accept", "application/json")]
  ++ match auth_token cfg with
     | Some tok =>
         if PyStr.is_empty tok then []
         else [("Authorization", "Bearer " ++ tok)]
     | None => []
     end.

Definition __init__ (cfg : A2AConfig) : M A2AProxyClient :=
  url <- _discover_rpc_url cfg ;;
  ret {| config := cfg; headers := default_headers cfg; rpc_url := url |}.

(** ** RPC transport *)

Definition jsonrpc_payload (method : string) (params : json) (request_id : Z)
  : json :=
  JObj [("jsonrpc", JStr "2.0"); ("id", JInt request_id);
        ("method", JStr method); ("params", params)].

(** What [_jsonrpc_call] makes of the decoded body. *)
Definition jsonrpc_result (data : json) : result json :=
  rbind (py_in "error" data) (fun has_error =>
  if has_error then
    rbind (py_getitem data "error") (fun err =>
    Raise (RuntimeError ("JSON-RPC error: " ++ py_str err)))
  else py_getitem data "result").

Definition _jsonrpc_call (self : A2AProxyClient) (method : string)
  (params : json) (request_id : Z) : M json :=
  data <- session_post (rpc_url self) (jsonrpc_payload method params request_id) ;;
  lift (jsonrpc_result data).

(** ** Polling orchestrator and facade *)

Definition terminal_states : list string :=
  ["completed"; "failed"; "canceled"; "rejected"].

(** [state in {"completed", "failed", "canceled", "rejected"}]: the set
    lookup hashes [state], which raises [TypeError] on a list or dict. *)
Definition in_terminal_states (st : json) : result bool :=
  match st with
  | JArr _ | JObj _ => Raise TypeError
  | _ => Ok (existsb (eq_str st) terminal_states)
  end.

Definition timeout_message (task_id : json) (timeout_s : float) : string :=
  "Task " ++ py_str task_id ++ " did not finish within "
          ++ str_float timeout_s ++ "s".

(** The [while time.time() < deadline] loop; one unit of fuel per
    evaluation of the loop condition. *)
Fixpoint poll_loop (fuel : nat) (self : A2AProxyClient) (task_id : json)
  (deadline timeout_s poll_interval_s : float) (request_id : Z) : M string :=
  match fuel with
  | O => unfinished
  | S fuel' =>
      now <- time_time ;;
      if float_ltb now deadline then
        task <- _jsonrpc_call self "tasks/get" (JObj [("id", task_id)])
                              request_id ;;
        let request_id := (request_id + 1)%Z in
        status <- lift (py_get task "status" (JObj [])) ;;
        st <- lift (py_get status "state" JNull) ;;
        terminal <- lift (in_terminal_states st) ;;
        if terminal then lift (_extract_text_from_task task)
        else
          time_sleep poll_interval_s ;;;
          poll_loop fuel' self task_id deadline timeout_s poll_interval_s
                    request_id
      else raise (TimeoutError (timeout_message task_id timeout_s))
  end.

Definition user_message (prompt message_id : string) : json :=
  JObj [("role", JStr "user");
        ("parts", JArr [JObj [("kind", JStr "text"); ("text", JStr prompt)]]);
        ("messageId", JStr message_id)].

(** The body of the [try] of [send_prompt]. *)
Definition send_and_poll (fuel : nat) (self : A2AProxyClient)
  (prompt : string) (poll_interval_s timeout_s : float) : M string :=
  message_id <- uuid4_str ;;
  res <- _jsonrpc_call self "message/send"
           (JObj [("message", user_message prompt message_id);
                  ("metadata", JObj [])]) 1 ;;
  kind <- lift (py_get res "kind" JNull) ;;
  if negb (eq_str kind "task") then lift (_extract_text_from_message res)
  else
    task_id <- lift (py_getitem res "id") ;;
    start <- time_time ;;
    let deadline := float_add start timeout_s in
    poll_loop fuel self task_id deadline timeout_s poll_interval_s 2.

(** [send_prompt]; every handler of its [try] logs and re-raises. *)
Definition send_prompt (fuel : nat) (self : A2AProxyClient) (prompt : string)
  (poll_interval_s : float) (timeout_s : option float) : M string :=
  timeout_s <- match timeout_s with
               | Some t => ret t
               | None =>
                   match float_of_int (timeout_seconds (config self)) with
                   | Some t => ret t
                   | None => raise OverflowError
                   end
               end ;;
  catch (send_and_poll fuel self prompt poll_interval_s timeout_s)
        (fun e => raise e).

End World.
End Model.

(** ** The specification's reading of the response interpreter *)

Section Reading.
Context {P : Platform}.

(** A part counts for text extraction when it is a dict whose [kind] is
    the string ["text"]. *)
Definition part_is_text (part : json) : bool :=
  match part with
  | JObj fields =>
      match dict_get "kind" fields with
      | Some (JStr k) => String.eqb k "text"
      | _ => false
      end
  | _ => false
  end.

(** The [text] field of a part (the empty string when it has none). *)
Definition part_text (part : json) : json :=
  match part with
  | JObj fields =>
      match dict_get "text" fields with
      | Some t => t
      | None => JStr ""
      end
  | _ => JStr ""
  end.

(** The non-empty text a part contributes, if any. *)
Definition nonempty_text (part : json) : option string :=
  if part_is_text part then
    match part_text part with
    | JStr s => if PyStr.is_empty s then None else Some s
    | _ => None
    end
  else None.

(** The non-empty texts of the text parts, in their original order. *)
Fixpoint text_strings (parts : list json) : list string :=
  match parts with
  | [] => []
  | part :: rest =>
      match nonempty_text part with
      | Some s => s :: text_strings rest
      | None => text_strings rest
      end
  end.

(** A text part is well typed when its [text] is a string (or a falsy
    value, which is skipped like the empty string). *)
Definition text_well_typed (part : json) : bool :=
  if part_is_text part then
    match part_text part with
    | JStr _ => true
    | t => negb (truthy t)
    end
  else true.

(** The parts of a message or artifact: its [parts] when that is a list. *)
Definition parts_of (fields : list (string * json)) : list json :=
  match dict_get "parts" fields with
  | Some (JArr items) => items
  | _ => []
  end.

(** [extract_from_message] as the specification words it: the non-empty
    texts joined by a line feed; else the [content] field stringified;
    else an extraction error. *)
Definition spec_extract_from_message (fields : list (string * json))
  : result string :=
  match text_strings (parts_of fields) with
  | [] =>
      match dict_get "content" fields with
      | Some c => Ok (py_str c)
      | None => Raise (ValueError "Could not extract text from message")
      end
  | texts => Ok (PyStr.join PyStr.nl texts)
  end.

(** [status.state] of a task whose [status] is a dict (or is missing). *)
Definition task_state (fields : list (string * json)) : option json :=
  match dict_get "status" fields with
  | None => Some JNull
  | Some (JObj status) =>
      Some (match dict_get "state" status with
            | Some st => st
            | None => JNull
            end)
  | Some _ => None
  end.

Definition failure_states : list string := ["failed"; "canceled"; "rejected"].

(** The parts of the first artifact of a task. *)
Definition first_artifact_parts (fields : list (string * json)) : list json :=
  match dict_get "artifacts" fields with
  | Some (JArr (JObj artifact :: _)) => parts_of artifact
  | _ => []
  end.

(** The precedence of the specification for a task that did not fail:
    (a) the first artifact's texts, (b) [result.message] read as a
    message, (c) [result.text], then [result.content], stringified,
    (d) [result] when it is a string; else an extraction error. *)
Definition spec_extract_completed (fields : list (string * json))
  : result string :=
  match text_strings (first_artifact_parts fields) with
  | [] =>
      match dict_get "result" fields with
      | Some (JObj res) =>
          match dict_get "message" res, dict_get "text" res,
                dict_get "content" res with
          | Some m, _, _ => _extract_text_from_message m
          | None, Some t, _ => Ok (py_str t)
          | None, None, Some c => Ok (py_str c)
          | None, None, None =>
              Raise (ValueError "Could not extract text from task result")
          end
      | Some (JStr s) => Ok s
      | _ => Raise (ValueError "Could not extract text from task result")
      end
  | texts => Ok (PyStr.join PyStr.nl texts)
  end.

(** Whether a decoded body has a given field. *)
Definition has_field (k : string) (data : json) : bool :=
  match data with
  | JObj fields =>
      match dict_get k fields with Some _ => true | None => false end
  | _ => false
  end.

Definition text_part (s : string) : json :=
  JObj [("kind", JStr "text"); ("text", JStr s)].

(** A configuration with another endpoint path. *)
Definition with_endpoint_path (cfg : A2AConfig) (path : string) : A2AConfig :=
  {| base_url := base_url cfg; timeout_seconds := timeout_seconds cfg;
     auth_token := auth_token cfg; verify_tls := verify_tls cfg;
     endpoint_path := path |}.

(** The ways discovery ends without an endpoint-specific service URL, and
    the base the RPC URL is then built from: the configured base URL when
    discovery failed or the card names no URL, the card's URL when it has
    no path beyond the root. *)
Inductive fallback_base (cfg : A2AConfig) (reply : http_reply)
  : string -> Prop :=
| fetch_failed (e : py_error) :
    reply = ReplyRaise e ->
    fallback_base cfg reply (base_url cfg)
| card_not_object (data : json) :
    reply = ReplyJson data ->
    (forall card, data <> JObj card) ->
    fallback_base cfg reply (base_url cfg)
| url_absent (card : list (string * json)) :
    reply = ReplyJson (JObj card) ->
    dict_get "url" card = None ->
    fallback_base cfg reply (base_url cfg)
| url_falsy (card : list (string * json)) (v : json) :
    reply = ReplyJson (JObj card) ->
    dict_get "url" card = Some v ->
    truthy v = false ->
    fallback_base cfg reply (base_url cfg)
| url_unparsed (card : list (string * json)) (v : json) (e : py_error) :
    reply = ReplyJson (JObj card) ->
    dict_get "url" card = Some v ->
    truthy v = true ->
    parsed_path v = Raise e ->
    fallback_base cfg reply (base_url cfg)
| url_without_path (card : list (string * json)) (u path : string) :
    reply = ReplyJson (JObj card) ->
    dict_get "url" card = Some (JStr u) ->
    u <> "" ->
    urlparse_path u = Some path ->
    path = "" \/ path = "/" ->
    fallback_base cfg reply u.

(** ** Reading the trace of a run *)

(** A field of a posted JSON body ([JNull] when it is missing). *)
Definition payload_field (k : string) (payload : json) : json :=
  match payload with
  | JObj fields =>
      match dict_get k fields with Some v => v | None => JNull end
  | _ => JNull
  end.

(** The JSON-RPC calls of a trace, in order: method and request id. *)
Fixpoint posted (evs : list event) : list (json * json) :=
  match evs with
  | [] => []
  | EvPost _ payload :: rest =>
      (payload_field "method" payload, payload_field "id" payload)
      :: posted rest
  | _ :: rest => posted rest
  end.

(** The request ids of a trace, in order. *)
Definition post_ids (evs : list event) : list Z :=
  map (fun call => match snd call with JInt n => n | _ => 0%Z end)
      (posted evs).

(** [n] polls numbered from [id]. *)
Definition poll_calls (id : Z) (n : nat) : list (json * json) :=
  map (fun i => (JStr "tasks/get", JInt (id + Z.of_nat i))) (seq 0 n).

(** One [message/send] with id 1, then [n] polls with ids 2, 3, ... *)
Definition calls_from_one (n : nat) : list (json * json) :=
  (JStr "message/send", JInt 1)
  :: map (fun i => (JStr "tasks/get", JInt (2 + Z.of_nat i))) (seq 0 n).

(** The body the specification describes, with the name of the field
    that carries the protocol version left open. *)
Definition rpc_body (version_field : string) (payload : json) : Prop :=
  exists fields,
    payload = JObj fields
    /\ dict_get version_field fields = Some (JStr "2.0")
    /\ (exists id, dict_get "id" fields = Some (JInt id))
    /\ (exists method, dict_get "method" fields = Some (JStr method))
    /\ (exists params, dict_get "params" fields = Some (JObj params)).

(** The timeout [send_prompt] uses: its argument, or the configured
    number of seconds as a float. *)
Definition resolved_timeout (self : A2AProxyClient) (timeout_s : option float)
  : option float :=
  match timeout_s with
  | Some t => Some t
  | None => float_of_int (timeout_seconds (config self))
  end.

Definition send_event (self : A2AProxyClient) (prompt message_id : string)
  : event :=
  EvPost (rpc_url self)
         (jsonrpc_payload "message/send"
            (JObj [("message", user_message prompt message_id);
                   ("metadata", JObj [])]) 1).

Definition get_event (self : A2AProxyClient) (task_id : json) (id : Z)
  : event :=
  EvPost (rpc_url self)
         (jsonrpc_payload "tasks/get" (JObj [("id", task_id)]) id).

(** The traces the polling loop can leave, with the outcome of each. *)
Inductive poll_shape (self : A2AProxyClient) (task_id : json)
  (deadline timeout_s poll_interval_s : float)
  : Z -> list event -> outcome string -> Prop :=
| poll_out_of_fuel (id : Z) :
    poll_shape self task_id deadline timeout_s poll_interval_s id []
               Unfinished
| poll_timed_out (id : Z) (now : float) :
    float_ltb now deadline = false ->
    poll_shape self task_id deadline timeout_s poll_interval_s id
               [EvTime now]
               (Raises (TimeoutError (timeout_message task_id timeout_s)))
| poll_stopped (id : Z) (now : float) (r : outcome string) :
    float_ltb now deadline = true ->
    r <> Unfinished ->
    poll_shape self task_id deadline timeout_s poll_interval_s id
               [EvTime now; get_event self task_id id] r
| poll_sleep_failed (id : Z) (now : float) (e : py_error) :
    float_ltb now deadline = true ->
    poll_shape self task_id deadline timeout_s poll_interval_s id
               [EvTime now; get_event self task_id id;
                EvSleep poll_interval_s]
               (Raises e)
| poll_continued (id : Z) (now : float) (evs : list event)
    (r : outcome string) :
    float_ltb now deadline = true ->
    poll_shape self task_id deadline timeout_s poll_interval_s (id + 1) evs r ->
    poll_shape self task_id deadline timeout_s poll_interval_s id
               (EvTime now :: get_event self task_id id
                :: EvSleep poll_interval_s :: evs) r.

(** The traces one [send_prompt] can leave once its timeout is known. *)
Inductive send_shape (self : A2AProxyClient) (prompt : string)
  (timeout_s poll_interval_s : float)
  : list event -> outcome string -> Prop :=
| send_answered (message_id : string) (r : outcome string) :
    r <> Unfinished ->
    send_shape self prompt timeout_s poll_interval_s
               [EvUuid message_id; send_event self prompt message_id] r
| send_polled (message_id : string) (task_id : json) (start : float)
    (evs : list event) (r : outcome string) :
    poll_shape self task_id (float_add start timeout_s) timeout_s
               poll_interval_s 2 evs r ->
    send_shape self prompt timeout_s poll_interval_s
               (EvUuid message_id :: send_event self prompt message_id
                :: EvTime start :: evs) r.

(** A decoded [tasks/get] body that carries a task still in progress:
    the loop sleeps and polls again. *)
Definition pending (data : json) : bool :=
  match jsonrpc_result data with
  | Ok task =>
      match py_get task "status" (JObj []) with
      | Ok status =>
          match py_get status "state" JNull with
          | Ok st =>
              match in_terminal_states st with
              | Ok terminal => negb terminal
              | Raise _ => false
              end
          | Raise _ => false
          end
      | Raise _ => false
      end
  | Raise _ => false
  end.

(** A decoded [message/send] body that announces a task with the given
    id. *)
Definition announces_task (data task_id : json) : Prop :=
  exists res,
    jsonrpc_result data = Ok (JObj res)
    /\ dict_get "kind" res = Some (JStr "task")
    /\ dict_get "id" res = Some task_id.

End Reading.

(** ** A platform and a world to run the model on

    Times are whole seconds; the agent answers [message/send] with a task
    and reports it as working until a given number of calls was made. *)

Module Demo.

Definition is_delimiter (c : ascii) : bool :=
  Ascii.eqb c "/" || Ascii.eqb c "?" || Ascii.eqb c "#".

Fixpoint drop_until (p : ascii -> bool) (s : string) : string :=
  match s with
  | EmptyString => EmptyString
  | String c s' => if p c then s else drop_until p s'
  end.

Fixpoint take_until (p : ascii -> bool) (s : string) : string :=
  match s with
  | EmptyString => EmptyString
  | String c s' => if p c then EmptyString else String c (take_until p s')
  end.

(** The path of [scheme://authority/path?query#fragment]. *)
Definition path_of_url (u : string) : option string :=
  let rest :=
    match index 0 "://" u with
    | Some n =>
        drop_until is_delimiter (substring (n + 3) (String.length u) u)
    | None => u
    end in
  Some (take_until (fun c => Ascii.eqb c "?" || Ascii.eqb c "#") rest).

Definition platform : Platform := {|
  float := Z;
  float_add := Z.add;
  float_ltb := Z.ltb;
  float_of_int := fun n => Some n;
  float_is_zero := fun x => Z.eqb x 0;
  str_float := fun x => PyStr.of_int x ++ ".0";
  repr_str := fun s => "'" ++ s ++ "'";
  sleep_ok := fun x => Z.leb 0 x;
  urlparse_path := path_of_url
|}.

Definition J : Type := @json platform.

Definition task_announcement : J :=
  JObj [("jsonrpc", JStr "2.0"); ("id", JInt 1);
        ("result", JObj [("kind", JStr "task"); ("id", JStr "t1")])].

Definition task_report (st : string) : J :=
  JObj [("jsonrpc", JStr "2.0");
        ("result",
         JObj [("kind", JStr "task"); ("id", JStr "t1");
               ("status", JObj [("state", JStr st)]);
               ("artifacts",
                JArr [JObj [("parts",
                             JArr [text_part "a"; text_part "b"])]])])].

(** An agent whose task completes once [done] calls were posted. *)
Definition world (card : @http_reply platform) (done : nat)
  : @env platform :=
  @Build_env platform
    (fun _ => card)
    (fun n _ payload =>
       if eq_str (payload_field "method" payload) "message/send"
       then ReplyJson task_announcement
       else ReplyJson (task_report (if Nat.ltb n done then "working"
                                    else "completed")))
    (fun n => Z.of_nat n)
    (fun n => "uuid-" ++ PyStr.of_int (Z.of_nat n)).

(** An agent that answers every call with a body that has neither
    [result] nor [error]. *)
Definition mute_world : @env platform :=
  @Build_env platform
    (fun _ => ReplyRaise (RequestException "connection refused"))
    (fun _ _ _ => ReplyJson (JObj [("jsonrpc", JStr "2.0")]))
    (fun n => Z.of_nat n)
    (fun _ => "uuid").

Definition cfg : A2AConfig := {|
  base_url := "http://agent:8000/";
  timeout_seconds := 300;
  auth_token := None;
  verify_tls := true;
  endpoint_path := "v1/chat"
|}.

Definition client : A2AProxyClient := {|
  config := cfg;
  headers := default_headers cfg;
  rpc_url := "http://agent:8000/v1/chat"
|}.

Definition start : state (P := platform) :=
  {| posts := 0; ticks := 0; uuids := 0; trace := [] |}.

Definition card_with_path : @http_reply platform :=
  ReplyJson (JObj [("name", JStr "agent");
                   ("url", JStr "http://agent:8000/a2a/rpc/")]).

Definition no_card : @http_reply platform :=
  ReplyRaise (RequestException "connection refused").

(** A completed task whose only artifact has no text and whose result
    carries a [text] field. *)
Definition completed_task : list (string * J) :=
  [("id", JStr "t1");
   ("status", JObj [("state", JStr "completed")]);
   ("artifacts", JArr [JObj [("parts", JArr [JObj [("kind", JStr "data")]])]]);
   ("result", JObj [("text", JStr "done")])].

Definition ended_task (st : string) : list (string * J) :=
  [("id", JStr "t1");
   ("status", JObj [("state", JStr st); ("error", JStr "boom")])].

(** A run whose task completes at the third poll. *)
Definition run_done : outcome string * state (P := platform) :=
  send_prompt (world no_card 3) 10 client "hi" 1%Z (Some 100%Z) start.

(** A second call on the same client, right after [run_done]. *)
Definition run_again : outcome string * state (P := platform) :=
  send_prompt (world no_card 3) 10 client "hello" 1%Z None (snd run_done).

(** A run whose task never completes, with a timeout of two seconds. *)
Definition run_late : outcome string * state (P := platform) :=
  send_prompt (world no_card 100) 10 client "hi" 1%Z (Some 2%Z) start.

Definition message_fields : list (string * J) :=
  [("role", JStr "agent");
   ("parts", JArr [text_part "hello"; JObj [("kind", JStr "data")];
                   text_part ""; text_part "world"])].

End Demo.

(** * The rest of the package

    What follows embeds the code around the claims above: more readings of
    the client's runs, then [config.py], [prompt.py],
    [appworld_adapter.py], [otel.py] and [runner.py]. *)

(** ** More readings of the client *)

(** A result as the outcome of a finished computation. *)
Definition to_outcome {A : Type} (r : result A) : outcome A :=
  match r with
  | Ok a => Returns a
  | Raise e => Raises e
  end.

(** Whether the last character of a string satisfies [p]. *)
Fixpoint last_char_is (p : ascii -> bool) (s : string) : bool :=
  match s with
  | EmptyString => false
  | String c EmptyString => p c
  | String _ s' => last_char_is p s'
  end.

(** [s.endswith("/")] *)
Definition ends_with_slash (s : string) : bool :=
  last_char_is (Ascii.eqb PyStr.slash) s.

Section ClientReading.
Context {P : Platform}.

(** The state right after one [POST]. *)
Definition after_post (url : string) (payload : json) (s : state) : state :=
  {| posts := S (posts s); ticks := ticks s; uuids := uuids s;
     trace := trace s ++ [EvPost url payload] |}.

(** The body of the [message/send] call of a run that starts in [s]. *)
Definition send_payload (E : env) (prompt : string) (s : state) : json :=
  jsonrpc_payload "message/send"
    (JObj [("message", user_message prompt (uuid4 E (uuids s)));
           ("metadata", JObj [])]) 1.

(** The state of a run right after its [message/send] call. *)
Definition after_send (E : env) (self : A2AProxyClient) (prompt : string)
  (s : state) : state :=
  {| posts := S (posts s); ticks := ticks s; uuids := S (uuids s);
     trace := trace s ++ [EvUuid (uuid4 E (uuids s));
                          send_event self prompt (uuid4 E (uuids s))] |}.

(** The state of a polling run right after the reading of the clock that
    fixes its deadline. *)
Definition after_start (E : env) (self : A2AProxyClient) (prompt : string)
  (s : state) : state :=
  {| posts := S (posts s); ticks := S (ticks s); uuids := S (uuids s);
     trace := (trace s ++ [EvUuid (uuid4 E (uuids s));
                           send_event self prompt (uuid4 E (uuids s))])
              ++ [EvTime (clock E (ticks s))] |}.

(** The reply to the [message/send] call of a run that starts in [s]. *)
Definition send_reply (E : env) (self : A2AProxyClient) (prompt : string)
  (s : state) : http_reply :=
  rpc_reply E (posts s) (rpc_url self) (send_payload E prompt s).

(** The agent answers the [message/send] of a run that starts in [s] with
    a task whose id is [task_id]. *)
Definition announced (E : env) (self : A2AProxyClient) (prompt : string)
  (s : state) (task_id : json) : Prop :=
  exists data,
    send_reply E self prompt s = ReplyJson data
    /\ announces_task data task_id.

(** The reply to the poll number [i] (from 0) of such a run. *)
Definition poll_reply (E : env) (self : A2AProxyClient) (s : state)
  (task_id : json) (i : nat) : http_reply :=
  rpc_reply E (S (posts s) + i) (rpc_url self)
            (jsonrpc_payload "tasks/get" (JObj [("id", task_id)])
                             (2 + Z.of_nat i)).

(** The deadline of a run that starts in [s] and polls. *)
Definition deadline_of (E : env) (s : state) (timeout_s : float) : float :=
  float_add (clock E (ticks s)) timeout_s.

(** The loop condition holds at the poll number [i]. *)
Definition in_time (E : env) (s : state) (timeout_s : float) (i : nat)
  : Prop :=
  float_ltb (clock E (S (ticks s) + i)) (deadline_of E s timeout_s) = true.

(** The first [k] polls of the run are made in time and find the task
    still in progress. *)
Definition pending_polls (E : env) (self : A2AProxyClient) (s : state)
  (task_id : json) (timeout_s : float) (k : nat) : Prop :=
  forall i, i < k ->
    in_time E s timeout_s i
    /\ exists body,
         poll_reply E self s task_id i = ReplyJson body
         /\ pending body = true.

(** The task carried by a decoded [tasks/get] body, when its state is one
    of the four terminal states. *)
Definition settled (data : json) : option json :=
  match jsonrpc_result data with
  | Ok task =>
      match py_get task "status" (JObj []) with
      | Ok status =>
          match py_get status "state" JNull with
          | Ok st =>
              match in_terminal_states st with
              | Ok true => Some task
              | _ => None
              end
          | Raise _ => None
          end
      | Raise _ => None
      end
  | Raise _ => None
  end.

(** The number of sleeps in a trace. *)
Fixpoint sleeps (evs : list event) : nat :=
  match evs with
  | [] => 0
  | EvSleep _ :: rest => S (sleeps rest)
  | _ :: rest => sleeps rest
  end.

(** The number of readings of the clock in a trace. *)
Fixpoint clock_reads (evs : list event) : nat :=
  match evs with
  | [] => 0
  | EvTime _ :: rest => S (clock_reads rest)
  | _ :: rest => clock_reads rest
  end.

End ClientReading.

(** ** More of the interpreter and of the libraries

    Left abstract like [Platform]: [int(s)] on a string, [json.dumps] with
    sorted keys and an indent of two, the float operations the runner
    uses, and the name and the text of an exception. *)

Class Runtime {P : Platform} : Type := {
  (** [int(s)]; [None] when it raises [ValueError]. *)
  py_int : string -> option Z;
  (** [json.dumps(v, sort_keys=True, indent=2)] *)
  json_dumps_pretty : json -> string;
  (** [a - b] on floats. *)
  float_sub : float -> float -> float;
  (** [a * n] for a float and an [int]. *)
  float_mul_int : float -> Z -> float;
  (** the literal [0.5] *)
  float_half : float;
  (** [type(e).__name__] *)
  exc_type_name : py_error -> string;
  (** [str(e)] *)
  exc_str : py_error -> string
}.

(** ** [config.py] *)

(** [os.environ], as [os.getenv] sees it. *)
Definition environ : Type := string -> option string.

(** [os.getenv(key, default)] *)
Definition getenv_or (env : environ) (key default : string) : string :=
  match env key with
  | Some v => v
  | None => default
  end.

(** [c.lower()] on one character (code points below 256). *)
Definition lower_char (c : ascii) : ascii :=
  let n := nat_of_ascii c in
  if (((65 <=? n) && (n <=? 90)) || ((192 <=? n) && (n <=? 214))
      || ((216 <=? n) && (n <=? 222)))%nat
  then ascii_of_nat (n + 32)
  else c.

(** [s.lower()] *)
Fixpoint lower (s : string) : string :=
  match s with
  | EmptyString => EmptyString
  | String c s' => String (lower_char c) (lower s')
  end.

(** [value in (w1, w2, ...)] for strings. *)
Definition str_in (value : string) (words : list string) : bool :=
  existsb (String.eqb value) words.

Definition true_words : list string := ["1"; "true"; "yes"; "on"].
Definition false_words : list string := ["0"; "false"; "no"; "off"].

Definition _get_bool (env : environ) (key : string) (default : bool) : bool :=
  let value := lower (getenv_or env key "") in
  if str_in value true_words then true
  else if str_in value false_words then false
  else default.

Record AppWorldConfig : Type := {
  dataset : string;
  remote_apis_url : option string;
  root : option string;
  max_tasks : option Z;
  abort_on_failure : bool
}.

Record OTELConfig : Type := {
  service_name : string;
  exporter_endpoint : option string;
  exporter_protocol : string;
  resource_attributes : option string;
  instrument_requests : bool;
  exporter_insecure : bool
}.

Record DebugConfig : Type := {
  log_prompt : bool;
  log_response : bool
}.

Record Config : Type := {
  a2a : A2AConfig;
  appworld : AppWorldConfig;
  otel : OTELConfig;
  debug : DebugConfig
}.

(** [not value] for an optional string: unset or empty. *)
Definition missing (value : option string) : bool :=
  match value with
  | Some v => PyStr.is_empty v
  | None => true
  end.

Definition DebugConfig_from_env (env : environ) : DebugConfig :=
  {| log_prompt := _get_bool env "LOG_PROMPT" false;
     log_response := _get_bool env "LOG_RESPONSE" false |}.

Definition OTELConfig_from_env (env : environ) : OTELConfig :=
  {| service_name := getenv_or env "OTEL_SERVICE_NAME" "appworld-a2a-proxy";
     exporter_endpoint := env "OTEL_EXPORTER_OTLP_ENDPOINT";
     exporter_protocol := getenv_or env "OTEL_EXPORTER_OTLP_PROTOCOL" "grpc";
     resource_attributes := env "OTEL_RESOURCE_ATTRIBUTES";
     instrument_requests := _get_bool env "OTEL_INSTRUMENT_REQUESTS" true;
     exporter_insecure := _get_bool env "OTEL_EXPORTER_OTLP_INSECURE" true |}.

Section ConfigFromEnv.
Context {P : Platform} {R : Runtime}.

Definition _get_int (env : environ) (key : string) (default : option Z)
  : option Z :=
  match env key with
  | None => default
  | Some value =>
      match py_int value with
      | Some n => Some n
      | None => default
      end
  end.

(** [x or 300] for an optional [int]. *)
Definition or_300 (x : option Z) : Z :=
  match x with
  | Some n => if Z.eqb n 0 then 300%Z else n
  | None => 300%Z
  end.

Definition A2AConfig_from_env (env : environ) : result A2AConfig :=
  let base := env "A2A_BASE_URL" in
  if missing base then
    Raise (ValueError "A2A_BASE_URL environment variable is required")
  else
    Ok {| base_url := match base with Some b => b | None => "" end;
          timeout_seconds :=
            or_300 (_get_int env "A2A_TIMEOUT_SECONDS" (Some 300%Z));
          auth_token := env "A2A_AUTH_TOKEN";
          verify_tls := _get_bool env "A2A_VERIFY_TLS" true;
          endpoint_path := getenv_or env "A2A_ENDPOINT_PATH" "/v1/chat" |}.

Definition AppWorldConfig_from_env (env : environ) : result AppWorldConfig :=
  let ds := env "APPWORLD_DATASET" in
  if missing ds then
    Raise (ValueError "APPWORLD_DATASET environment variable is required")
  else
    let remote := env "APPWORLD_REMOTE_APIS_URL" in
    if missing remote then
      Raise (ValueError
               "APPWORLD_REMOTE_APIS_URL environment variable is required")
    else
      Ok {| dataset := match ds with Some d => d | None => "" end;
            remote_apis_url := remote;
            root := env "APPWORLD_ROOT";
            max_tasks := _get_int env "MAX_TASKS" None;
            abort_on_failure := _get_bool env "ABORT_ON_FAILURE" false |}.

Definition Config_from_env (env : environ) : result Config :=
  rbind (A2AConfig_from_env env) (fun a =>
  rbind (AppWorldConfig_from_env env) (fun w =>
  Ok {| a2a := a; appworld := w; otel := OTELConfig_from_env env;
        debug := DebugConfig_from_env env |})).

End ConfigFromEnv.

(** ** [prompt.py] *)

Section Prompt.
Context {P : Platform} {R : Runtime}.

(** The supervisor is [None] ([JNull]), a string, a dict, or anything
    else. *)
Definition serialize_supervisor (supervisor : json) : string :=
  match supervisor with
  | JNull => ""
  | JStr s => s
  | JObj _ => json_dumps_pretty supervisor
  | _ => py_str supervisor
  end.

Definition build_prompt (instruction : string) (supervisor : json)
  (app_descriptions : json) : string :=
  "I am your supervisor:" ++ PyStr.nl
  ++ serialize_supervisor supervisor ++ PyStr.nl
  ++ PyStr.nl
  ++ "The task you are to complete is:" ++ PyStr.nl
  ++ instruction ++ PyStr.nl
  ++ PyStr.nl
  ++ "The applications available to you to help you complete the task are the following:"
  ++ PyStr.nl
  ++ py_str app_descriptions.

End Prompt.

(** ** The objects passed around by the runner *)

Module TaskData.
Record t {P : Platform} : Type := make {
  task_id : string;
  instruction : string;
  supervisor : json;
  app_descriptions : json
}.
Arguments make {P} task_id instruction supervisor app_descriptions.
End TaskData.

Module TaskResult.
Record t {P : Platform} : Type := make {
  task_id : string;
  success : bool;
  latency_ms : float;
  error : option string;
  response_chars : option nat
}.
Arguments make {P} task_id success latency_ms error response_chars.
End TaskResult.

(** What [Task.load] gives: the attributes of the task that the adapter
    reads. An [instruction] that is [None] or empty is the empty string;
    a task without a [supervisor] attribute has [JNull]. *)
Module LoadedTask.
Record t {P : Platform} : Type := make {
  instruction : string;
  supervisor : json;
  app_descriptions : json
}.
Arguments make {P} instruction supervisor app_descriptions.
End LoadedTask.

(** ** The world of the runner *)

Section RunnerWorld.
Context {P : Platform} {R : Runtime}.

(** A number handed to a span or an instrument. *)
Inductive number : Type :=
| NInt (n : Z)
| NFloat (x : float).

(** The library calls made by [OTELInstrumentation.initialize]. *)
Inductive otel_setup : Type :=
| ResourceCreate (attrs : list (string * string))
| TracingSetup (otlp_endpoint : option string)
| RequestsInstrument
| MeterSetup (otlp_endpoint : option string)
| CreateInstrument (name : string).

(** The calls the package makes on AppWorld, on OpenTelemetry and on the
    console, as they are recorded in the journal of a run. *)
Inductive call : Type :=
| LoadTaskIds (dataset_name : string)
| TaskLoad (task_id : string)
| TaskClose (task_id : string)
| WorldOpen (task_id : string) (remote : option string)
| WorldSaveState (task_id : string)
| WorldSaveLogs (task_id : string)
| Setup (c : otel_setup)
| SpanStart (name : string)
| SpanEnd (name : string) (exc : option py_error)
| SpanSetAttribute (key : string) (value : json)
| SpanAddEvent (name : string) (attrs : list (string * string))
| SpanSetStatus (ok : bool) (description : option string)
| SpanRecordException (e : py_error)
| InstrumentAdd (name : string) (amount : Z) (attrs : list (string * string))
| InstrumentRecord (name : string) (value : number)
| PrintSummary (dataset_name : string) (attempted succeeded failed : nat).

(** The outside of the runner: the peers of the client and the answers
    of the AppWorld and OpenTelemetry libraries ([None]: the call returns
    normally). Calls on a span or on an instrument, [task.close()] and
    leaving a context return normally. *)
Record world : Type := {
  net : env;
  load_task_ids : string -> result (list string);
  task_load : string -> result LoadedTask.t;
  world_open : string -> option py_error;
  world_save_state : string -> option py_error;
  world_save_logs : string -> option py_error;
  otel_setup_fails : otel_setup -> option py_error
}.

(** The fields of an [OTELInstrumentation] object: the tracer and each
    instrument is [None] ([false]) or set. *)
Record OTELInstrumentation : Type := {
  otel_config : OTELConfig;
  tracer : bool;
  meter : bool;
  tasks_counter : bool;
  errors_counter : bool;
  task_latency_histogram : bool;
  a2a_latency_histogram : bool;
  prompt_size_histogram : bool;
  response_size_histogram : bool;
  inflight_gauge : bool;
  _requests_instrumented : bool
}.

(** The mutable state of a run: the effects of the client, the journal,
    the telemetry object, the adapter's [_initialized] flag and the
    results of the summary. *)
Record run_state : Type := {
  net_state : state;
  journal : list call;
  telemetry : OTELInstrumentation;
  adapter_initialized : bool;
  results : list TaskResult.t
}.

Definition RM (A : Type) : Type := run_state -> outcome A * run_state.

Definition rm_ret {A : Type} (a : A) : RM A := fun s => (Returns a, s).

Definition rm_bind {A B : Type} (m : RM A) (k : A -> RM B) : RM B :=
  fun s =>
    match m s with
    | (Returns a, s') => k a s'
    | (Raises e, s') => (Raises e, s')
    | (Unfinished, s') => (Unfinished, s')
    end.

Definition rm_raise {A : Type} (e : py_error) : RM A :=
  fun s => (Raises e, s).

(** [try: m  except Exception as e: h e] *)
Definition rm_catch {A : Type} (m : RM A) (h : py_error -> RM A) : RM A :=
  fun s =>
    match m s with
    | (Raises e, s') => h e s'
    | other => other
    end.

(** [try: m  finally: f]: an exception raised by [f] replaces the outcome
    of [m]. *)
Definition rm_finally {A : Type} (m : RM A) (f : RM unit) : RM A :=
  fun s =>
    match m s with
    | (Unfinished, s') => (Unfinished, s')
    | (r, s') =>
        match f s' with
        | (Returns _, s'') => (r, s'')
        | (Raises e, s'') => (Raises e, s'')
        | (Unfinished, s'') => (Unfinished, s'')
        end
    end.

(** A computation of the client, run on the client's part of the state. *)
Definition rm_net {A : Type} (m : M A) : RM A :=
  fun s =>
    let (r, n) := m (net_state s) in
    (r, {| net_state := n; journal := journal s; telemetry := telemetry s;
           adapter_initialized := adapter_initialized s;
           results := results s |}).

(** One call on a library, recorded. *)
Definition rm_call (c : call) : RM unit :=
  fun s =>
    (Returns tt,
     {| net_state := net_state s; journal := journal s ++ [c];
        telemetry := telemetry s;
        adapter_initialized := adapter_initialized s;
        results := results s |}).

(** One call on a library that may raise, recorded. *)
Definition rm_call_may_raise (c : call) (answer : option py_error) : RM unit :=
  rm_bind (rm_call c) (fun _ =>
  match answer with
  | Some e => rm_raise e
  | None => rm_ret tt
  end).

Definition rm_when (b : bool) (m : RM unit) : RM unit :=
  if b then m else rm_ret tt.

Definition get_telemetry : RM OTELInstrumentation :=
  fun s => (Returns (telemetry s), s).

Definition set_telemetry (o : OTELInstrumentation) : RM unit :=
  fun s =>
    (Returns tt,
     {| net_state := net_state s; journal := journal s; telemetry := o;
        adapter_initialized := adapter_initialized s;
        results := results s |}).

End RunnerWorld.

(** ** [appworld_adapter.py] *)

(** [l[:n]] *)
Definition slice_to {A : Type} (l : list A) (n : Z) : list A :=
  if (0 <=? n)%Z then firstn (Z.to_nat n) l
  else firstn (Z.to_nat (Z.of_nat (length l) + n)) l.

Section Adapter.
Context {P : Platform} {R : Runtime}.
Variable W : world.

Definition set_adapter_initialized : RM unit :=
  fun s =>
    (Returns tt,
     {| net_state := net_state s; journal := journal s;
        telemetry := telemetry s; adapter_initialized := true;
        results := results s |}).

Definition require_initialized : RM unit :=
  fun s =>
    if adapter_initialized s then (Returns tt, s)
    else (Raises (RuntimeError
                    "AppWorld adapter not initialized. Call initialize() first."),
          s).

Definition AppWorldAdapter_initialize (cfg : AppWorldConfig) : RM unit :=
  if missing (remote_apis_url cfg) then
    rm_raise (ValueError
                "APPWORLD_REMOTE_APIS_URL environment variable is required")
  else set_adapter_initialized.

Definition get_task_ids (cfg : AppWorldConfig) : RM (list string) :=
  rm_bind require_initialized (fun _ =>
  rm_bind (rm_call (LoadTaskIds (dataset cfg))) (fun _ =>
  match load_task_ids W (dataset cfg) with
  | Raise e => rm_raise e
  | Ok task_ids =>
      rm_ret (match max_tasks cfg with
              | Some n => slice_to task_ids n
              | None => task_ids
              end)
  end)).

Definition get_task_data (task_id : string) : RM TaskData.t :=
  rm_bind require_initialized (fun _ =>
  rm_bind (rm_call (TaskLoad task_id)) (fun _ =>
  match task_load W task_id with
  | Raise e => rm_raise e
  | Ok task =>
      if PyStr.is_empty (LoadedTask.instruction task) then
        rm_raise (ValueError ("Task " ++ task_id ++ " has no instruction"))
      else
        rm_bind (rm_call (TaskClose task_id)) (fun _ =>
        rm_ret (TaskData.make task_id (LoadedTask.instruction task)
                              (LoadedTask.supervisor task)
                              (LoadedTask.app_descriptions task)))
  end)).

(** [iterate_tasks] up to its [yield] for one task: the AppWorld context
    is entered, then the task data is read. The handler logs and
    re-raises. *)
Definition iterate_tasks_yield (cfg : AppWorldConfig) (task_id : string)
  : RM TaskData.t :=
  rm_catch
    (rm_bind (rm_call_may_raise (WorldOpen task_id (remote_apis_url cfg))
                                (world_open W task_id)) (fun _ =>
     get_task_data task_id))
    (fun e => rm_raise e).

(** [iterate_tasks] from its [yield] on, when the consumer asks for the
    next task: the state and the logs of the world are saved. *)
Definition iterate_tasks_resume (task_id : string) : RM unit :=
  rm_catch
    (rm_bind (rm_call_may_raise (WorldSaveState task_id)
                                (world_save_state W task_id)) (fun _ =>
     rm_call_may_raise (WorldSaveLogs task_id) (world_save_logs W task_id)))
    (fun e => rm_raise e).

End Adapter.

(** ** [otel.py] *)

(** [s.split(sep)] for a separator of one character. *)
Fixpoint split_on (sep : ascii) (s : string) : list string :=
  match s with
  | EmptyString => [EmptyString]
  | String c s' =>
      if Ascii.eqb c sep then EmptyString :: split_on sep s'
      else
        match split_on sep s' with
        | piece :: pieces => String c piece :: pieces
        | [] => [String c EmptyString]
        end
  end.

(** [s.split(sep, 1)] when [sep] occurs in [s]: what is before and what
    is after its first occurrence. *)
Fixpoint split_first (sep : ascii) (s : string) : option (string * string) :=
  match s with
  | EmptyString => None
  | String c s' =>
      if Ascii.eqb c sep then Some (EmptyString, s')
      else
        match split_first sep s' with
        | Some (before, after) => Some (String c before, after)
        | None => None
        end
  end.

(** [d[k] = v] on a dict of strings. *)
Fixpoint attrs_set (k v : string) (d : list (string * string))
  : list (string * string) :=
  match d with
  | [] => [(k, v)]
  | (k', v') :: rest =>
      if String.eqb k k' then (k, v) :: rest
      else (k', v') :: attrs_set k v rest
  end.

Fixpoint attrs_get (k : string) (d : list (string * string)) : option string :=
  match d with
  | [] => None
  | (k', v) :: rest => if String.eqb k k' then Some v else attrs_get k rest
  end.

(** The loop of [initialize] over the items of [OTEL_RESOURCE_ATTRIBUTES]. *)
Definition add_resource_attr (d : list (string * string)) (attr : string)
  : list (string * string) :=
  match split_first "=" attr with
  | Some (key, value) => attrs_set (PyStr.strip key) (PyStr.strip value) d
  | None => d
  end.

(** The resource attributes [initialize] builds. *)
Definition resource_attrs (cfg : OTELConfig) : list (string * string) :=
  let base := [("service.name", service_name cfg)] in
  match resource_attributes cfg with
  | Some attrs =>
      if PyStr.is_empty attrs then base
      else fold_left add_resource_attr (split_on "," attrs) base
  | None => base
  end.

(** [x if x else None] for an optional string. *)
Definition truthy_str (x : option string) : option string :=
  if missing x then None else x.

Section Otel.
Context {P : Platform} {R : Runtime}.
Variable W : world.

Definition new_telemetry (cfg : OTELConfig) : OTELInstrumentation :=
  {| otel_config := cfg; tracer := false; meter := false;
     tasks_counter := false; errors_counter := false;
     task_latency_histogram := false; a2a_latency_histogram := false;
     prompt_size_histogram := false; response_size_histogram := false;
     inflight_gauge := false; _requests_instrumented := false |}.

Definition set_tracer (o : OTELInstrumentation) : OTELInstrumentation :=
  {| otel_config := otel_config o;
     tracer := true;
     meter := meter o;
     tasks_counter := tasks_counter o;
     errors_counter := errors_counter o;
     task_latency_histogram := task_latency_histogram o;
     a2a_latency_histogram := a2a_latency_histogram o;
     prompt_size_histogram := prompt_size_histogram o;
     response_size_histogram := response_size_histogram o;
     inflight_gauge := inflight_gauge o;
     _requests_instrumented := _requests_instrumented o |}.

Definition set_meter (o : OTELInstrumentation) : OTELInstrumentation :=
  {| otel_config := otel_config o;
     tracer := tracer o;
     meter := true;
     tasks_counter := tasks_counter o;
     errors_counter := errors_counter o;
     task_latency_histogram := task_latency_histogram o;
     a2a_latency_histogram := a2a_latency_histogram o;
     prompt_size_histogram := prompt_size_histogram o;
     response_size_histogram := response_size_histogram o;
     inflight_gauge := inflight_gauge o;
     _requests_instrumented := _requests_instrumented o |}.

Definition set_tasks_counter (o : OTELInstrumentation) : OTELInstrumentation :=
  {| otel_config := otel_config o;
     tracer := tracer o;
     meter := meter o;
     tasks_counter := true;
     errors_counter := errors_counter o;
     task_latency_histogram := task_latency_histogram o;
     a2a_latency_histogram := a2a_latency_histogram o;
     prompt_size_histogram := prompt_size_histogram o;
     response_size_histogram := response_size_histogram o;
     inflight_gauge := inflight_gauge o;
     _requests_instrumented := _requests_instrumented o |}.

Definition set_errors_counter (o : OTELInstrumentation) : OTELInstrumentation :=
  {| otel_config := otel_config o;
     tracer := tracer o;
     meter := meter o;
     tasks_counter := tasks_counter o;
     errors_counter := true;
     task_latency_histogram := task_latency_histogram o;
     a2a_latency_histogram := a2a_latency_histogram o;
     prompt_size_histogram := prompt_size_histogram o;
     response_size_histogram := response_size_histogram o;
     inflight_gauge := inflight_gauge o;
     _requests_instrumented := _requests_instrumented o |}.

Definition set_task_latency_histogram (o : OTELInstrumentation) : OTELInstrumentation :=
  {| otel_config := otel_config o;
     tracer := tracer o;
     meter := meter o;
     tasks_counter := tasks_counter o;
     errors_counter := errors_counter o;
     task_latency_histogram := true;
     a2a_latency_histogram := a2a_latency_histogram o;
     prompt_size_histogram := prompt_size_histogram o;
     response_size_histogram := response_size_histogram o;
     inflight_gauge := inflight_gauge o;
     _requests_instrumented := _requests_instrumented o |}.

Definition set_a2a_latency_histogram (o : OTELInstrumentation) : OTELInstrumentation :=
  {| otel_config := otel_config o;
     tracer := tracer o;
     meter := meter o;
     tasks_counter := tasks_counter o;
     errors_counter := errors_counter o;
     task_latency_histogram := task_latency_histogram o;
     a2a_latency_histogram := true;
     prompt_size_histogram := prompt_size_histogram o;
     response_size_histogram := response_size_histogram o;
     inflight_gauge := inflight_gauge o;
     _requests_instrumented := _requests_instrumented o |}.

Definition set_prompt_size_histogram (o : OTELInstrumentation) : OTELInstrumentation :=
  {| otel_config := otel_config o;
     tracer := tracer o;
     meter := meter o;
     tasks_counter := tasks_counter o;
     errors_counter := errors_counter o;
     task_latency_histogram := task_latency_histogram o;
     a2a_latency_histogram := a2a_latency_histogram o;
     prompt_size_histogram := true;
     response_size_histogram := response_size_histogram o;
     inflight_gauge := inflight_gauge o;
     _requests_instrumented := _requests_instrumented o |}.

Definition set_response_size_histogram (o : OTELInstrumentation) : OTELInstrumentation :=
  {| otel_config := otel_config o;
     tracer := tracer o;
     meter := meter o;
     tasks_counter := tasks_counter o;
     errors_counter := errors_counter o;
     task_latency_histogram := task_latency_histogram o;
     a2a_latency_histogram := a2a_latency_histogram o;
     prompt_size_histogram := prompt_size_histogram o;
     response_size_histogram := true;
     inflight_gauge := inflight_gauge o;
     _requests_instrumented := _requests_instrumented o |}.

Definition set_inflight_gauge (o : OTELInstrumentation) : OTELInstrumentation :=
  {| otel_config := otel_config o;
     tracer := tracer o;
     meter := meter o;
     tasks_counter := tasks_counter o;
     errors_counter := errors_counter o;
     task_latency_histogram := task_latency_histogram o;
     a2a_latency_histogram := a2a_latency_histogram o;
     prompt_size_histogram := prompt_size_histogram o;
     response_size_histogram := response_size_histogram o;
     inflight_gauge := true;
     _requests_instrumented := _requests_instrumented o |}.

Definition set_requests_instrumented (o : OTELInstrumentation) : OTELInstrumentation :=
  {| otel_config := otel_config o;
     tracer := tracer o;
     meter := meter o;
     tasks_counter := tasks_counter o;
     errors_counter := errors_counter o;
     task_latency_histogram := task_latency_histogram o;
     a2a_latency_histogram := a2a_latency_histogram o;
     prompt_size_histogram := prompt_size_histogram o;
     response_size_histogram := response_size_histogram o;
     inflight_gauge := inflight_gauge o;
     _requests_instrumented := true |}.

(** A field of the telemetry object is assigned. *)
Definition assign (f : OTELInstrumentation -> OTELInstrumentation) : RM unit :=
  rm_bind get_telemetry (fun o => set_telemetry (f o)).

(** A library call of [initialize]. *)
Definition setup (c : otel_setup) : RM unit :=
  rm_call_may_raise (Setup c) (otel_setup_fails W c).

Definition _initialize_tracing : RM unit :=
  rm_bind get_telemetry (fun o =>
  rm_bind (setup (TracingSetup
                    (truthy_str (exporter_endpoint (otel_config o)))))
          (fun _ =>
  assign set_tracer)).

Definition _initialize_auto_instrumentation : RM unit :=
  rm_bind get_telemetry (fun o =>
  if negb (instrument_requests (otel_config o)) then rm_ret tt
  else if _requests_instrumented o then rm_ret tt
  else rm_bind (setup RequestsInstrument) (fun _ =>
       assign set_requests_instrumented)).

Definition create (name : string)
  (f : OTELInstrumentation -> OTELInstrumentation) : RM unit :=
  rm_bind (setup (CreateInstrument name)) (fun _ => assign f).

Definition _initialize_metrics : RM unit :=
  rm_bind get_telemetry (fun o =>
  rm_bind (setup (MeterSetup (truthy_str (exporter_endpoint (otel_config o)))))
          (fun _ =>
  rm_bind (assign set_meter) (fun _ =>
  rm_bind (create "a2a_proxy_tasks_total" set_tasks_counter) (fun _ =>
  rm_bind (create "a2a_proxy_errors_total" set_errors_counter) (fun _ =>
  rm_bind (create "a2a_proxy_task_latency_ms" set_task_latency_histogram)
          (fun _ =>
  rm_bind (create "a2a_proxy_a2a_latency_ms" set_a2a_latency_histogram)
          (fun _ =>
  rm_bind (create "a2a_proxy_prompt_size_chars" set_prompt_size_histogram)
          (fun _ =>
  rm_bind (create "a2a_proxy_response_size_chars" set_response_size_histogram)
          (fun _ =>
  create "a2a_proxy_inflight_tasks" set_inflight_gauge))))))))).

Definition OTELInstrumentation_initialize : RM unit :=
  rm_bind get_telemetry (fun o =>
  rm_bind (setup (ResourceCreate (resource_attrs (otel_config o)))) (fun _ =>
  rm_bind _initialize_tracing (fun _ =>
  rm_bind _initialize_auto_instrumentation (fun _ =>
  _initialize_metrics)))).

(** [time.time()], read through the client's clock. *)
Definition now : RM float := rm_net (time_time (net W)).

(** [(b - a) * 1000] *)
Definition elapsed_ms (a b : float) : float :=
  float_mul_int (float_sub b a) 1000.

(** [with self.tracer.start_as_current_span(name) as span: body] *)
Definition with_span {A : Type} (name : string) (body : RM A) : RM A :=
  rm_bind (rm_call (SpanStart name)) (fun _ =>
  fun s =>
    match body s with
    | (Returns a, s') => rm_bind (rm_call (SpanEnd name None))
                                 (fun _ => rm_ret a) s'
    | (Raises e, s') => rm_bind (rm_call (SpanEnd name (Some e)))
                                (fun _ => rm_raise e) s'
    | (Unfinished, s') => (Unfinished, s')
    end).

Definition task_span {A : Type} (task_id dataset_name a2a_base_url : string)
  (a2a_timeout : Z) (body : RM A) : RM A :=
  rm_bind get_telemetry (fun o =>
  if negb (tracer o) then rm_raise (RuntimeError "OTEL not initialized")
  else
    rm_bind (rm_when (inflight_gauge o)
               (rm_call (InstrumentAdd "a2a_proxy_inflight_tasks" 1 [])))
            (fun _ =>
    rm_bind now (fun start_time =>
    with_span "a2a_proxy.task"
      (rm_bind (rm_call (SpanSetAttribute "appworld.task_id" (JStr task_id)))
               (fun _ =>
       rm_bind (rm_call (SpanSetAttribute "appworld.dataset"
                                          (JStr dataset_name))) (fun _ =>
       rm_bind (rm_call (SpanSetAttribute "a2a.base_url" (JStr a2a_base_url)))
               (fun _ =>
       rm_bind (rm_call (SpanSetAttribute "a2a.timeout_seconds"
                                          (JInt a2a_timeout))) (fun _ =>
       rm_finally body
         (rm_bind get_telemetry (fun o' =>
          rm_bind (rm_when (inflight_gauge o')
                     (rm_call (InstrumentAdd "a2a_proxy_inflight_tasks"
                                             (-1) []))) (fun _ =>
          rm_bind now (fun end_time =>
          rm_when (task_latency_histogram o')
            (rm_call (InstrumentRecord "a2a_proxy_task_latency_ms"
                        (NFloat (elapsed_ms start_time end_time)))))))))))))))).

Definition child_span {A : Type} (name : string) (body : RM A) : RM A :=
  rm_bind get_telemetry (fun o =>
  if negb (tracer o) then rm_raise (RuntimeError "OTEL not initialized")
  else with_span name body).

Definition record_prompt (prompt : string) : RM unit :=
  let prompt_chars := Z.of_nat (String.length prompt) in
  rm_bind (rm_call (SpanSetAttribute "prompt.chars" (JInt prompt_chars)))
          (fun _ =>
  rm_bind (rm_call (SpanAddEvent "prompt_built" [])) (fun _ =>
  rm_bind get_telemetry (fun o =>
  rm_when (prompt_size_histogram o)
    (rm_call (InstrumentRecord "a2a_proxy_prompt_size_chars"
                               (NInt prompt_chars)))))).

Definition record_a2a_request (duration_ms : float) : RM unit :=
  rm_bind (rm_call (SpanSetAttribute "a2a.duration_ms" (JFloat duration_ms)))
          (fun _ =>
  rm_bind get_telemetry (fun o =>
  rm_when (a2a_latency_histogram o)
    (rm_call (InstrumentRecord "a2a_proxy_a2a_latency_ms"
                               (NFloat duration_ms))))).

Definition record_response (response : string) : RM unit :=
  let response_chars := Z.of_nat (String.length response) in
  rm_bind (rm_call (SpanSetAttribute "response.chars" (JInt response_chars)))
          (fun _ =>
  rm_bind get_telemetry (fun o =>
  rm_when (response_size_histogram o)
    (rm_call (InstrumentRecord "a2a_proxy_response_size_chars"
                               (NInt response_chars))))).

Definition record_success : RM unit :=
  rm_bind (rm_call (SpanSetAttribute "task.status" (JStr "success")))
          (fun _ =>
  rm_bind (rm_call (SpanSetStatus true None)) (fun _ =>
  rm_bind get_telemetry (fun o =>
  rm_when (tasks_counter o)
    (rm_call (InstrumentAdd "a2a_proxy_tasks_total" 1
                            [("status", "success")]))))).

Definition record_failure (error : py_error) (error_type : string) : RM unit :=
  rm_bind (rm_call (SpanSetAttribute "task.status" (JStr "failed")))
          (fun _ =>
  rm_bind (rm_call (SpanAddEvent "task_failed"
                      [("error.type", error_type);
                       ("error.message", exc_str error)])) (fun _ =>
  rm_bind (rm_call (SpanSetStatus false (Some (exc_str error)))) (fun _ =>
  rm_bind (rm_call (SpanRecordException error)) (fun _ =>
  rm_bind get_telemetry (fun o =>
  rm_bind (rm_when (tasks_counter o)
             (rm_call (InstrumentAdd "a2a_proxy_tasks_total" 1
                                     [("status", "failed")]))) (fun _ =>
  rm_when (errors_counter o)
    (rm_call (InstrumentAdd "a2a_proxy_errors_total" 1
                            [("error_type", error_type)])))))))).

(** [OTELInstrumentation] defines no [shutdown]: looking the attribute
    up raises [AttributeError]. *)
Definition OTELInstrumentation_shutdown : RM unit := rm_raise AttributeError.

End Otel.

(** ** [runner.py] *)

(** A [Runner] object: its configuration, its client and the start time
    of its summary. Its adapter, its telemetry object and the results of
    its summary are in the state of the run. *)
Module Runner.
Record t {P : Platform} : Type := make {
  config : Config;
  a2a_client : A2AProxyClient;
  start_time : float
}.
Arguments make {P} config a2a_client start_time.
End Runner.

(** The points of the [try] block of [main] at which a Ctrl-C is let
    arrive: before one of its three statements, or while [Runner(config)]
    waits for the agent card. A Ctrl-C at another moment is not
    modelled. *)
Inductive main_point : Type :=
| BeforeConfig
| BeforeRunner
| DuringCardFetch
| BeforeRun.

(** How the [try] block of [main] is left: as its statements end, or by
    [KeyboardInterrupt], which is no [Exception]: none of the handlers
    [except Exception] of the package catches it. *)
Inductive main_try_end : Type :=
| Ended (r : outcome Z)
| KeyboardInterrupt.

Section RunnerModel.
Context {P : Platform} {R : Runtime}.
Variable W : world.

(** [RunSummary.add_result] *)
Definition add_result (r : TaskResult.t) : RM unit :=
  fun s =>
    (Returns tt,
     {| net_state := net_state s; journal := journal s;
        telemetry := telemetry s;
        adapter_initialized := adapter_initialized s;
        results := results s ++ [r] |}).

Definition get_results : RM (list TaskResult.t) :=
  fun s => (Returns (results s), s).

(** [sum(1 for r in self.results if r.success)] *)
Definition succeeded (rs : list TaskResult.t) : nat :=
  length (filter TaskResult.success rs).

(** [RunSummary.print_summary]: [get_summary] reads the clock for the
    wall time; of what is printed the journal keeps the data set and the
    three counts, [tasks_failed] being computed as
    [attempted - succeeded]. *)
Definition print_summary (dataset_name : string) : RM unit :=
  rm_bind (now W) (fun _ =>
  rm_bind get_results (fun rs =>
  let attempted := length rs in
  rm_call (PrintSummary dataset_name attempted (succeeded rs)
                        (attempted - succeeded rs)))).

(** The body of the [try] of [process_task]. *)
Definition process_task_try (fuel : nat) (self : Runner.t)
  (task_data : TaskData.t) (start_time : float) : RM TaskResult.t :=
  rm_bind (child_span "a2a_proxy.prompt.build"
             (rm_ret (build_prompt (TaskData.instruction task_data)
                                   (TaskData.supervisor task_data)
                                   (TaskData.app_descriptions task_data))))
          (fun prompt =>
  rm_bind (record_prompt prompt) (fun _ =>
  rm_bind (now W) (fun a2a_start =>
  rm_bind (child_span "a2a_proxy.a2a.send_prompt"
             (rm_net (send_prompt (net W) fuel (Runner.a2a_client self)
                                  prompt float_half None)))
          (fun response =>
  rm_bind (now W) (fun a2a_end =>
  rm_bind (record_a2a_request (elapsed_ms a2a_start a2a_end)) (fun _ =>
  rm_bind (record_response response) (fun _ =>
  rm_bind record_success (fun _ =>
  rm_bind (now W) (fun end_time =>
  rm_ret (TaskResult.make (TaskData.task_id task_data) true
                          (elapsed_ms start_time end_time) None
                          (Some (String.length response)))))))))))).

(** The handler of [process_task]. *)
Definition process_task_except (task_data : TaskData.t) (start_time : float)
  (e : py_error) : RM TaskResult.t :=
  let error_type := exc_type_name e in
  let error_msg := exc_str e in
  rm_bind (record_failure e error_type) (fun _ =>
  rm_bind (now W) (fun end_time =>
  rm_ret (TaskResult.make (TaskData.task_id task_data) false
                          (elapsed_ms start_time end_time)
                          (Some (error_type ++ ": " ++ error_msg)) None))).

Definition process_task (fuel : nat) (self : Runner.t)
  (task_data : TaskData.t) : RM TaskResult.t :=
  let cfg := Runner.config self in
  rm_bind (now W) (fun start_time =>
  task_span W (TaskData.task_id task_data) (dataset (appworld cfg))
            (base_url (a2a cfg)) (timeout_seconds (a2a cfg))
    (rm_catch (process_task_try fuel self task_data start_time)
              (process_task_except task_data start_time))).

Definition Runner_initialize (self : Runner.t) : RM unit :=
  rm_bind (OTELInstrumentation_initialize W) (fun _ =>
  AppWorldAdapter_initialize (appworld (Runner.config self))).

(** The [for] loop of [run] over [iterate_tasks()], task by task: the
    generator runs up to its [yield], the task is processed and its
    result added; on [break] the generator is not resumed, otherwise it
    is resumed before the next task is asked for. *)
Fixpoint process_tasks (fuel : nat) (self : Runner.t)
  (task_ids : list string) : RM unit :=
  match task_ids with
  | [] => rm_ret tt
  | task_id :: rest =>
      let cfg := appworld (Runner.config self) in
      rm_bind (iterate_tasks_yield W cfg task_id) (fun task_data =>
      rm_bind (process_task fuel self task_data) (fun result =>
      rm_bind (add_result result) (fun _ =>
      if negb (TaskResult.success result) && abort_on_failure cfg
      then rm_ret tt
      else
        rm_bind (iterate_tasks_resume W task_id) (fun _ =>
        process_tasks fuel self rest))))
  end.

(** The body of the [try] of [run]. *)
Definition run_try (fuel : nat) (self : Runner.t) : RM Z :=
  let cfg := appworld (Runner.config self) in
  rm_bind (Runner_initialize self) (fun _ =>
  rm_bind (get_task_ids W cfg) (fun task_ids =>
  rm_bind (process_tasks fuel self task_ids) (fun _ =>
  rm_bind (print_summary (dataset cfg)) (fun _ =>
  rm_bind get_results (fun rs =>
  rm_ret (if existsb TaskResult.success rs then 0%Z else 1%Z)))))).

Definition run (fuel : nat) (self : Runner.t) : RM Z :=
  rm_finally (rm_catch (run_try fuel self) (fun _ => rm_ret 1%Z))
             OTELInstrumentation_shutdown.

(** [Runner.__init__]: a fresh adapter, the client (which fetches the
    agent card), a fresh telemetry object and a summary that starts
    now. *)
Definition Runner_init (cfg : Config) : RM Runner.t :=
  rm_bind (fun s =>
             (Returns tt,
              {| net_state := net_state s; journal := journal s;
                 telemetry := new_telemetry (otel cfg);
                 adapter_initialized := false; results := [] |}))
          (fun _ =>
  rm_bind (rm_net (__init__ (net W) (a2a cfg))) (fun client =>
  rm_bind (now W) (fun start_time =>
  rm_ret (Runner.make cfg client start_time)))).

(** The state of [Runner(config)] while its client waits for the agent
    card: the adapter is new and the request is out; the telemetry
    object and the summary are not made yet. *)
Definition card_fetch_started (cfg : Config) (s : run_state) : run_state :=
  {| net_state := emit (EvGet (card_url (a2a cfg))) (net_state s);
     journal := journal s; telemetry := telemetry s;
     adapter_initialized := false; results := results s |}.

(** The [try] block of [main]. [ctrl_c] is the point at which a Ctrl-C
    arrives, if one does; the block is then left by
    [KeyboardInterrupt]. *)
Definition main_try (env : environ) (fuel : nat)
  (ctrl_c : option main_point) : run_state -> main_try_end * run_state :=
  fun s =>
    match ctrl_c with
    | Some BeforeConfig => (KeyboardInterrupt, s)
    | _ =>
        match Config_from_env env with
        | Raise e => (Ended (Raises e), s)
        | Ok cfg =>
            match ctrl_c with
            | Some BeforeRunner => (KeyboardInterrupt, s)
            | Some DuringCardFetch =>
                (KeyboardInterrupt, card_fetch_started cfg s)
            | _ =>
                match Runner_init cfg s with
                | (Returns runner, s1) =>
                    match ctrl_c with
                    | Some BeforeRun => (KeyboardInterrupt, s1)
                    | _ =>
                        let (r, s2) := run fuel runner s1 in (Ended r, s2)
                    end
                | (Raises e, s1) => (Ended (Raises e), s1)
                | (Unfinished, s1) => (Ended Unfinished, s1)
                end
            end
        end
    end.

(** The handlers of [main], in their order: [except ValueError] returns
    1, [except KeyboardInterrupt] returns 130, [except Exception]
    returns 1. *)
Definition main_handlers (t : main_try_end) : outcome Z :=
  match t with
  | Ended (Returns code) => Returns code
  | Ended (Raises (ValueError _)) => Returns 1%Z
  | KeyboardInterrupt => Returns 130%Z
  | Ended (Raises _) => Returns 1%Z
  | Ended Unfinished => Unfinished
  end.

(** [main], once the arguments are parsed (the [--verbose] flag only
    sets the level of logging). *)
Definition main (env : environ) (fuel : nat) (ctrl_c : option main_point)
  : RM Z :=
  fun s =>
    let (t, s') := main_try env fuel ctrl_c s in
    (main_handlers t, s').

End RunnerModel.

(** ** Reading the runs of the runner *)

Section RunnerReading.
Context {P : Platform} {R : Runtime}.

(** A state with more calls in its journal. *)
Definition add_journal (s : run_state) (calls : list call) : run_state :=
  {| net_state := net_state s; journal := journal s ++ calls;
     telemetry := telemetry s; adapter_initialized := adapter_initialized s;
     results := results s |}.

(** A state with another client part. *)
Definition with_net (s : run_state) (n : state) : run_state :=
  {| net_state := n; journal := journal s; telemetry := telemetry s;
     adapter_initialized := adapter_initialized s; results := results s |}.

(** The state of the client after [k] more readings of the clock. *)
Fixpoint reads (E : env) (k : nat) (n : state) : state :=
  match k with
  | O => n
  | S k' => reads E k' (snd (time_time E n))
  end.

(** A computation that ends whatever the state it starts in. *)
Definition finishes {A : Type} (m : RM A) : Prop :=
  forall s, fst (m s) <> Unfinished.

(** The agent never announces a task: whatever it answers to a request,
    the [kind] of the result is not ["task"]. *)
Definition never_announces (E : env) : Prop :=
  forall n url payload data res,
    rpc_reply E n url payload = ReplyJson data ->
    jsonrpc_result data = Ok (JObj res) ->
    dict_get "kind" res <> Some (JStr "task").

(** The sum of what a journal adds to the gauge of tasks in flight. *)
Fixpoint inflight (calls : list call) : Z :=
  match calls with
  | [] => 0
  | InstrumentAdd name amount _ :: rest =>
      if String.eqb name "a2a_proxy_inflight_tasks"
      then (amount + inflight rest)%Z
      else inflight rest
  | _ :: rest => inflight rest
  end.

(** How often a journal adds to the counter of processed tasks, with the
    given status. *)
Fixpoint counted (status : string) (calls : list call) : nat :=
  match calls with
  | [] => 0
  | InstrumentAdd name _ attrs :: rest =>
      if String.eqb name "a2a_proxy_tasks_total"
         && match attrs_get "status" attrs with
            | Some st => String.eqb st status
            | None => false
            end
      then S (counted status rest)
      else counted status rest
  | _ :: rest => counted status rest
  end.

(** The task ids a journal loads, in order. *)
Fixpoint loaded (calls : list call) : list string :=
  match calls with
  | [] => []
  | TaskLoad task_id :: rest => task_id :: loaded rest
  | _ :: rest => loaded rest
  end.

(** The task ids a journal closes, in order. *)
Fixpoint closed (calls : list call) : list string :=
  match calls with
  | [] => []
  | TaskClose task_id :: rest => task_id :: closed rest
  | _ :: rest => closed rest
  end.

(** A later state of the same run: the client part has moved on and the
    journal has grown. *)
Definition advance (s : run_state) (n : state) (calls : list call)
  : run_state :=
  {| net_state := n; journal := journal s ++ calls; telemetry := telemetry s;
     adapter_initialized := adapter_initialized s; results := results s |}.

(** The reading of the clock number [i] from the client state [n]. *)
Definition time_at (E : env) (n : state) (i : nat) : float :=
  clock E (ticks n + i).

Definition when_set (b : bool) (c : call) : list call :=
  if b then [c] else [].

(** What [task_span] records before its body runs. *)
Definition span_prelude (o : OTELInstrumentation)
  (task_id dataset_name a2a_base_url : string) (a2a_timeout : Z)
  : list call :=
  when_set (inflight_gauge o) (InstrumentAdd "a2a_proxy_inflight_tasks" 1 [])
  ++ [SpanStart "a2a_proxy.task";
      SpanSetAttribute "appworld.task_id" (JStr task_id);
      SpanSetAttribute "appworld.dataset" (JStr dataset_name);
      SpanSetAttribute "a2a.base_url" (JStr a2a_base_url);
      SpanSetAttribute "a2a.timeout_seconds" (JInt a2a_timeout)].

(** What [task_span] records after its body ended. *)
Definition span_epilogue (o : OTELInstrumentation) (latency_ms : float)
  (exc : option py_error) : list call :=
  when_set (inflight_gauge o)
           (InstrumentAdd "a2a_proxy_inflight_tasks" (-1) [])
  ++ when_set (task_latency_histogram o)
              (InstrumentRecord "a2a_proxy_task_latency_ms"
                                (NFloat latency_ms))
  ++ [SpanEnd "a2a_proxy.task" exc].

(** What [process_task] records up to its call of [send_prompt]. *)
Definition prompt_calls (o : OTELInstrumentation) (prompt : string)
  : list call :=
  [SpanStart "a2a_proxy.prompt.build"; SpanEnd "a2a_proxy.prompt.build" None;
   SpanSetAttribute "prompt.chars" (JInt (Z.of_nat (String.length prompt)));
   SpanAddEvent "prompt_built" []]
  ++ when_set (prompt_size_histogram o)
              (InstrumentRecord "a2a_proxy_prompt_size_chars"
                 (NInt (Z.of_nat (String.length prompt))))
  ++ [SpanStart "a2a_proxy.a2a.send_prompt"].

(** What [process_task] records once [send_prompt] returned. *)
Definition success_calls (o : OTELInstrumentation) (response : string)
  (duration_ms : float) : list call :=
  [SpanEnd "a2a_proxy.a2a.send_prompt" None;
   SpanSetAttribute "a2a.duration_ms" (JFloat duration_ms)]
  ++ when_set (a2a_latency_histogram o)
              (InstrumentRecord "a2a_proxy_a2a_latency_ms"
                                (NFloat duration_ms))
  ++ [SpanSetAttribute "response.chars"
        (JInt (Z.of_nat (String.length response)))]
  ++ when_set (response_size_histogram o)
              (InstrumentRecord "a2a_proxy_response_size_chars"
                 (NInt (Z.of_nat (String.length response))))
  ++ [SpanSetAttribute "task.status" (JStr "success");
      SpanSetStatus true None]
  ++ when_set (tasks_counter o)
              (InstrumentAdd "a2a_proxy_tasks_total" 1
                             [("status", "success")]).

(** What [process_task] records once [send_prompt] raised. *)
Definition failure_calls (o : OTELInstrumentation) (e : py_error)
  : list call :=
  [SpanEnd "a2a_proxy.a2a.send_prompt" (Some e);
   SpanSetAttribute "task.status" (JStr "failed");
   SpanAddEvent "task_failed"
     [("error.type", exc_type_name e); ("error.message", exc_str e)];
   SpanSetStatus false (Some (exc_str e));
   SpanRecordException e]
  ++ when_set (tasks_counter o)
              (InstrumentAdd "a2a_proxy_tasks_total" 1
                             [("status", "failed")])
  ++ when_set (errors_counter o)
              (InstrumentAdd "a2a_proxy_errors_total" 1
                             [("error_type", exc_type_name e)]).

(** The tracer, the meter and the seven instruments are all set. *)
Definition instruments_set (o : OTELInstrumentation) : bool :=
  tracer o && meter o && tasks_counter o && errors_counter o
  && task_latency_histogram o && a2a_latency_histogram o
  && prompt_size_histogram o && response_size_histogram o
  && inflight_gauge o.

(** The library calls of an [initialize] that succeeds, on a telemetry
    object [o]. *)
Definition initialize_calls (o : OTELInstrumentation) : list call :=
  let endpoint := truthy_str (exporter_endpoint (otel_config o)) in
  [Setup (ResourceCreate (resource_attrs (otel_config o)));
   Setup (TracingSetup endpoint)]
  ++ when_set (instrument_requests (otel_config o)
               && negb (_requests_instrumented o))
              (Setup RequestsInstrument)
  ++ Setup (MeterSetup endpoint)
     :: map (fun name => Setup (CreateInstrument name))
            ["a2a_proxy_tasks_total"; "a2a_proxy_errors_total";
             "a2a_proxy_task_latency_ms"; "a2a_proxy_a2a_latency_ms";
             "a2a_proxy_prompt_size_chars"; "a2a_proxy_response_size_chars";
             "a2a_proxy_inflight_tasks"].

(** A later state of the same run: the journal has grown and the
    telemetry object is [o]. *)
Definition retel (s : run_state) (o : OTELInstrumentation)
  (calls : list call) : run_state :=
  {| net_state := net_state s; journal := journal s ++ calls;
     telemetry := o; adapter_initialized := adapter_initialized s;
     results := results s |}.

(** The telemetry object after [_initialize_auto_instrumentation]. *)
Definition requests_done (o : OTELInstrumentation) : OTELInstrumentation :=
  if instrument_requests (otel_config o) && negb (_requests_instrumented o)
  then set_requests_instrumented o
  else o.

(** The telemetry object after [_initialize_metrics]. *)
Definition metrics_done (o : OTELInstrumentation) : OTELInstrumentation :=
  set_inflight_gauge
    (set_response_size_histogram
       (set_prompt_size_histogram
          (set_a2a_latency_histogram
             (set_task_latency_histogram
                (set_errors_counter (set_tasks_counter (set_meter o))))))).

(** The telemetry object after [initialize]. *)
Definition initialized (o : OTELInstrumentation) : OTELInstrumentation :=
  metrics_done (requests_done (set_tracer o)).

(** The library calls of [_initialize_metrics]. *)
Definition metrics_calls (o : OTELInstrumentation) : list call :=
  Setup (MeterSetup (truthy_str (exporter_endpoint (otel_config o))))
  :: map (fun name => Setup (CreateInstrument name))
         ["a2a_proxy_tasks_total"; "a2a_proxy_errors_total";
          "a2a_proxy_task_latency_ms"; "a2a_proxy_a2a_latency_ms";
          "a2a_proxy_prompt_size_chars"; "a2a_proxy_response_size_chars";
          "a2a_proxy_inflight_tasks"].

(** The library calls of [initialize] on a telemetry object, in order,
    each with the field that is assigned once the call has returned. *)
Definition initialize_script (o : OTELInstrumentation)
  : list (otel_setup * (OTELInstrumentation -> OTELInstrumentation)) :=
  let endpoint := truthy_str (exporter_endpoint (otel_config o)) in
  [(ResourceCreate (resource_attrs (otel_config o)), fun o' => o');
   (TracingSetup endpoint, set_tracer)]
  ++ (if instrument_requests (otel_config o)
         && negb (_requests_instrumented o)
      then [(RequestsInstrument, set_requests_instrumented)]
      else [])
  ++ [(MeterSetup endpoint, set_meter);
      (CreateInstrument "a2a_proxy_tasks_total", set_tasks_counter);
      (CreateInstrument "a2a_proxy_errors_total", set_errors_counter);
      (CreateInstrument "a2a_proxy_task_latency_ms",
       set_task_latency_histogram);
      (CreateInstrument "a2a_proxy_a2a_latency_ms",
       set_a2a_latency_histogram);
      (CreateInstrument "a2a_proxy_prompt_size_chars",
       set_prompt_size_histogram);
      (CreateInstrument "a2a_proxy_response_size_chars",
       set_response_size_histogram);
      (CreateInstrument "a2a_proxy_inflight_tasks", set_inflight_gauge)].

(** Library calls made one after the other, each followed by its
    assignment; the first call that raises ends the sequence. *)
Fixpoint run_script (W : world)
  (steps : list (otel_setup * (OTELInstrumentation -> OTELInstrumentation)))
  : RM unit :=
  match steps with
  | [] => rm_ret tt
  | (c, f) :: rest =>
      rm_bind (setup W c) (fun _ =>
      rm_bind (assign f) (fun _ => run_script W rest))
  end.

(** The telemetry object after the assignments of a sequence. *)
Definition assigned
  (steps : list (otel_setup * (OTELInstrumentation -> OTELInstrumentation)))
  (o : OTELInstrumentation) : OTELInstrumentation :=
  fold_left (fun o' step => snd step o') steps o.

(** The journal of a sequence of library calls. *)
Definition script_calls
  (steps : list (otel_setup * (OTELInstrumentation -> OTELInstrumentation)))
  : list call :=
  map (fun step => Setup (fst step)) steps.

(** A computation that leaves a part of the state as it was, whatever
    its outcome. *)
Definition keeps {A X : Type} (part : run_state -> X) (m : RM A) : Prop :=
  forall s, part (snd (m s)) = part s.

(** The task ids for which a journal opens an AppWorld context, in
    order. *)
Fixpoint opened (calls : list call) : list string :=
  match calls with
  | [] => []
  | WorldOpen task_id _ :: rest => task_id :: opened rest
  | _ :: rest => opened rest
  end.

End RunnerReading.

(** ** More demo worlds

    Small agents, environments and tasks on which the properties of the
    rest of the package are tried. Floats are integers, as in
    [Demo.platform]: the clock counts whole seconds and the default
    polling interval [0.5] is read as one unit. *)

Module Trial.

#[local] Existing Instance Demo.platform.

(** [int(s)] for a string of decimal digits. *)
Fixpoint digits (s : string) (acc : Z) : option Z :=
  match s with
  | EmptyString => Some acc
  | String c s' =>
      let n := nat_of_ascii c in
      if ((48 <=? n) && (n <=? 57))%nat
      then digits s' (acc * 10 + Z.of_nat (n - 48))
      else None
  end.

Definition int_of_string (s : string) : option Z :=
  match s with
  | EmptyString => None
  | String c s' =>
      if Ascii.eqb c "-"
      then match s' with
           | EmptyString => None
           | _ => option_map Z.opp (digits s' 0)
           end
      else digits s 0
  end.

Definition runtime : @Runtime Demo.platform := {|
  py_int := int_of_string;
  json_dumps_pretty := fun v => py_str v;
  float_sub := Z.sub;
  float_mul_int := Z.mul;
  float_half := 1%Z;
  exc_type_name := fun e =>
    match e with
    | ValueError _ => "ValueError"
    | RuntimeError _ => "RuntimeError"
    | TimeoutError _ => "TimeoutError"
    | KeyError _ => "KeyError"
    | TypeError => "TypeError"
    | AttributeError => "AttributeError"
    | OverflowError => "OverflowError"
    | RequestException _ => "ConnectionError"
    end;
  exc_str := fun e =>
    match e with
    | ValueError msg | RuntimeError msg | TimeoutError msg
    | RequestException msg => msg
    | KeyError key => "'" ++ key ++ "'"
    | _ => ""
    end
|}.

#[local] Existing Instance runtime.

(** An agent that answers every call with the same body. *)
Definition constant_world (reply : @http_reply Demo.platform)
  : @env Demo.platform :=
  @Build_env Demo.platform
    (fun _ => Demo.no_card)
    (fun _ _ _ => reply)
    (fun n => Z.of_nat n)
    (fun n => "uuid-" ++ PyStr.of_int (Z.of_nat n)).

(** An agent that answers directly, with a message. *)
Definition pong : Demo.J :=
  JObj [("jsonrpc", JStr "2.0"); ("id", JInt 1);
        ("result", JObj [("kind", JStr "message"); ("role", JStr "agent");
                         ("parts", JArr [text_part "pong"])])].

Definition direct_world : @env Demo.platform :=
  constant_world (ReplyJson pong).

(** An agent that cannot be reached. *)
Definition down_world : @env Demo.platform :=
  constant_world (ReplyRaise (RequestException "connection refused")).

(** An agent that announces a task without saying which. *)
Definition nameless_task : Demo.J :=
  JObj [("jsonrpc", JStr "2.0"); ("id", JInt 1);
        ("result", JObj [("kind", JStr "task")])].

(** A body with a [null] error beside its result. *)
Definition null_error : list (string * Demo.J) :=
  [("jsonrpc", JStr "2.0"); ("error", JNull); ("result", JStr "fine")].

(** An agent that sends back the message it was sent. *)
Definition echo_world : @env Demo.platform :=
  @Build_env Demo.platform
    (fun _ => Demo.no_card)
    (fun _ _ payload =>
       ReplyJson (JObj [("jsonrpc", JStr "2.0");
                        ("result",
                         payload_field "message"
                           (payload_field "params" payload))]))
    (fun n => Z.of_nat n)
    (fun n => "uuid-" ++ PyStr.of_int (Z.of_nat n)).

(** An agent whose task is lost at the second poll. *)
Definition lossy_world : @env Demo.platform :=
  @Build_env Demo.platform
    (fun _ => Demo.no_card)
    (fun n _ payload =>
       if eq_str (payload_field "method" payload) "message/send"
       then ReplyJson Demo.task_announcement
       else if Nat.ltb n 2 then ReplyJson (Demo.task_report "working")
       else ReplyRaise (RequestException "connection reset"))
    (fun n => Z.of_nat n)
    (fun n => "uuid-" ++ PyStr.of_int (Z.of_nat n)).

(** The agent of [Demo.world] whose task never completes, with a clock
    that reads 0, then 1, then 1000 ever after: the process is held up
    during its first sleep. *)
Definition held_up_world : @env Demo.platform :=
  @Build_env Demo.platform
    (agent_card (Demo.world Demo.no_card 100))
    (rpc_reply (Demo.world Demo.no_card 100))
    (fun n => if Nat.ltb n 2 then Z.of_nat n else 1000%Z)
    (uuid4 (Demo.world Demo.no_card 100)).

(** A run in that world with a timeout of two seconds. *)
Definition run_held_up : outcome string * state (P := Demo.platform) :=
  send_prompt held_up_world 10 Demo.client "hi" 1%Z (Some 2%Z) Demo.start.

(** The readings of the clock in a trace, in order. *)
Fixpoint readings (evs : list (@event Demo.platform)) : list Z :=
  match evs with
  | [] => []
  | EvTime t :: rest => t :: readings rest
  | _ :: rest => readings rest
  end.

(** An environment with what [Config.from_env] requires, and one
    without the remote APIs URL. *)
Definition env_ok : environ :=
  fun key =>
    if String.eqb key "A2A_BASE_URL" then Some "http://agent:8000/"
    else if String.eqb key "APPWORLD_DATASET" then Some "dev"
    else if String.eqb key "APPWORLD_REMOTE_APIS_URL"
         then Some "http://apis:9000"
    else if String.eqb key "MAX_TASKS" then Some "-1"
    else if String.eqb key "ABORT_ON_FAILURE" then Some "Yes"
    else None.

Definition env_no_remote : environ :=
  fun key =>
    if String.eqb key "APPWORLD_REMOTE_APIS_URL" then Some ""
    else env_ok key.

Definition appworld_cfg : AppWorldConfig := {|
  dataset := "dev";
  remote_apis_url := Some "http://apis:9000";
  root := None;
  max_tasks := Some (-1)%Z;
  abort_on_failure := true
|}.

Definition otel_cfg : OTELConfig := {|
  service_name := "appworld-a2a-proxy";
  exporter_endpoint := None;
  exporter_protocol := "grpc";
  resource_attributes := Some "team=qa, service.name=runner,broken,k=a=b";
  instrument_requests := true;
  exporter_insecure := true
|}.

Definition config : Config := {|
  a2a := Demo.cfg;
  appworld := appworld_cfg;
  otel := otel_cfg;
  debug := {| log_prompt := false; log_response := false |}
|}.

(** A data set of three tasks, the second of which has no
    instruction. *)
Definition tasks (E : @env Demo.platform) : world := {|
  net := E;
  load_task_ids := fun _ => Ok ["t1"; "t2"; "t3"];
  task_load := fun task_id =>
    Ok (LoadedTask.make
          (if String.eqb task_id "t2" then "" else "Say ping.")
          (JStr "Ada") (JArr [JStr "phone"]));
  world_open := fun _ => None;
  world_save_state := fun _ => None;
  world_save_logs := fun _ => None;
  otel_setup_fails := fun _ => None
|}.

(** The same data set where the metrics cannot be set up. *)
Definition no_meter : world := {|
  net := direct_world;
  load_task_ids := fun _ => Ok ["t1"; "t2"; "t3"];
  task_load := fun _ =>
    Ok (LoadedTask.make "Say ping." (JStr "Ada") (JArr [JStr "phone"]));
  world_open := fun _ => None;
  world_save_state := fun _ => None;
  world_save_logs := fun _ => None;
  otel_setup_fails := fun c =>
    match c with
    | MeterSetup _ => Some (RuntimeError "no meter provider")
    | _ => None
    end
|}.

Definition runner : Runner.t := Runner.make config Demo.client 0%Z.

Definition task1 : TaskData.t :=
  TaskData.make "t1" "Say ping." (JStr "Ada") (JArr [JStr "phone"]).

(** The state of a run before and after [Runner.initialize]. *)
Definition fresh : run_state := {|
  net_state := Demo.start;
  journal := [];
  telemetry := new_telemetry otel_cfg;
  adapter_initialized := false;
  results := []
|}.

Definition ready : run_state := {|
  net_state := Demo.start;
  journal := [];
  telemetry := {| otel_config := otel_cfg; tracer := true; meter := true;
                  tasks_counter := true; errors_counter := true;
                  task_latency_histogram := true;
                  a2a_latency_histogram := true;
                  prompt_size_histogram := true;
                  response_size_histogram := true;
                  inflight_gauge := true;
                  _requests_instrumented := true |};
  adapter_initialized := true;
  results := []
|}.

End Trial.

(** * Properties *)

Section ResponseInterpreter.
Context {P : Platform}.

Lemma all_strings_collect (items : list json) :
  forallb text_well_typed items = true ->
  all_strings (collect_text_parts items) = Some (text_strings items).
Proof.
  induction items as [|part rest IH]; intro Hwt; [reflexivity|].
  cbn [forallb] in Hwt. apply andb_prop in Hwt as [Hpart Hrest].
  specialize (IH Hrest). cbn [collect_text_parts text_strings].
  unfold nonempty_text, text_well_typed, part_is_text, part_text in *.
  destruct part as [| | | | |items'|fields]; try exact IH.
  destruct (dict_get "kind" fields) as [[| | | |k| |]|]; cbn [eq_str];
    try exact IH.
  destruct (String.eqb k "text"); [|exact IH].
  destruct (dict_get "text" fields) as [t|]; [|exact IH].
  destruct t as [| | | |s| |];
    try (apply negb_true_iff in Hpart; rewrite Hpart; exact IH).
  destruct s; cbn; [exact IH | now rewrite IH].
Qed.

Lemma all_strings_nil_iff (vs : list json) (ss : list string) :
  all_strings vs = Some ss -> (vs = [] <-> ss = []).
Proof.
  destruct vs as [|v vs]; cbn.
  - intros [= <-]. tauto.
  - destruct v; try discriminate.
    destruct (all_strings vs); [|discriminate].
    intros [= <-]. split; discriminate.
Qed.

(** [text_strings] keeps the order of the parts, and holds exactly the
    non-empty texts of the text parts. *)
Lemma text_strings_app (a b : list json) :
  text_strings (a ++ b) = (text_strings a ++ text_strings b)%list.
Proof.
  induction a as [|part a IH]; [reflexivity|]. cbn [app text_strings].
  destruct (nonempty_text part); cbn [app]; now rewrite IH.
Qed.

Lemma in_text_strings (parts : list json) (s : string) :
  In s (text_strings parts)
  <-> exists part, In part parts /\ nonempty_text part = Some s.
Proof.
  induction parts as [|part parts IH]; cbn [text_strings In].
  - split; [contradiction | now intros (part & [] & _)].
  - destruct (nonempty_text part) as [t|] eqn:Hpart; cbn [In]; rewrite IH.
    + split.
      * intros [<- | (p & Hin & Hp)]; eauto.
      * intros (p & [<- | Hin] & Hp); [left; congruence | eauto].
    + split.
      * intros (p & Hin & Hp); eauto.
      * intros (p & [<- | Hin] & Hp); [congruence | eauto].
Qed.

(** The text-collecting step shared by messages and artifacts. *)
Lemma collect_then_join (items : list json) (fallback : result string) :
  forallb text_well_typed items = true ->
  match collect_text_parts items with
  | [] => fallback
  | text_parts => join_text_parts text_parts
  end
  = match text_strings items with
    | [] => fallback
    | texts => Ok (PyStr.join PyStr.nl texts)
    end.
Proof.
  intro Hwt. pose proof (all_strings_collect items Hwt) as Hall.
  pose proof (all_strings_nil_iff _ _ Hall) as [Hn1 Hn2].
  unfold join_text_parts.
  destruct (collect_text_parts items) as [|v vs].
  - now rewrite (Hn1 eq_refl).
  - rewrite Hall. destruct (text_strings items); [|reflexivity].
    now specialize (Hn2 eq_refl).
Qed.

(** C7. For every message object whose text parts are well typed,
    [_extract_text_from_message] returns the non-empty texts of the parts
    of kind ["text"], in their original order, joined by a line feed; when
    there is none it returns the [content] field stringified, and raises
    the extraction error [ValueError] when that is missing too. The
    result is a function of the message alone. *)
Theorem C7_extract_from_message (fields : list (string * json)) :
  forallb text_well_typed (parts_of fields) = true ->
  _extract_text_from_message (JObj fields) = spec_extract_from_message fields
  /\ (forall r1 r2,
        _extract_text_from_message (JObj fields) = r1 ->
        _extract_text_from_message (JObj fields) = r2 -> r1 = r2).
Proof.
  intro Hwt. split; [|intros r1 r2 <- <-; reflexivity].
  unfold _extract_text_from_message, spec_extract_from_message,
    message_content_fallback, parts_of in *.
  cbn [py_in py_getitem rbind].
  destruct (dict_get "parts" fields) as [parts|] eqn:Hparts; cbn [rbind].
  - destruct parts as [| | | | |items|pf]; cbn [text_strings];
      try (destruct (dict_get "content" fields); reflexivity).
    rewrite (collect_then_join items _ Hwt).
    destruct (text_strings items); [|reflexivity].
    destruct (dict_get "content" fields); reflexivity.
  - cbn [text_strings]. destruct (dict_get "content" fields); reflexivity.
Qed.

Lemma prefix_refl (s : string) : prefix s s = true.
Proof.
  induction s as [|c s IH]; cbn; [reflexivity|].
  destruct (ascii_dec c c) as [_|Hne]; [exact IH | now elim Hne].
Qed.

Lemma contains_suffix (needle pre : string) :
  PyStr.contains needle (pre ++ needle) = true.
Proof.
  induction pre as [|c pre IH]; cbn [append].
  - destruct needle; cbn [PyStr.contains]; [reflexivity|].
    now rewrite prefix_refl.
  - cbn [PyStr.contains]. rewrite IH. apply orb_true_r.
Qed.

(** C3. For every task whose [status.state] is none of the failure
    states (["completed"] in particular) and whose first artifact is well
    typed, [_extract_text_from_task] follows the precedence of the
    specification: the first artifact's non-empty texts joined by a line
    feed; else [result.message] read as a message; else [result.text],
    then [result.content], stringified; else [result] when it is a string;
    else the extraction error. A completed task with one artifact holding
    the text parts ["a"] and ["b"] yields ["a\nb"]. *)
Theorem C3_completed_task_precedence (fields : list (string * json))
  (st : json) :
  task_state fields = Some st ->
  existsb (eq_str st) failure_states = false ->
  forallb text_well_typed (first_artifact_parts fields) = true ->
  _extract_text_from_task (JObj fields) = spec_extract_completed fields
  /\ _extract_text_from_task
       (JObj [("id", JStr "t1");
              ("status", JObj [("state", JStr "completed")]);
              ("artifacts",
               JArr [JObj [("parts", JArr [text_part "a"; text_part "b"])]])])
     = Ok ("a" ++ PyStr.nl ++ "b").
Proof.
  intros Hst Hfail Hwt. split; [|reflexivity].
  cbn [existsb failure_states] in Hfail.
  apply orb_false_elim in Hfail as [Hfailed Hfail].
  apply orb_false_elim in Hfail as [Hcanceled Hfail].
  apply orb_false_elim in Hfail as [Hrejected _].
  assert (Hstate : _extract_text_from_task (JObj fields)
                   = task_artifacts_then_result (JObj fields)).
  { unfold _extract_text_from_task, task_state in *. cbn [py_get rbind].
    destruct (dict_get "status" fields) as [status|].
    - destruct status; try discriminate. cbn [py_get rbind].
      injection Hst as <-.
      now rewrite Hfailed, Hcanceled, Hrejected.
    - cbn [py_get rbind dict_get]. injection Hst as <-. reflexivity. }
  rewrite Hstate. clear Hstate Hst Hfailed Hcanceled Hrejected st.
  assert (Hres : task_result_fallback (JObj fields)
                 = match dict_get "result" fields with
                   | Some (JObj res) =>
                       match dict_get "message" res, dict_get "text" res,
                             dict_get "content" res with
                       | Some m, _, _ => _extract_text_from_message m
                       | None, Some t, _ => Ok (py_str t)
                       | None, None, Some c => Ok (py_str c)
                       | None, None, None =>
                           Raise (ValueError
                                    "Could not extract text from task result")
                       end
                   | Some (JStr s) => Ok s
                   | _ => Raise (ValueError
                                   "Could not extract text from task result")
                   end).
  { unfold task_result_fallback. cbn [py_in py_getitem rbind].
    destruct (dict_get "result" fields) as [res|]; cbn [rbind];
      [|reflexivity].
    reflexivity. }
  unfold task_artifacts_then_result, spec_extract_completed,
    first_artifact_parts, parts_of in *.
  cbn [py_in py_getitem rbind]. rewrite Hres. clear Hres.
  destruct (dict_get "artifacts" fields) as [artifacts|]; cbn [rbind];
    [|reflexivity].
  destruct artifacts as [| | | | |items|]; try reflexivity.
  destruct items as [|artifact items]; [reflexivity|].
  destruct artifact as [| | | | | |artifact]; try reflexivity.
  destruct (dict_get "parts" artifact) as [parts|]; [|reflexivity].
  destruct parts as [| | | | |parts|]; try reflexivity.
  apply collect_then_join, Hwt.
Qed.

(** C4. For every task in a terminal failure state,
    [_extract_text_from_task] raises: state ["failed"] gives
    ["Task failed: "] followed by [status.error] (["Unknown error"] when
    the task has none), ["canceled"] gives ["Task was canceled"] and
    ["rejected"] gives ["Task was rejected"]. The message of a failed task
    contains its [status.error]; so it does for ["boom"]. *)
Theorem C4_failed_task_errors (fields status : list (string * json)) :
  dict_get "status" fields = Some (JObj status) ->
  (dict_get "state" status = Some (JStr "failed") ->
   _extract_text_from_task (JObj fields)
   = Raise (ValueError
              ("Task failed: "
               ++ py_str (match dict_get "error" status with
                          | Some err => err
                          | None => JStr "Unknown error"
                          end))))
  /\ (dict_get "state" status = Some (JStr "canceled") ->
      _extract_text_from_task (JObj fields)
      = Raise (ValueError "Task was canceled"))
  /\ (dict_get "state" status = Some (JStr "rejected") ->
      _extract_text_from_task (JObj fields)
      = Raise (ValueError "Task was rejected"))
  /\ (forall err : string,
        dict_get "state" status = Some (JStr "failed") ->
        dict_get "error" status = Some (JStr err) ->
        exists msg,
          _extract_text_from_task (JObj fields) = Raise (ValueError msg)
          /\ PyStr.contains err msg = true)
  /\ (exists msg,
        _extract_text_from_task
          (JObj [("status",
                  JObj [("state", JStr "failed"); ("error", JStr "boom")])])
        = Raise (ValueError msg)
        /\ PyStr.contains "boom" msg = true).
Proof.
  intro Hstatus.
  assert (Hfailed : dict_get "state" status = Some (JStr "failed") ->
            _extract_text_from_task (JObj fields)
            = Raise (ValueError
                       ("Task failed: "
                        ++ py_str (match dict_get "error" status with
                                   | Some err => err
                                   | None => JStr "Unknown error"
                                   end)))).
  { intro Hstate. unfold _extract_text_from_task. cbn [py_get rbind].
    rewrite Hstatus. cbn [py_get rbind]. rewrite Hstate. reflexivity. }
  repeat split.
  - exact Hfailed.
  - intro Hstate. unfold _extract_text_from_task. cbn [py_get rbind].
    rewrite Hstatus. cbn [py_get rbind]. rewrite Hstate. reflexivity.
  - intro Hstate. unfold _extract_text_from_task. cbn [py_get rbind].
    rewrite Hstatus. cbn [py_get rbind]. rewrite Hstate. reflexivity.
  - intros err Hstate Herr. eexists. split; [exact (Hfailed Hstate)|].
    rewrite Herr. cbn [py_str]. apply contains_suffix.
  - eexists. split; reflexivity.
Qed.

End ResponseInterpreter.

Section Transport.
Context {P : Platform}.
Variable E : env.

(** C9. When the decoded body of the response has neither a [result] nor
    an [error] field, [_jsonrpc_call] raises and never returns: on a JSON
    object the failure is the [KeyError] of the lookup of ["result"]. *)
Theorem C9_missing_result_and_error (self : A2AProxyClient)
  (method : string) (params : json) (request_id : Z) (s : state)
  (data : json) :
  rpc_reply E (posts s) (rpc_url self)
            (jsonrpc_payload method params request_id) = ReplyJson data ->
  has_field "result" data = false ->
  has_field "error" data = false ->
  exists e,
    fst (_jsonrpc_call E self method params request_id s) = Raises e
    /\ (forall fields, data = JObj fields -> e = KeyError "result")
    /\ (forall v, fst (_jsonrpc_call E self method params request_id s)
                  <> Returns v).
Proof.
  intros Hreply Hres Herr.
  unfold _jsonrpc_call, bind, session_post. rewrite Hreply.
  unfold jsonrpc_result, has_field in *.
  destruct data as [| | | |str|items|fields]; cbn [py_in rbind lift];
    try (eexists; repeat split; [discriminate | intros v [=]]).
  - destruct (PyStr.contains "error" str); cbn;
      (eexists; repeat split; [discriminate | intros v [=]]).
  - destruct (existsb _ items); cbn;
      (eexists; repeat split; [discriminate | intros v [=]]).
  - destruct (dict_get "error" fields); [discriminate|].
    cbn [py_getitem]. destruct (dict_get "result" fields); [discriminate|].
    cbn. eexists; repeat split; intros v [=].
Qed.

End Transport.

Section Resolver.
Context {P : Platform}.
Variable E : env.

Lemma is_empty_false (s : string) : s <> "" -> PyStr.is_empty s = false.
Proof. destruct s; [congruence | reflexivity]. Qed.

Lemma normalized_path_slash (cfg : A2AConfig) :
  PyStr.startswith_slash (_normalize_endpoint_path cfg) = true.
Proof.
  unfold _normalize_endpoint_path.
  set (stripped := PyStr.strip _).
  set (path := if PyStr.is_empty stripped then "/" else stripped).
  destruct (PyStr.startswith_slash path) eqn:Hslash; [exact Hslash|].
  reflexivity.
Qed.

Lemma normalized_path_default (cfg : A2AConfig) :
  endpoint_path cfg = "" -> _normalize_endpoint_path cfg = "/".
Proof. unfold _normalize_endpoint_path. intros ->. reflexivity. Qed.

Lemma normalized_path_plain (cfg : A2AConfig) :
  endpoint_path cfg <> "" ->
  PyStr.strip (endpoint_path cfg) = endpoint_path cfg ->
  _normalize_endpoint_path cfg
  = if PyStr.startswith_slash (endpoint_path cfg) then endpoint_path cfg
    else "/" ++ endpoint_path cfg.
Proof.
  intros Hne Hstrip. unfold _normalize_endpoint_path.
  rewrite (is_empty_false _ Hne), Hstrip, (is_empty_false _ Hne).
  reflexivity.
Qed.

(** C5. When the agent card is fetched and its [url] is a string whose
    path is present and is not ["/"], the resolved RPC URL is that URL
    with its trailing slashes stripped, whatever the configured endpoint
    path. *)
Theorem C5_service_url_with_path (cfg : A2AConfig) (s : state)
  (card : list (string * json)) (u path : string) :
  agent_card E (card_url cfg) = ReplyJson (JObj card) ->
  dict_get "url" card = Some (JStr u) ->
  u <> "" ->
  urlparse_path u = Some path ->
  path <> "" ->
  path <> "/" ->
  (forall endpoint : string,
     fst (_discover_rpc_url E (with_endpoint_path cfg endpoint) s)
     = Returns (PyStr.rstrip_slash u))
  /\ fst (_discover_rpc_url E cfg s) = Returns (PyStr.rstrip_slash u)
  /\ exists self,
       fst (__init__ E cfg s) = Returns self
       /\ rpc_url self = PyStr.rstrip_slash u.
Proof.
  intros Hcard Hurl Hu Hparse Hpath Hroot.
  assert (Hany : forall cfg', card_url cfg' = card_url cfg ->
            fst (_discover_rpc_url E cfg' s) = Returns (PyStr.rstrip_slash u)).
  { intros cfg' Hsame.
    unfold _discover_rpc_url, catch, discover_from_card, bind,
      _get_agent_card, catch, session_get.
    rewrite Hsame, Hcard. cbn [py_get lift ret]. rewrite Hurl.
    cbn [truthy]. rewrite (is_empty_false u Hu). cbn [negb parsed_path].
    rewrite Hparse. cbn [lift ret]. rewrite (is_empty_false path Hpath).
    destruct (String.eqb_spec path "/") as [Heq|_]; [now elim Hroot|].
    reflexivity. }
  split; [intro endpoint; apply Hany; reflexivity|].
  split; [apply Hany; reflexivity|].
  unfold __init__, bind.
  specialize (Hany cfg eq_refl).
  destruct (_discover_rpc_url E cfg s) as [[url| |] s'] eqn:Hd;
    cbn [fst] in Hany; try discriminate.
  injection Hany as ->. eexists. split; reflexivity.
Qed.

Lemma discover_fallback (cfg : A2AConfig) (s : state) (b : string) :
  fallback_base cfg (agent_card E (card_url cfg)) b ->
  fst (_discover_rpc_url E cfg s) = Returns (_build_rpc_url cfg b).
Proof.
  intro Hcase.
  unfold _discover_rpc_url, catch, discover_from_card, bind,
    _get_agent_card, catch, session_get.
  destruct Hcase as [e Hr|data Hr Hno|card Hr Hurl|card v Hr Hurl Hv
                    |card v e Hr Hurl Hv Hp|card u path Hr Hurl Hu Hp Hpath];
    rewrite Hr; cbn [raise lift py_get ret fst]; try reflexivity.
  - destruct data; try reflexivity. now elim (Hno fields).
  - rewrite Hurl. reflexivity.
  - rewrite Hurl, Hv. reflexivity.
  - rewrite Hurl, Hv, Hp. reflexivity.
  - rewrite Hurl. cbn [truthy]. rewrite (is_empty_false u Hu).
    cbn [negb parsed_path]. rewrite Hp. cbn [lift ret].
    destruct Hpath as [-> | ->]; reflexivity.
Qed.

(** The fallback cases and the case of an endpoint-specific service URL
    leave nothing out. *)
Lemma discovery_cases (cfg : A2AConfig) (reply : http_reply) :
  (exists b, fallback_base cfg reply b)
  \/ (exists card u path,
        reply = ReplyJson (JObj card)
        /\ dict_get "url" card = Some (JStr u)
        /\ u <> ""
        /\ urlparse_path u = Some path
        /\ path <> ""
        /\ path <> "/").
Proof.
  destruct reply as [data|e]; [|left; eexists; eapply fetch_failed; eauto].
  destruct data as [| | | | | |card];
    try (left; eexists; eapply card_not_object; [reflexivity|discriminate]).
  destruct (dict_get "url" card) as [v|] eqn:Hurl;
    [|left; eexists; eapply url_absent; eauto].
  destruct (truthy v) eqn:Hv; [|left; eexists; eapply url_falsy; eauto].
  destruct (parsed_path v) as [path|e] eqn:Hparse;
    [|left; eexists; eapply url_unparsed; eauto].
  destruct v as [| | | |u| |]; try discriminate.
  cbn [parsed_path] in Hparse.
  destruct (urlparse_path u) as [path'|] eqn:Hpath; [|discriminate].
  injection Hparse as ->.
  assert (Hu : u <> "") by (intros ->; discriminate).
  destruct (string_dec path "") as [Hempty|Hne];
    [left; eexists; eapply url_without_path; eauto|].
  destruct (string_dec path "/") as [Hroot|Hnr];
    [left; eexists; eapply url_without_path; eauto|].
  right. now exists card, u, path.
Qed.

Lemma discover_total (cfg : A2AConfig) (s : state) :
  exists url, fst (_discover_rpc_url E cfg s) = Returns url.
Proof.
  unfold _discover_rpc_url, catch.
  destruct (discover_from_card E cfg s) as [[url|e|] s'] eqn:Hd;
    cbn [fst ret]; eauto.
  exfalso. revert Hd.
  unfold discover_from_card, bind, _get_agent_card, catch, session_get.
  destruct (agent_card E (card_url cfg)); cbn [raise]; [|discriminate].
  destruct (py_get data "url" JNull); cbn [lift ret raise]; [|discriminate].
  destruct (truthy a); [|discriminate].
  destruct (parsed_path a); cbn [lift ret raise]; [|discriminate].
  destruct (_ && _); discriminate.
Qed.

(** C6. Constructing the client always succeeds, whatever discovery
    does. When discovery fails, or the card has no usable [url], or its
    [url] has no path beyond the root, the RPC URL is the base (the
    configured base URL, or the card's URL in the last case) with its
    trailing slashes stripped, followed by the configured endpoint path
    normalized to start with ["/"]: equal to ["/"] when the configured
    path is empty, and otherwise (surrounding white space apart) the
    configured path itself, with a ["/"] put in front unless it has one. *)
Theorem C6_fallback_rpc_url (cfg : A2AConfig) (s : state) :
  exists self,
    fst (__init__ E cfg s) = Returns self
    /\ config self = cfg
    /\ (forall b,
          fallback_base cfg (agent_card E (card_url cfg)) b ->
          rpc_url self
          = PyStr.rstrip_slash b ++ _normalize_endpoint_path cfg)
    /\ PyStr.startswith_slash (_normalize_endpoint_path cfg) = true
    /\ (endpoint_path cfg = "" -> _normalize_endpoint_path cfg = "/")
    /\ (endpoint_path cfg <> "" ->
        PyStr.strip (endpoint_path cfg) = endpoint_path cfg ->
        _normalize_endpoint_path cfg
        = if PyStr.startswith_slash (endpoint_path cfg)
          then endpoint_path cfg
          else "/" ++ endpoint_path cfg).
Proof.
  destruct (discover_total cfg s) as [url Hurl].
  unfold __init__, bind.
  destruct (_discover_rpc_url E cfg s) as [[url'| |] s'] eqn:Hd;
    cbn [fst] in Hurl; try discriminate.
  injection Hurl as ->. eexists. split; [reflexivity|].
  cbn [config rpc_url]. split; [reflexivity|]. split.
  - intros b Hcase. pose proof (discover_fallback cfg s b Hcase) as Hfb.
    rewrite Hd in Hfb. cbn [fst] in Hfb. now injection Hfb as ->.
  - split; [apply normalized_path_slash|].
    split; [apply normalized_path_default | apply normalized_path_plain].
Qed.

End Resolver.

Section Polling.
Context {P : Platform}.
Variable E : env.

Lemma bind_lift {A B : Type} (r : result A) (k : A -> M B) (s : state) :
  bind (lift r) k s
  = match r with
    | Ok a => k a s
    | Raise e => (Raises e, s)
    end.
Proof. destruct r; reflexivity. Qed.

Lemma lift_finished {A : Type} (r : result A) (s : state) :
  fst (lift r s) <> Unfinished /\ snd (lift r s) = s.
Proof. destruct r; cbn; split; congruence. Qed.

Lemma jsonrpc_call_run (self : A2AProxyClient) (method : string)
  (params : json) (id : Z) (s : state) :
  exists r s',
    _jsonrpc_call E self method params id s = (r, s')
    /\ trace s' = (trace s ++ [EvPost (rpc_url self)
                                      (jsonrpc_payload method params id)])%list
    /\ r <> Unfinished.
Proof.
  unfold _jsonrpc_call, bind, session_post.
  destruct (rpc_reply E (posts s) _ _) as [data|e].
  - destruct (jsonrpc_result data); cbn; do 2 eexists;
      (split; [reflexivity|split; [reflexivity|discriminate]]).
  - do 2 eexists. split; [reflexivity|split; [reflexivity|discriminate]].
Qed.

Lemma poll_loop_shape (fuel : nat) (self : A2AProxyClient) (task_id : json)
  (deadline timeout_s poll_interval_s : float) :
  forall (id : Z) (s : state) (r : outcome string) (s' : state),
    poll_loop E fuel self task_id deadline timeout_s poll_interval_s id s
    = (r, s') ->
    exists evs,
      trace s' = (trace s ++ evs)%list
      /\ poll_shape self task_id deadline timeout_s poll_interval_s id evs r.
Proof.
  induction fuel as [|fuel IH]; intros id s r s' Hrun.
  - injection Hrun as <- <-. exists []. rewrite app_nil_r.
    split; [reflexivity|constructor].
  - cbn [poll_loop] in Hrun. unfold bind at 1 in Hrun.
    cbn [time_time] in Hrun.
    set (now := clock E (ticks s)) in *.
    set (s1 := {| posts := posts s; ticks := S (ticks s); uuids := uuids s;
                  trace := trace s ++ [EvTime now] |}) in *.
    destruct (float_ltb now deadline) eqn:Hlt.
    + unfold bind at 1 in Hrun.
      destruct (jsonrpc_call_run self "tasks/get" (JObj [("id", task_id)])
                  id s1) as (rj & s2 & Hcall & Htrace & Hfin).
      rewrite Hcall in Hrun.
      assert (Hstop : forall r0, r0 <> Unfinished ->
                exists evs, trace s2 = (trace s ++ evs)%list
                  /\ poll_shape self task_id deadline timeout_s
                       poll_interval_s id evs r0).
      { intros r0 Hr0. exists [EvTime now; get_event self task_id id].
        split; [|now constructor].
        rewrite Htrace. cbn [s1 trace]. now rewrite <- app_assoc. }
      destruct rj as [task|e|]; [| |congruence].
      * rewrite bind_lift in Hrun.
        destruct (py_get task "status" (JObj [])) as [status|e].
        2:{ injection Hrun as <- <-. apply Hstop. discriminate. }
        rewrite bind_lift in Hrun.
        destruct (py_get status "state" JNull) as [st|e].
        2:{ injection Hrun as <- <-. apply Hstop. discriminate. }
        rewrite bind_lift in Hrun.
        destruct (in_terminal_states st) as [[|]|e].
        3:{ injection Hrun as <- <-. apply Hstop. discriminate. }
        -- destruct (lift_finished (_extract_text_from_task task) s2)
             as [Hf Hs].
           rewrite Hrun in Hf, Hs. cbn [fst snd] in Hf, Hs. subst s'.
           now apply Hstop.
        -- unfold bind at 1 in Hrun. unfold time_sleep in Hrun.
           destruct (sleep_ok poll_interval_s).
           ++ apply IH in Hrun as (evs & Htr & Hshape).
              exists (EvTime now :: get_event self task_id id
                      :: EvSleep poll_interval_s :: evs).
              split; [|now constructor].
              rewrite Htr. cbn [emit trace]. rewrite Htrace. cbn [s1 trace].
              now rewrite <- !app_assoc.
           ++ injection Hrun as <- <-.
              exists [EvTime now; get_event self task_id id;
                      EvSleep poll_interval_s].
              split; [|now constructor].
              cbn [emit trace]. rewrite Htrace. cbn [s1 trace].
              now rewrite <- !app_assoc.
      * injection Hrun as <- <-. apply Hstop. discriminate.
    + injection Hrun as <- <-. exists [EvTime now].
      split; [reflexivity|now constructor].
Qed.

Lemma catch_reraise {A : Type} (m : M A) (s : state) :
  catch m (fun e => raise e) s = m s.
Proof. unfold catch, raise. now destruct (m s) as [[a|e|] s']. Qed.

Lemma send_and_poll_shape (fuel : nat) (self : A2AProxyClient)
  (prompt : string) (poll_interval_s timeout_s : float) (s : state)
  (r : outcome string) (s' : state) :
  send_and_poll E fuel self prompt poll_interval_s timeout_s s = (r, s') ->
  exists evs,
    trace s' = (trace s ++ evs)%list
    /\ send_shape self prompt timeout_s poll_interval_s evs r.
Proof.
  intro Hrun. unfold send_and_poll in Hrun. unfold bind at 1 in Hrun.
  cbn [uuid4_str] in Hrun.
  set (u := uuid4 E (uuids s)) in *.
  set (s1 := {| posts := posts s; ticks := ticks s; uuids := S (uuids s);
                trace := trace s ++ [EvUuid u] |}) in *.
  unfold bind at 1 in Hrun.
  destruct (jsonrpc_call_run self "message/send"
              (JObj [("message", user_message prompt u);
                     ("metadata", JObj [])]) 1 s1)
    as (rj & s2 & Hcall & Htrace & Hfin).
  rewrite Hcall in Hrun.
  assert (Hs2 : trace s2
                = (trace s ++ [EvUuid u; send_event self prompt u])%list).
  { rewrite Htrace. cbn [s1 trace]. now rewrite <- app_assoc. }
  assert (Hstop : forall r0, r0 <> Unfinished ->
            exists evs, trace s2 = (trace s ++ evs)%list
              /\ send_shape self prompt timeout_s poll_interval_s evs r0).
  { intros r0 Hr0. eexists. split; [exact Hs2|now constructor]. }
  destruct rj as [res|e|]; [| |congruence].
  2:{ injection Hrun as <- <-. apply Hstop. discriminate. }
  rewrite bind_lift in Hrun.
  destruct (py_get res "kind" JNull) as [kind|e].
  2:{ injection Hrun as <- <-. apply Hstop. discriminate. }
  destruct (negb (eq_str kind "task")).
  - destruct (lift_finished (_extract_text_from_message res) s2) as [Hf Hs].
    rewrite Hrun in Hf, Hs. cbn [fst snd] in Hf, Hs. subst s'.
    now apply Hstop.
  - rewrite bind_lift in Hrun.
    destruct (py_getitem res "id") as [task_id|e].
    2:{ injection Hrun as <- <-. apply Hstop. discriminate. }
    unfold bind at 1 in Hrun. cbn [time_time] in Hrun.
    apply poll_loop_shape in Hrun as (evs & Htr & Hshape).
    cbn [trace] in Htr.
    exists (EvUuid u :: send_event self prompt u
            :: EvTime (clock E (ticks s2)) :: evs).
    split; [|now apply send_polled with (task_id := task_id)].
    rewrite Htr, Hs2. now rewrite <- !app_assoc.
Qed.

Lemma send_prompt_shape (fuel : nat) (self : A2AProxyClient)
  (prompt : string) (poll_interval_s : float) (timeout_s : option float)
  (s : state) (r : outcome string) (s' : state) :
  send_prompt E fuel self prompt poll_interval_s timeout_s s = (r, s') ->
  exists evs,
    trace s' = (trace s ++ evs)%list
    /\ match resolved_timeout self timeout_s with
       | Some t => send_shape self prompt t poll_interval_s evs r
       | None => evs = [] /\ r = Raises OverflowError
       end.
Proof.
  unfold send_prompt, resolved_timeout. intro Hrun.
  destruct timeout_s as [t|];
    [|destruct (float_of_int (timeout_seconds (config self))) as [t|]].
  - unfold bind at 1 in Hrun. cbn [ret] in Hrun.
    rewrite catch_reraise in Hrun. now apply send_and_poll_shape in Hrun.
  - unfold bind at 1 in Hrun. cbn [ret] in Hrun.
    rewrite catch_reraise in Hrun. now apply send_and_poll_shape in Hrun.
  - injection Hrun as <- <-. exists []. now rewrite app_nil_r.
Qed.

(** *** What the shapes say about request ids *)

Lemma poll_calls_succ (id : Z) (n : nat) :
  poll_calls id (S n) = (JStr "tasks/get", JInt id) :: poll_calls (id + 1) n.
Proof.
  unfold poll_calls. cbn [seq map]. rewrite Z.add_0_r. f_equal.
  rewrite <- seq_shift, map_map. apply map_ext. intro i.
  do 2 f_equal. lia.
Qed.

Lemma poll_shape_posted (self : A2AProxyClient) (task_id : json)
  (deadline timeout_s poll_interval_s : float) (id : Z) (evs : list event)
  (r : outcome string) :
  poll_shape self task_id deadline timeout_s poll_interval_s id evs r ->
  exists n, posted evs = poll_calls id n.
Proof.
  induction 1 as [id|id now Hlt|id now r Hlt Hr|id now e Hlt
                 |id now evs r Hlt Hshape [n IH]].
  - now exists 0.
  - now exists 0.
  - exists 1. now rewrite poll_calls_succ.
  - exists 1. now rewrite poll_calls_succ.
  - exists (S n). rewrite poll_calls_succ. cbn [posted get_event].
    now rewrite IH.
Qed.

Lemma send_shape_posted (self : A2AProxyClient) (prompt : string)
  (timeout_s poll_interval_s : float) (evs : list event)
  (r : outcome string) :
  send_shape self prompt timeout_s poll_interval_s evs r ->
  exists n, posted evs = calls_from_one n.
Proof.
  intros [u r0 Hr|u task_id start evs0 r0 Hshape].
  - now exists 0.
  - apply poll_shape_posted in Hshape as [n Hn]. exists n.
    cbn [posted send_event]. now rewrite Hn.
Qed.

Lemma ids_from_one (evs : list event) (n : nat) :
  posted evs = calls_from_one n ->
  post_ids evs = map Z.of_nat (seq 1 (S n)).
Proof.
  unfold post_ids, calls_from_one. intros ->. cbn [map seq snd]. f_equal.
  rewrite <- (seq_shift n 1), <- (seq_shift n 0), !map_map.
  apply map_ext. intro i. cbn [snd]. lia.
Qed.

Lemma seq_strictly_increasing (start len : nat) :
  StronglySorted Z.lt (map Z.of_nat (seq start len)).
Proof.
  revert start. induction len as [|len IH]; intro start; cbn [seq map].
  - constructor.
  - constructor; [apply IH|].
    apply Forall_forall. intros z Hz.
    apply in_map_iff in Hz as (i & <- & Hi). apply in_seq in Hi. lia.
Qed.

(** *** What the shapes say about the deadline *)

Lemma cons_eq_app {A : Type} (x y : A) (l before after : list A) :
  x :: l = (before ++ y :: after)%list ->
  (before = [] /\ x = y /\ l = after)
  \/ exists before', before = x :: before'
                     /\ l = (before' ++ y :: after)%list.
Proof.
  destruct before as [|b before]; cbn; intros [= -> ->]; [left|right]; eauto.
Qed.

Lemma nil_eq_app {A : Type} (y : A) (before after : list A) :
  [] = (before ++ y :: after)%list -> False.
Proof. destruct before; discriminate. Qed.

Ltac split_cons H :=
  let b := fresh "before" in
  first
    [ apply nil_eq_app in H; contradiction
    | apply cons_eq_app in H as [(-> & H & <-)|(b & -> & H)] ].

Lemma poll_shape_guarded (self : A2AProxyClient) (task_id : json)
  (deadline timeout_s poll_interval_s : float) (id : Z) (evs : list event)
  (r : outcome string) :
  poll_shape self task_id deadline timeout_s poll_interval_s id evs r ->
  forall before url payload after,
    evs = (before ++ EvPost url payload :: after)%list ->
    exists before' now,
      before = (before' ++ [EvTime now])%list
      /\ float_ltb now deadline = true.
Proof.
  induction 1 as [id|id now Hlt|id now r Hlt Hr|id now e Hlt
                 |id now evs r Hlt Hshape IH];
    intros before url payload after Heq.
  - split_cons Heq.
  - split_cons Heq; [discriminate|]. split_cons Heq.
  - split_cons Heq; [discriminate|].
    split_cons Heq; [now exists [], now|]. split_cons Heq.
  - split_cons Heq; [discriminate|].
    split_cons Heq; [now exists [], now|].
    split_cons Heq; [discriminate|]. split_cons Heq.
  - split_cons Heq; [discriminate|].
    split_cons Heq; [now exists [], now|].
    split_cons Heq; [discriminate|].
    apply IH in Heq as (before' & now' & -> & Hnow).
    exists (EvTime now :: get_event self task_id id
            :: EvSleep poll_interval_s :: before'), now'.
    now split.
Qed.

Lemma poll_shape_hard_stop (self : A2AProxyClient) (task_id : json)
  (deadline timeout_s poll_interval_s : float) (id : Z) (evs : list event)
  (r : outcome string) :
  poll_shape self task_id deadline timeout_s poll_interval_s id evs r ->
  forall before now after,
    evs = (before ++ EvTime now :: after)%list ->
    float_ltb now deadline = false ->
    after = []
    /\ r = Raises (TimeoutError (timeout_message task_id timeout_s)).
Proof.
  induction 1 as [id|id now Hlt|id now r Hlt Hr|id now e Hlt
                 |id now evs r Hlt Hshape IH];
    intros before now' after Heq Hnow.
  - split_cons Heq.
  - split_cons Heq; [now split|]. split_cons Heq.
  - split_cons Heq; [injection Heq as <-; congruence|].
    split_cons Heq; [discriminate|]. split_cons Heq.
  - split_cons Heq; [injection Heq as <-; congruence|].
    split_cons Heq; [discriminate|].
    split_cons Heq; [discriminate|]. split_cons Heq.
  - split_cons Heq; [injection Heq as <-; congruence|].
    split_cons Heq; [discriminate|].
    split_cons Heq; [discriminate|].
    now apply (IH _ _ _ Heq).
Qed.

Lemma poll_shape_events (self : A2AProxyClient) (task_id : json)
  (deadline timeout_s poll_interval_s : float) (id : Z) (evs : list event)
  (r : outcome string) :
  poll_shape self task_id deadline timeout_s poll_interval_s id evs r ->
  forall url payload,
    In (EvPost url payload) evs ->
    exists id', EvPost url payload = get_event self task_id id'.
Proof.
  induction 1 as [id|id now Hlt|id now r Hlt Hr|id now e Hlt
                 |id now evs r Hlt Hshape IH];
    intros url payload Hin; cbn [In] in Hin.
  - contradiction.
  - now destruct Hin.
  - destruct Hin as [Hin|[Hin|[]]]; [discriminate|eauto].
  - destruct Hin as [Hin|[Hin|[Hin|[]]]]; try discriminate; eauto.
  - destruct Hin as [Hin|[Hin|[Hin|Hin]]]; try discriminate; eauto.
Qed.

Lemma payload_is_rpc_body (method : string) (params : list (string * json))
  (id : Z) :
  rpc_body "jsonrpc" (jsonrpc_payload method (JObj params) id)
  /\ payload_field "protocol_version"
       (jsonrpc_payload method (JObj params) id) = JNull
  /\ payload_field "method" (jsonrpc_payload method (JObj params) id)
     = JStr method.
Proof.
  split; [|split; reflexivity].
  eexists. split; [reflexivity|]. cbn. repeat split; eauto.
Qed.

(** *** The loop does time out *)

Lemma poll_loop_times_out (k : nat) :
  forall (fuel : nat) (self : A2AProxyClient) (task_id : json)
         (deadline timeout_s poll_interval_s : float) (id : Z) (s : state),
    (forall i, i < k ->
       float_ltb (clock E (ticks s + i)) deadline = true
       /\ exists data,
            rpc_reply E (posts s + i) (rpc_url self)
                      (jsonrpc_payload "tasks/get" (JObj [("id", task_id)])
                                       (id + Z.of_nat i))
            = ReplyJson data
            /\ pending data = true) ->
    (k = 0 \/ sleep_ok poll_interval_s = true) ->
    float_ltb (clock E (ticks s + k)) deadline = false ->
    k < fuel ->
    exists s',
      poll_loop E fuel self task_id deadline timeout_s poll_interval_s id s
      = (Raises (TimeoutError (timeout_message task_id timeout_s)), s')
      /\ posts s' = posts s + k.
Proof.
  induction k as [|k IH];
    intros fuel self task_id deadline timeout_s poll_interval_s id s
           Hpoll Hsleep Hlate Hfuel;
    (destruct fuel as [|fuel]; [lia|]); cbn [poll_loop];
    unfold bind at 1; cbn [time_time].
  - rewrite Nat.add_0_r in Hlate. rewrite Hlate. cbn [raise].
    eexists. split; [reflexivity|]. cbn [posts]. lia.
  - destruct (Hpoll 0 ltac:(lia)) as (Hnow & data & Hreply & Hpending).
    rewrite Nat.add_0_r in Hnow, Hreply. rewrite Z.add_0_r in Hreply.
    rewrite Hnow. unfold bind at 1. unfold _jsonrpc_call at 1.
    unfold bind at 1. unfold session_post at 1. cbn [posts rpc_url].
    rewrite Hreply. unfold pending in Hpending.
    destruct (jsonrpc_result data) as [task|]; [|discriminate].
    cbn [lift ret]. rewrite bind_lift.
    destruct (py_get task "status" (JObj [])) as [status|]; [|discriminate].
    rewrite bind_lift.
    destruct (py_get status "state" JNull) as [st|]; [|discriminate].
    rewrite bind_lift.
    destruct (in_terminal_states st) as [terminal|]; [|discriminate].
    apply negb_true_iff in Hpending. subst terminal.
    unfold bind at 1. unfold time_sleep at 1.
    destruct Hsleep as [Hk|Hsleep]; [discriminate|]. rewrite Hsleep.
    match goal with
    | |- context [poll_loop E fuel _ _ _ _ _ _ ?s3] =>
        destruct (IH fuel self task_id deadline timeout_s poll_interval_s
                     (id + 1)%Z s3) as (s' & Hrun & Hposts)
    end.
    + intros i Hi. cbn [emit posts ticks].
      destruct (Hpoll (S i) ltac:(lia)) as (Hnow' & data' & Hreply' & Hp').
      rewrite Nat.add_succ_r in Hnow', Hreply'.
      replace (id + Z.of_nat (S i))%Z with (id + 1 + Z.of_nat i)%Z
        in Hreply' by lia.
      split; [exact Hnow'|]. exists data'. now split.
    + now right.
    + cbn [emit posts ticks]. now rewrite Nat.add_succ_r in Hlate.
    + lia.
    + exists s'. split; [exact Hrun|]. rewrite Hposts.
      cbn [emit posts]. lia.
Qed.

Lemma prefix_app (s t : string) : prefix s (s ++ t) = true.
Proof.
  induction s as [|c s IH]; cbn; [now destruct t|].
  destruct (ascii_dec c c) as [_|Hne]; [exact IH | now elim Hne].
Qed.

Lemma contains_here (needle post : string) :
  PyStr.contains needle (needle ++ post) = true.
Proof.
  destruct (needle ++ post) eqn:Heq; cbn [PyStr.contains];
    rewrite <- Heq, prefix_app; reflexivity.
Qed.

Lemma contains_skip (needle pre s : string) :
  PyStr.contains needle s = true ->
  PyStr.contains needle (pre ++ s) = true.
Proof.
  intro Hs. induction pre as [|c pre IH]; cbn [append]; [exact Hs|].
  cbn [PyStr.contains]. rewrite IH. apply orb_true_r.
Qed.

Lemma timeout_message_names (task_id : json) (timeout_s : float) :
  PyStr.contains (py_str task_id) (timeout_message task_id timeout_s) = true
  /\ PyStr.contains (str_float timeout_s)
                    (timeout_message task_id timeout_s) = true.
Proof.
  unfold timeout_message. split.
  - apply contains_skip, contains_here.
  - do 3 apply contains_skip. apply contains_here.
Qed.

Lemma posted_app (a b : list event) :
  posted (a ++ b) = (posted a ++ posted b)%list.
Proof.
  induction a as [|ev a IH]; [reflexivity|].
  destruct ev; cbn [posted app]; now rewrite IH.
Qed.

(** C1 (as the code has it). Every JSON-RPC call [send_prompt] issues,
    [message/send] and [tasks/get] alike, posts to the resolved RPC URL a
    JSON object that carries the field [jsonrpc] with value ["2.0"], the
    integer [id], the [method] string and the [params] object; the body
    has no [protocol_version] field. *)
Theorem C1_body_carries_jsonrpc_field (fuel : nat) (self : A2AProxyClient)
  (prompt : string) (poll_interval_s : float) (timeout_s : option float)
  (s : state) (r : outcome string) (s' : state) :
  send_prompt E fuel self prompt poll_interval_s timeout_s s = (r, s') ->
  exists evs,
    trace s' = (trace s ++ evs)%list
    /\ forall url payload,
         In (EvPost url payload) evs ->
         url = rpc_url self
         /\ rpc_body "jsonrpc" payload
         /\ payload_field "protocol_version" payload = JNull
         /\ (payload_field "method" payload = JStr "message/send"
             \/ payload_field "method" payload = JStr "tasks/get").
Proof.
  intro Hrun. apply send_prompt_shape in Hrun as (evs & Htrace & Hshape).
  exists evs. split; [exact Htrace|]. intros url payload Hin.
  assert (Hsend : forall u, EvPost url payload = send_event self prompt u ->
            url = rpc_url self
            /\ rpc_body "jsonrpc" payload
            /\ payload_field "protocol_version" payload = JNull
            /\ (payload_field "method" payload = JStr "message/send"
                \/ payload_field "method" payload = JStr "tasks/get")).
  { intros u [= -> ->]. split; [reflexivity|].
    destruct (payload_is_rpc_body "message/send"
                [("message", user_message prompt u); ("metadata", JObj [])] 1)
      as (Hbody & Hversion & Hmethod).
    split; [exact Hbody|]. split; [exact Hversion|]. now left. }
  assert (Hget : forall task_id id,
            EvPost url payload = get_event self task_id id ->
            url = rpc_url self
            /\ rpc_body "jsonrpc" payload
            /\ payload_field "protocol_version" payload = JNull
            /\ (payload_field "method" payload = JStr "message/send"
                \/ payload_field "method" payload = JStr "tasks/get")).
  { intros task_id id [= -> ->]. split; [reflexivity|].
    destruct (payload_is_rpc_body "tasks/get" [("id", task_id)] id)
      as (Hbody & Hversion & Hmethod).
    split; [exact Hbody|]. split; [exact Hversion|]. now right. }
  destruct (resolved_timeout self timeout_s) as [t|].
  - destruct Hshape as [u r0 Hr|u task_id start evs0 r0 Hpoll];
      cbn [In] in Hin.
    + destruct Hin as [Hin|[Hin|[]]]; [discriminate|].
      now apply (Hsend u).
    + destruct Hin as [Hin|[Hin|[Hin|Hin]]]; try discriminate.
      * now apply (Hsend u).
      * destruct (poll_shape_events _ _ _ _ _ _ _ _ Hpoll _ _ Hin)
          as [id' Hev].
        now apply (Hget task_id id').
  - destruct Hshape as [-> _]. contradiction.
Qed.

(** C8. Across one send-then-poll sequence the request ids are
    1, 2, 3, ...: the [message/send] call has id 1 and the [tasks/get]
    polls that follow have ids 2, 3, ..., so the ids are strictly
    increasing. *)
Theorem C8_request_ids_increase_from_one (fuel : nat)
  (self : A2AProxyClient) (prompt : string) (poll_interval_s : float)
  (timeout_s : option float) (t : float) (s : state) (r : outcome string)
  (s' : state) :
  resolved_timeout self timeout_s = Some t ->
  send_prompt E fuel self prompt poll_interval_s timeout_s s = (r, s') ->
  exists evs n,
    trace s' = (trace s ++ evs)%list
    /\ posted evs = calls_from_one n
    /\ post_ids evs = map Z.of_nat (seq 1 (S n))
    /\ StronglySorted Z.lt (post_ids evs).
Proof.
  intros Ht Hrun. apply send_prompt_shape in Hrun as (evs & Htrace & Hshape).
  rewrite Ht in Hshape. apply send_shape_posted in Hshape as [n Hn].
  exists evs, n. split; [exact Htrace|]. split; [exact Hn|].
  pose proof (ids_from_one evs n Hn) as Hids. split; [exact Hids|].
  rewrite Hids. apply seq_strictly_increasing.
Qed.

(** C10. Request ids belong to one [send_prompt] invocation: each of two
    successive calls on the same client issues its [message/send] with
    id 1 and numbers its polls from 2, so the ids of the two calls taken
    together repeat. *)
Theorem C10_request_ids_restart (fuel1 fuel2 : nat) (self : A2AProxyClient)
  (prompt1 prompt2 : string) (poll1 poll2 : float)
  (timeout1 timeout2 : option float) (t1 t2 : float)
  (s0 s1 s2 : state) (r1 r2 : outcome string) :
  resolved_timeout self timeout1 = Some t1 ->
  resolved_timeout self timeout2 = Some t2 ->
  send_prompt E fuel1 self prompt1 poll1 timeout1 s0 = (r1, s1) ->
  send_prompt E fuel2 self prompt2 poll2 timeout2 s1 = (r2, s2) ->
  exists evs1 evs2 n1 n2,
    trace s1 = (trace s0 ++ evs1)%list
    /\ trace s2 = (trace s0 ++ evs1 ++ evs2)%list
    /\ posted evs1 = calls_from_one n1
    /\ posted evs2 = calls_from_one n2
    /\ ~ NoDup (post_ids (evs1 ++ evs2)).
Proof.
  intros Ht1 Ht2 Hrun1 Hrun2.
  apply send_prompt_shape in Hrun1 as (evs1 & Htrace1 & Hshape1).
  apply send_prompt_shape in Hrun2 as (evs2 & Htrace2 & Hshape2).
  rewrite Ht1 in Hshape1. rewrite Ht2 in Hshape2.
  apply send_shape_posted in Hshape1 as [n1 Hn1].
  apply send_shape_posted in Hshape2 as [n2 Hn2].
  exists evs1, evs2, n1, n2. split; [exact Htrace1|].
  split; [now rewrite Htrace2, Htrace1, app_assoc|].
  split; [exact Hn1|]. split; [exact Hn2|].
  unfold post_ids. rewrite posted_app, map_app, Hn1, Hn2.
  cbn [calls_from_one map snd app]. intro Hnodup.
  apply NoDup_cons_iff in Hnodup as [Hnotin _].
  apply Hnotin, in_or_app. right. now left.
Qed.

(** C2 (as the code has it). In every run of [send_prompt] that polls, each [tasks/get] call
    comes right after a reading of the clock that was before the
    deadline, and a reading that is not before the deadline is the last
    event of the run: no call follows it, and [send_prompt] raises the
    [TimeoutError] whose message names the task id and the timeout. When
    the task stays non-terminal for [k] polls and the next reading of the
    clock is not before the deadline, [send_prompt] does raise that error
    after exactly [k] polls, given fuel for more than [k] rounds. *)
Theorem C2_deadline_checked_before_each_poll :
  (forall (fuel : nat) (self : A2AProxyClient) (prompt : string)
          (poll_interval_s : float) (timeout_s : option float) (t : float)
          (s : state) (r : outcome string) (s' : state),
     resolved_timeout self timeout_s = Some t ->
     send_prompt E fuel self prompt poll_interval_s timeout_s s = (r, s') ->
     exists message_id polling,
       trace s'
       = (trace s ++ [EvUuid message_id; send_event self prompt message_id]
                  ++ polling)%list
       /\ (polling = []
           \/ exists start task_id evs,
                polling = EvTime start :: evs
                /\ (forall url payload,
                      In (EvPost url payload) evs ->
                      payload_field "method" payload = JStr "tasks/get")
                /\ (forall before url payload after,
                      evs = (before ++ EvPost url payload :: after)%list ->
                      exists before' now,
                        before = (before' ++ [EvTime now])%list
                        /\ float_ltb now (float_add start t) = true)
                /\ (forall before now after,
                      evs = (before ++ EvTime now :: after)%list ->
                      float_ltb now (float_add start t) = false ->
                      after = []
                      /\ r = Raises
                               (TimeoutError (timeout_message task_id t)))))
  /\ (forall (k fuel : nat) (self : A2AProxyClient) (prompt : string)
             (poll_interval_s : float) (timeout_s : option float)
             (t : float) (s : state) (data task_id : json),
        resolved_timeout self timeout_s = Some t ->
        rpc_reply E (posts s) (rpc_url self)
                  (jsonrpc_payload "message/send"
                     (JObj [("message",
                             user_message prompt (uuid4 E (uuids s)));
                            ("metadata", JObj [])]) 1)
        = ReplyJson data ->
        announces_task data task_id ->
        (forall i, i < k ->
           float_ltb (clock E (S (ticks s) + i))
                     (float_add (clock E (ticks s)) t) = true
           /\ exists body,
                rpc_reply E (S (posts s) + i) (rpc_url self)
                          (jsonrpc_payload "tasks/get"
                             (JObj [("id", task_id)]) (2 + Z.of_nat i))
                = ReplyJson body
                /\ pending body = true) ->
        (k = 0 \/ sleep_ok poll_interval_s = true) ->
        float_ltb (clock E (S (ticks s) + k))
                  (float_add (clock E (ticks s)) t) = false ->
        k < fuel ->
        exists s',
          send_prompt E fuel self prompt poll_interval_s timeout_s s
          = (Raises (TimeoutError (timeout_message task_id t)), s')
          /\ posts s' = S (posts s) + k
          /\ PyStr.contains (py_str task_id) (timeout_message task_id t)
             = true
          /\ PyStr.contains (str_float t) (timeout_message task_id t)
             = true).
Proof.
  split.
  - intros fuel self prompt poll_interval_s timeout_s t s r s' Ht Hrun.
    apply send_prompt_shape in Hrun as (evs & Htrace & Hshape).
    rewrite Ht in Hshape.
    destruct Hshape as [u r0 Hr|u task_id start evs0 r0 Hpoll].
    + exists u, []. split; [exact Htrace|now left].
    + exists u, (EvTime start :: evs0). split; [exact Htrace|].
      right. exists start, task_id, evs0. split; [reflexivity|].
      split; [|split].
      * intros url payload Hin.
        destruct (poll_shape_events _ _ _ _ _ _ _ _ Hpoll _ _ Hin)
          as [id' [= -> ->]].
        reflexivity.
      * exact (poll_shape_guarded _ _ _ _ _ _ _ _ Hpoll).
      * exact (poll_shape_hard_stop _ _ _ _ _ _ _ _ Hpoll).
  - intros k fuel self prompt poll_interval_s timeout_s t s data task_id
           Ht Hreply (res & Hres & Hkind & Hid) Hpoll Hsleep Hlate Hfuel.
    assert (Hbody :
              exists s',
                send_and_poll E fuel self prompt poll_interval_s t s
                = (Raises (TimeoutError (timeout_message task_id t)), s')
                /\ posts s' = S (posts s) + k).
    { unfold send_and_poll. unfold bind at 1. cbn [uuid4_str].
      unfold bind at 1. unfold _jsonrpc_call at 1. unfold bind at 1.
      unfold session_post at 1. cbn [posts rpc_url]. rewrite Hreply, Hres.
      cbn [lift ret]. rewrite bind_lift. cbn [py_get]. rewrite Hkind.
      change (negb (eq_str (JStr "task") "task")) with false. cbv iota.
      rewrite bind_lift. cbn [py_getitem].
      rewrite Hid. unfold bind at 1. cbn [time_time ticks].
      match goal with
      | |- context [poll_loop E fuel _ _ _ _ _ _ ?s3] =>
          destruct (poll_loop_times_out k fuel self task_id
                      (float_add (clock E (ticks s)) t) t poll_interval_s
                      2%Z s3) as (s' & Hrun & Hposts)
      end; cbn [posts ticks]; try assumption.
      exists s'. split; [exact Hrun|exact Hposts]. }
    destruct Hbody as (s' & Hrun & Hposts). exists s'.
    split; [|split; [exact Hposts|apply timeout_message_names]].
    unfold send_prompt, resolved_timeout in *.
    destruct timeout_s as [t0|].
    + injection Ht as ->. unfold bind at 1. cbn [ret].
      now rewrite catch_reraise.
    + rewrite Ht. unfold bind at 1. cbn [ret]. now rewrite catch_reraise.
Qed.

End Polling.

(** * More properties of the client *)

Section ClientExtras.
Context {P : Platform}.
Variable E : env.

(** *** Trailing slashes and the endpoint path *)

Lemma rstrip_by_snoc (p : ascii -> bool) (s : string) (c : ascii) :
  p c = true ->
  PyStr.rstrip_by p (s ++ String c EmptyString) = PyStr.rstrip_by p s.
Proof.
  intro Hc. induction s as [|a s IH]; cbn [append PyStr.rstrip_by].
  - now rewrite Hc.
  - now rewrite IH.
Qed.

Lemma rstrip_by_last (p : ascii -> bool) (s : string) :
  last_char_is p (PyStr.rstrip_by p s) = false.
Proof.
  induction s as [|c s IH]; [reflexivity|]. cbn [PyStr.rstrip_by].
  destruct (p c) eqn:Hc; destruct (PyStr.rstrip_by p s) as [|b r] eqn:Hr;
    cbn [andb PyStr.is_empty last_char_is]; auto.
Qed.

Lemma rstrip_by_fixed (p : ascii -> bool) (s : string) :
  last_char_is p s = false -> PyStr.rstrip_by p s = s.
Proof.
  induction s as [|c s IH]; [reflexivity|]. cbn [PyStr.rstrip_by].
  destruct s as [|b s'].
  - cbn. intros ->. reflexivity.
  - intro Hlast. change (last_char_is p (String b s') = false) in Hlast.
    rewrite (IH Hlast). cbn [PyStr.is_empty]. now rewrite andb_false_r.
Qed.

Lemma lstrip_by_last (p : ascii -> bool) (s : string) :
  last_char_is p s = false -> last_char_is p (PyStr.lstrip_by p s) = false.
Proof.
  induction s as [|c s IH]; [reflexivity|]. cbn [PyStr.lstrip_by].
  destruct (p c) eqn:Hc; [|auto].
  destruct s as [|b s']; [reflexivity|].
  intro Hlast. apply IH. exact Hlast.
Qed.

Lemma lstrip_by_first (p : ascii -> bool) (s : string) :
  match PyStr.lstrip_by p s with
  | EmptyString => True
  | String c _ => p c = false
  end.
Proof.
  induction s as [|c s IH]; [exact I|]. cbn [PyStr.lstrip_by].
  destruct (p c) eqn:Hc; [exact IH|exact Hc].
Qed.

Lemma strip_fixed (s : string) :
  last_char_is PyStr.isspace s = false ->
  match s with
  | EmptyString => True
  | String c _ => PyStr.isspace c = false
  end ->
  PyStr.strip s = s.
Proof.
  intros Hlast Hfirst. unfold PyStr.strip.
  rewrite (rstrip_by_fixed _ _ Hlast).
  destruct s as [|c s']; [reflexivity|]. cbn [PyStr.lstrip_by].
  now rewrite Hfirst.
Qed.

Lemma strip_clean (s : string) :
  last_char_is PyStr.isspace (PyStr.strip s) = false
  /\ match PyStr.strip s with
     | EmptyString => True
     | String c _ => PyStr.isspace c = false
     end.
Proof.
  unfold PyStr.strip. split.
  - apply lstrip_by_last, rstrip_by_last.
  - apply lstrip_by_first.
Qed.

Lemma normalized_path_clean (cfg : A2AConfig) :
  PyStr.strip (_normalize_endpoint_path cfg) = _normalize_endpoint_path cfg.
Proof.
  unfold _normalize_endpoint_path.
  destruct (strip_clean (if PyStr.is_empty (endpoint_path cfg) then "/"
                         else endpoint_path cfg)) as [Hlast Hfirst].
  set (t := PyStr.strip (if PyStr.is_empty (endpoint_path cfg) then "/"
                         else endpoint_path cfg)) in *.
  destruct t as [|c t']; cbn [PyStr.is_empty]; [reflexivity|].
  destruct (PyStr.startswith_slash (String c t')) eqn:Hslash.
  - now apply strip_fixed.
  - apply strip_fixed; [|reflexivity].
    change (last_char_is PyStr.isspace (String "/" (String c t')) = false).
    exact Hlast.
Qed.

(** X1. The RPC URL built from a base does not depend on the slashes
    the base ends with: the stem taken from the base never ends with a
    slash and the path put behind it always starts with one. *)
Theorem build_rpc_url_trailing_slash (cfg : A2AConfig) (base : string) :
  _build_rpc_url cfg (base ++ "/") = _build_rpc_url cfg base
  /\ _build_rpc_url cfg (PyStr.rstrip_slash base) = _build_rpc_url cfg base
  /\ ends_with_slash (PyStr.rstrip_slash base) = false
  /\ PyStr.startswith_slash (_normalize_endpoint_path cfg) = true.
Proof.
  unfold _build_rpc_url, PyStr.rstrip_slash, ends_with_slash.
  split; [|split; [|split]].
  - now rewrite rstrip_by_snoc.
  - now rewrite (rstrip_by_fixed _ _ (rstrip_by_last _ base)).
  - apply rstrip_by_last.
  - apply normalized_path_slash.
Qed.

(** X2. Normalizing the endpoint path is idempotent: a configuration
    that holds an already normalized path is left with that path. *)
Theorem normalize_endpoint_path_idempotent (cfg : A2AConfig) :
  _normalize_endpoint_path
    (with_endpoint_path cfg (_normalize_endpoint_path cfg))
  = _normalize_endpoint_path cfg.
Proof.
  pose proof (normalized_path_slash cfg) as Hslash.
  pose proof (normalized_path_clean cfg) as Hclean.
  set (n := _normalize_endpoint_path cfg) in *.
  unfold _normalize_endpoint_path at 1. cbn [with_endpoint_path endpoint_path].
  destruct n as [|c n'] eqn:Hn; [discriminate|].
  cbn [PyStr.is_empty]. rewrite Hclean. cbn [PyStr.is_empty].
  now rewrite Hslash.
Qed.

(** *** Construction *)

(** X3. Constructing a client makes exactly one request, a [GET] of the
    agent card at the base URL (trailing slashes stripped) followed by
    [/.well-known/agent-card.json]; it succeeds whatever the answer. The
    session sends [Authorization: Bearer <token>] exactly when a
    non-empty token is configured. *)
Theorem init_single_get (cfg : A2AConfig) (s : state) :
  exists self,
    __init__ E cfg s = (Returns self, emit (EvGet (card_url cfg)) s)
    /\ config self = cfg
    /\ card_url cfg
       = PyStr.rstrip_slash (base_url cfg) ++ "/.well-known/agent-card.json"
    /\ (forall v,
          In ("Authorization", v) (headers self)
          <-> exists token,
                auth_token cfg = Some token /\ token <> ""
                /\ v = "Bearer " ++ token).
Proof.
  assert (Hheaders : forall v,
            In ("Authorization", v) (default_headers cfg)
            <-> exists token,
                  auth_token cfg = Some token /\ token <> ""
                  /\ v = "Bearer " ++ token).
  { intro v. unfold default_headers. cbn [app In]. split.
    - intros [Hin|[Hin|Hin]]; try discriminate.
      destruct (auth_token cfg) as [token|]; [|contradiction].
      destruct token as [|c token]; [contradiction|].
      cbn [PyStr.is_empty In] in Hin. destruct Hin as [[= <-]|[]].
      eexists. repeat split. discriminate.
    - intros (token & -> & Hne & ->). right. right.
      destruct token; [congruence|]. now left. }
  unfold __init__, bind, _discover_rpc_url, catch, discover_from_card, bind,
    _get_agent_card, catch, session_get.
  destruct (agent_card E (card_url cfg)) as [data|e]; cbn [raise ret].
  - destruct (py_get data "url" JNull) as [url|e]; cbn [lift ret raise].
    + destruct (truthy url).
      * destruct (parsed_path url) as [path|e]; cbn [lift ret raise].
        -- destruct (_ && _); eexists; repeat split; apply Hheaders.
        -- eexists; repeat split; apply Hheaders.
      * eexists; repeat split; apply Hheaders.
    + eexists; repeat split; apply Hheaders.
  - eexists; repeat split; apply Hheaders.
Qed.

(** *** The transport *)

(** X4. On a JSON object that has an [error] field, [_jsonrpc_call]
    raises [RuntimeError] with the stringified error, whatever the value
    of the field (a [null] included) and whether or not a [result] is
    there too; without an [error] field it returns the [result]. Either
    way it has posted once. *)
Theorem jsonrpc_error_field_wins (self : A2AProxyClient) (method : string)
  (params : json) (id : Z) (s : state) (fields : list (string * json)) :
  rpc_reply E (posts s) (rpc_url self) (jsonrpc_payload method params id)
  = ReplyJson (JObj fields) ->
  (forall err,
     dict_get "error" fields = Some err ->
     _jsonrpc_call E self method params id s
     = (Raises (RuntimeError ("JSON-RPC error: " ++ py_str err)),
        after_post (rpc_url self) (jsonrpc_payload method params id) s))
  /\ (forall res,
        dict_get "error" fields = None ->
        dict_get "result" fields = Some res ->
        _jsonrpc_call E self method params id s
        = (Returns res,
           after_post (rpc_url self) (jsonrpc_payload method params id) s)).
Proof.
  intro Hreply. unfold _jsonrpc_call, bind, session_post. rewrite Hreply.
  unfold jsonrpc_result. cbn [py_in rbind py_getitem]. split.
  - intros err ->. reflexivity.
  - intros res -> ->. reflexivity.
Qed.

(** *** One call of [send_prompt], step by step *)

Lemma send_prompt_resolved (fuel : nat) (self : A2AProxyClient)
  (prompt : string) (poll_interval_s : float) (timeout_s : option float)
  (t : float) (s : state) :
  resolved_timeout self timeout_s = Some t ->
  send_prompt E fuel self prompt poll_interval_s timeout_s s
  = send_and_poll E fuel self prompt poll_interval_s t s.
Proof.
  unfold send_prompt, resolved_timeout. intro Ht.
  destruct timeout_s as [t0|].
  - injection Ht as ->. unfold bind at 1. cbn [ret]. apply catch_reraise.
  - rewrite Ht. unfold bind at 1. cbn [ret]. apply catch_reraise.
Qed.

Lemma send_and_poll_unfold (fuel : nat) (self : A2AProxyClient)
  (prompt : string) (poll_interval_s t : float) (s : state) :
  send_and_poll E fuel self prompt poll_interval_s t s
  = match send_reply E self prompt s with
    | ReplyRaise e => (Raises e, after_send E self prompt s)
    | ReplyJson data =>
        match jsonrpc_result data with
        | Raise e => (Raises e, after_send E self prompt s)
        | Ok res =>
            match py_get res "kind" JNull with
            | Raise e => (Raises e, after_send E self prompt s)
            | Ok kind =>
                if negb (eq_str kind "task")
                then (to_outcome (_extract_text_from_message res),
                      after_send E self prompt s)
                else
                  match py_getitem res "id" with
                  | Raise e => (Raises e, after_send E self prompt s)
                  | Ok task_id =>
                      poll_loop E fuel self task_id (deadline_of E s t) t
                                poll_interval_s 2
                                (after_start E self prompt s)
                  end
            end
        end
    end.
Proof.
  unfold send_and_poll. unfold bind at 1. cbn [uuid4_str].
  unfold bind at 1. unfold _jsonrpc_call at 1. unfold bind at 1.
  unfold session_post at 1. cbn [posts ticks uuids trace].
  unfold send_reply, send_payload, after_send, after_start, send_event,
    deadline_of.
  rewrite <- app_assoc. cbn [app].
  destruct (rpc_reply E (posts s) (rpc_url self) _) as [data|e];
    [|reflexivity].
  destruct (jsonrpc_result data) as [res|e]; cbn [lift ret raise];
    [|reflexivity].
  rewrite bind_lift.
  destruct (py_get res "kind" JNull) as [kind|e]; [|reflexivity].
  destruct (negb (eq_str kind "task")).
  - now destruct (_extract_text_from_message res).
  - rewrite bind_lift.
    destruct (py_getitem res "id") as [task_id|e]; [|reflexivity].
    unfold bind at 1. cbn [time_time posts ticks uuids trace].
    now rewrite <- app_assoc.
Qed.

Lemma eq_str_true (v : json) (s : string) :
  eq_str v s = true <-> v = JStr s.
Proof.
  destruct v; cbn; try (split; [discriminate|intros [=]]).
  rewrite String.eqb_eq. split; [now intros ->|now intros [= ->]].
Qed.

Lemma send_and_poll_announced (fuel : nat) (self : A2AProxyClient)
  (prompt : string) (poll_interval_s t : float) (s : state)
  (task_id : json) :
  announced E self prompt s task_id ->
  send_and_poll E fuel self prompt poll_interval_s t s
  = poll_loop E fuel self task_id (deadline_of E s t) t poll_interval_s 2
              (after_start E self prompt s).
Proof.
  intros (data & Hreply & res & Hres & Hkind & Hid).
  rewrite send_and_poll_unfold, Hreply, Hres. cbn [py_get py_getitem].
  rewrite Hkind, Hid. reflexivity.
Qed.

(** X5. When the agent answers [message/send] with a result whose
    [kind] is not ["task"], [send_prompt] returns what
    [_extract_text_from_message] makes of that result after this one
    call: it never reads the clock, polls or sleeps, whatever the
    fuel. *)
Theorem send_prompt_direct_answer (fuel : nat) (self : A2AProxyClient)
  (prompt : string) (poll_interval_s : float) (timeout_s : option float)
  (t : float) (s : state) (data : json) (res : list (string * json)) :
  resolved_timeout self timeout_s = Some t ->
  send_reply E self prompt s = ReplyJson data ->
  jsonrpc_result data = Ok (JObj res) ->
  dict_get "kind" res <> Some (JStr "task") ->
  send_prompt E fuel self prompt poll_interval_s timeout_s s
  = (to_outcome (_extract_text_from_message (JObj res)),
     after_send E self prompt s).
Proof.
  intros Ht Hreply Hres Hkind.
  rewrite (send_prompt_resolved _ _ _ _ _ _ _ Ht), send_and_poll_unfold,
    Hreply, Hres.
  cbn [py_get].
  destruct (eq_str _ "task") eqn:Heq; [|reflexivity].
  apply eq_str_true in Heq. elim Hkind.
  destruct (dict_get "kind" res); [now subst|discriminate].
Qed.

(** X6. A task announced without an [id] makes [send_prompt] raise
    [KeyError('id')] right after the [message/send] call, before any
    reading of the clock. *)
Theorem send_prompt_task_without_id (fuel : nat) (self : A2AProxyClient)
  (prompt : string) (poll_interval_s : float) (timeout_s : option float)
  (t : float) (s : state) (data : json) (res : list (string * json)) :
  resolved_timeout self timeout_s = Some t ->
  send_reply E self prompt s = ReplyJson data ->
  jsonrpc_result data = Ok (JObj res) ->
  dict_get "kind" res = Some (JStr "task") ->
  dict_get "id" res = None ->
  send_prompt E fuel self prompt poll_interval_s timeout_s s
  = (Raises (KeyError "id"), after_send E self prompt s).
Proof.
  intros Ht Hreply Hres Hkind Hid.
  rewrite (send_prompt_resolved _ _ _ _ _ _ _ Ht), send_and_poll_unfold,
    Hreply, Hres.
  cbn [py_get py_getitem]. now rewrite Hkind, Hid.
Qed.

(** X7. The message [send_prompt] builds reads back as its prompt: an
    agent that answers with the message it was sent makes [send_prompt]
    return the prompt, for every prompt that is not empty. *)
Theorem send_prompt_echo (fuel : nat) (self : A2AProxyClient)
  (prompt : string) (poll_interval_s : float) (timeout_s : option float)
  (t : float) (s : state) (fields : list (string * json)) :
  prompt <> "" ->
  resolved_timeout self timeout_s = Some t ->
  send_reply E self prompt s = ReplyJson (JObj fields) ->
  dict_get "error" fields = None ->
  dict_get "result" fields
  = Some (user_message prompt (uuid4 E (uuids s))) ->
  _extract_text_from_message (user_message prompt (uuid4 E (uuids s)))
  = Ok prompt
  /\ send_prompt E fuel self prompt poll_interval_s timeout_s s
     = (Returns prompt, after_send E self prompt s).
Proof.
  intros Hne Ht Hreply Herr Hres.
  assert (Hecho : forall mid,
            _extract_text_from_message (user_message prompt mid) = Ok prompt).
  { intro mid. unfold _extract_text_from_message, user_message.
    cbn [py_in py_getitem rbind dict_get String.eqb Ascii.eqb Bool.eqb
         collect_text_parts eq_str truthy].
    destruct prompt; [congruence|]. reflexivity. }
  split; [apply Hecho|].
  rewrite (send_prompt_resolved _ _ _ _ _ _ _ Ht), send_and_poll_unfold,
    Hreply.
  unfold jsonrpc_result. cbn [py_in rbind py_getitem].
  rewrite Herr, Hres. cbn [rbind].
  change (py_get (user_message prompt (uuid4 E (uuids s))) "kind" JNull)
    with (@Ok json JNull).
  cbn [eq_str negb]. now rewrite Hecho.
Qed.

(** *** Polling *)

Lemma poll_calls_snoc (id : Z) (k : nat) :
  poll_calls id (S k)
  = (poll_calls id k
     ++ [(JStr "tasks/get", JInt (id + Z.of_nat k))])%list.
Proof.
  revert id. induction k as [|k IH]; intro id.
  - rewrite poll_calls_succ. cbn. now rewrite Z.add_0_r.
  - rewrite poll_calls_succ, IH, (poll_calls_succ id k). cbn [app].
    replace (id + 1 + Z.of_nat k)%Z with (id + Z.of_nat (S k))%Z by lia.
    reflexivity.
Qed.

Lemma sleeps_app (a b : list event) : sleeps (a ++ b) = sleeps a + sleeps b.
Proof.
  induction a as [|ev a IH]; [reflexivity|].
  destruct ev; cbn [app sleeps]; now rewrite IH.
Qed.

Lemma poll_loop_pending_prefix (k : nat) :
  forall (fuel : nat) (self : A2AProxyClient) (task_id : json)
         (deadline timeout_s poll_interval_s : float) (id : Z) (s : state),
    (forall i, i < k ->
       float_ltb (clock E (ticks s + i)) deadline = true
       /\ exists body,
            rpc_reply E (posts s + i) (rpc_url self)
                      (jsonrpc_payload "tasks/get" (JObj [("id", task_id)])
                                       (id + Z.of_nat i))
            = ReplyJson body
            /\ pending body = true) ->
    (k = 0 \/ sleep_ok poll_interval_s = true) ->
    exists s_k evs,
      poll_loop E (k + fuel) self task_id deadline timeout_s poll_interval_s
                id s
      = poll_loop E fuel self task_id deadline timeout_s poll_interval_s
                  (id + Z.of_nat k) s_k
      /\ posts s_k = posts s + k
      /\ ticks s_k = ticks s + k
      /\ uuids s_k = uuids s
      /\ trace s_k = (trace s ++ evs)%list
      /\ posted evs = poll_calls id k
      /\ sleeps evs = k
      /\ clock_reads evs = k.
Proof.
  induction k as [|k IH];
    intros fuel self task_id deadline timeout_s poll_interval_s id s
           Hpoll Hsleep.
  - exists s, []. rewrite Z.add_0_r, !Nat.add_0_r, app_nil_r.
    repeat split.
  - cbn [Nat.add poll_loop]. unfold bind at 1. cbn [time_time].
    destruct (Hpoll 0 ltac:(lia)) as (Hnow & data & Hreply & Hpending).
    rewrite Nat.add_0_r in Hnow, Hreply. rewrite Z.add_0_r in Hreply.
    rewrite Hnow. unfold bind at 1. unfold _jsonrpc_call at 1.
    unfold bind at 1. unfold session_post at 1. cbn [posts rpc_url].
    rewrite Hreply. unfold pending in Hpending.
    destruct (jsonrpc_result data) as [task|]; [|discriminate].
    cbn [lift ret]. rewrite bind_lift.
    destruct (py_get task "status" (JObj [])) as [status|]; [|discriminate].
    rewrite bind_lift.
    destruct (py_get status "state" JNull) as [st|]; [|discriminate].
    rewrite bind_lift.
    destruct (in_terminal_states st) as [terminal|]; [|discriminate].
    apply negb_true_iff in Hpending. subst terminal.
    unfold bind at 1. unfold time_sleep at 1.
    destruct Hsleep as [Hk|Hsleep]; [discriminate|]. rewrite Hsleep.
    match goal with
    | |- context [poll_loop E (k + fuel) _ _ _ _ _ _ ?s3] =>
        destruct (IH fuel self task_id deadline timeout_s poll_interval_s
                     (id + 1)%Z s3)
          as (s_k & evs & Hrun & Hposts & Hticks & Huuids & Htrace
              & Hcalls & Hsleeps & Hreads)
    end.
    + intros i Hi. cbn [emit posts ticks].
      destruct (Hpoll (S i) ltac:(lia)) as (Hnow' & data' & Hreply' & Hp').
      rewrite Nat.add_succ_r in Hnow', Hreply'.
      replace (id + Z.of_nat (S i))%Z with (id + 1 + Z.of_nat i)%Z
        in Hreply' by lia.
      split; [exact Hnow'|]. exists data'. now split.
    + now right.
    + exists s_k,
        (EvTime (clock E (ticks s))
         :: EvPost (rpc_url self)
              (jsonrpc_payload "tasks/get" (JObj [("id", task_id)]) id)
         :: EvSleep poll_interval_s :: evs).
      replace (id + Z.of_nat (S k))%Z with (id + 1 + Z.of_nat k)%Z by lia.
      split; [exact Hrun|].
      cbn [emit posts ticks uuids trace] in Hposts, Hticks, Huuids, Htrace.
      repeat split; try lia.
      * rewrite Htrace, <- !app_assoc. reflexivity.
      * rewrite poll_calls_succ. cbn [posted]. now rewrite Hcalls.
      * cbn [sleeps]. now rewrite Hsleeps.
      * cbn [clock_reads]. now rewrite Hreads.
Qed.

(** The same for a whole run: after the announcement and [k] polls that
    find the task in progress, the run stands at its poll number [k]. *)
Lemma send_prompt_pending_prefix (k fuel : nat) (self : A2AProxyClient)
  (prompt : string) (poll_interval_s : float) (timeout_s : option float)
  (t : float) (s : state) (task_id : json) :
  resolved_timeout self timeout_s = Some t ->
  announced E self prompt s task_id ->
  pending_polls E self s task_id t k ->
  (k = 0 \/ sleep_ok poll_interval_s = true) ->
  exists s_k evs,
    send_prompt E (k + fuel) self prompt poll_interval_s timeout_s s
    = poll_loop E fuel self task_id (deadline_of E s t) t poll_interval_s
                (2 + Z.of_nat k) s_k
    /\ posts s_k = S (posts s) + k
    /\ ticks s_k = S (ticks s) + k
    /\ trace s_k = (trace s ++ evs)%list
    /\ posted evs = calls_from_one k
    /\ sleeps evs = k
    /\ clock_reads evs = S k.
Proof.
  intros Ht Hann Hpending Hsleep.
  rewrite (send_prompt_resolved _ _ _ _ _ _ _ Ht).
  rewrite (send_and_poll_announced _ _ _ _ _ _ _ Hann).
  destruct (poll_loop_pending_prefix k fuel self task_id (deadline_of E s t)
              t poll_interval_s 2%Z (after_start E self prompt s))
    as (s_k & evs & Hrun & Hposts & Hticks & _ & Htrace & Hcalls & Hsleeps
        & Hreads).
  - intros i Hi. destruct (Hpending i Hi) as (Hnow & body & Hreply & Hp).
    split; [exact Hnow|]. exists body. split; [exact Hreply|exact Hp].
  - exact Hsleep.
  - exists s_k,
      (EvUuid (uuid4 E (uuids s))
       :: send_event self prompt (uuid4 E (uuids s))
       :: EvTime (clock E (ticks s)) :: evs).
    split; [exact Hrun|]. cbn [after_start posts ticks trace] in *.
    repeat split; try assumption.
    + rewrite Htrace, <- !app_assoc. reflexivity.
    + cbn [posted send_event]. unfold calls_from_one. now rewrite Hcalls.
    + cbn [clock_reads send_event]. now rewrite Hreads.
Qed.

(** X8. When the task is found in progress by [k] polls and in a
    terminal state by the next one, all made in time, [send_prompt] ends
    with what [_extract_text_from_task] makes of that last task (the text,
    or the error of a failed, canceled or rejected task): it has made one
    [message/send] and [k + 1] polls, slept [k] times, and does not poll
    the task again. *)
Theorem send_prompt_settles (k fuel : nat) (self : A2AProxyClient)
  (prompt : string) (poll_interval_s : float) (timeout_s : option float)
  (t : float) (s : state) (task_id data task : json) :
  resolved_timeout self timeout_s = Some t ->
  announced E self prompt s task_id ->
  pending_polls E self s task_id t k ->
  (k = 0 \/ sleep_ok poll_interval_s = true) ->
  in_time E s t k ->
  poll_reply E self s task_id k = ReplyJson data ->
  settled data = Some task ->
  exists s' evs,
    send_prompt E (k + S fuel) self prompt poll_interval_s timeout_s s
    = (to_outcome (_extract_text_from_task task), s')
    /\ trace s' = (trace s ++ evs)%list
    /\ posted evs = calls_from_one (S k)
    /\ sleeps evs = k
    /\ posts s' = S (posts s) + S k.
Proof.
  intros Ht Hann Hpending Hsleep Hnow Hreply Hsettled.
  destruct (send_prompt_pending_prefix k (S fuel) self prompt
              poll_interval_s timeout_s t s task_id Ht Hann Hpending Hsleep)
    as (s_k & evs & Hrun & Hposts & Hticks & Htrace & Hcalls & Hsleeps & _).
  rewrite Hrun. cbn [poll_loop]. unfold bind at 1. cbn [time_time].
  unfold in_time in Hnow. rewrite Hticks, Hnow.
  unfold bind at 1. unfold _jsonrpc_call at 1. unfold bind at 1.
  unfold session_post at 1. cbn [posts]. unfold poll_reply in Hreply.
  rewrite Hposts, Hreply. unfold settled in Hsettled.
  destruct (jsonrpc_result data) as [task0|]; [|discriminate].
  cbn [lift ret]. rewrite bind_lift.
  destruct (py_get task0 "status" (JObj [])) as [status|]; [|discriminate].
  rewrite bind_lift.
  destruct (py_get status "state" JNull) as [st|]; [|discriminate].
  rewrite bind_lift.
  destruct (in_terminal_states st) as [[|]|]; try discriminate.
  injection Hsettled as ->.
  eexists.
  exists (evs ++ [EvTime (clock E (S (ticks s) + k));
                  EvPost (rpc_url self)
                    (jsonrpc_payload "tasks/get" (JObj [("id", task_id)])
                                     (2 + Z.of_nat k))])%list.
  split; [now destruct (_extract_text_from_task task)|].
  cbn [posts trace]. repeat split.
  - rewrite Htrace, <- !app_assoc. reflexivity.
  - rewrite posted_app, Hcalls. cbn [posted app].
    unfold calls_from_one. fold (poll_calls 2 k). fold (poll_calls 2 (S k)).
    now rewrite poll_calls_snoc.
  - rewrite sleeps_app, Hsleeps. cbn [sleeps]. lia.
  - lia.
Qed.

(** X9. The client never retries: when the [message/send] request
    fails, [send_prompt] raises that failure after this one request; when
    a poll fails, by the request or by a JSON-RPC error in its body,
    [send_prompt] raises that failure and makes no further request. *)
Theorem send_prompt_no_retry (self : A2AProxyClient) (prompt : string)
  (poll_interval_s : float) (timeout_s : option float) (t : float)
  (s : state) :
  resolved_timeout self timeout_s = Some t ->
  (forall (fuel : nat) (e : py_error),
     send_reply E self prompt s = ReplyRaise e ->
     send_prompt E fuel self prompt poll_interval_s timeout_s s
     = (Raises e, after_send E self prompt s))
  /\ (forall (k fuel : nat) (task_id : json) (e : py_error),
        announced E self prompt s task_id ->
        pending_polls E self s task_id t k ->
        (k = 0 \/ sleep_ok poll_interval_s = true) ->
        in_time E s t k ->
        match poll_reply E self s task_id k with
        | ReplyRaise e' => e' = e
        | ReplyJson data => jsonrpc_result data = Raise e
        end ->
        exists s',
          send_prompt E (k + S fuel) self prompt poll_interval_s timeout_s s
          = (Raises e, s')
          /\ posts s' = S (posts s) + S k).
Proof.
  intro Ht. split.
  - intros fuel e Hreply.
    now rewrite (send_prompt_resolved _ _ _ _ _ _ _ Ht), send_and_poll_unfold,
      Hreply.
  - intros k fuel task_id e Hann Hpending Hsleep Hnow Hreply.
    destruct (send_prompt_pending_prefix k (S fuel) self prompt
                poll_interval_s timeout_s t s task_id Ht Hann Hpending Hsleep)
      as (s_k & evs & Hrun & Hposts & Hticks & _).
    rewrite Hrun. cbn [poll_loop]. unfold bind at 1. cbn [time_time].
    unfold in_time in Hnow. rewrite Hticks, Hnow.
    unfold bind at 1. unfold _jsonrpc_call at 1. unfold bind at 1.
    unfold session_post at 1. cbn [posts]. unfold poll_reply in Hreply.
    rewrite Hposts.
    destruct (rpc_reply E (S (posts s) + k) _ _) as [data|e'].
    + rewrite Hreply. cbn [lift raise]. eexists. split; [reflexivity|].
      cbn [posts]. lia.
    + subst e'. eexists. split; [reflexivity|]. cbn [posts]. lia.
Qed.

(** X10. Every poll of a run asks for the task the agent announced: it
    posts [tasks/get] to the RPC URL with the parameters [{"id": task_id}]
    where [task_id] is the [id] of the [message/send] result, passed on
    as it came. *)
Theorem polls_ask_for_announced_task (fuel : nat) (self : A2AProxyClient)
  (prompt : string) (poll_interval_s : float) (timeout_s : option float)
  (t : float) (s : state) (task_id : json) (r : outcome string)
  (s' : state) :
  resolved_timeout self timeout_s = Some t ->
  announced E self prompt s task_id ->
  send_prompt E fuel self prompt poll_interval_s timeout_s s = (r, s') ->
  exists evs,
    trace s' = (trace (after_start E self prompt s) ++ evs)%list
    /\ forall url payload,
         In (EvPost url payload) evs ->
         url = rpc_url self
         /\ exists id,
              payload
              = jsonrpc_payload "tasks/get" (JObj [("id", task_id)]) id.
Proof.
  intros Ht Hann Hrun.
  rewrite (send_prompt_resolved _ _ _ _ _ _ _ Ht),
    (send_and_poll_announced _ _ _ _ _ _ _ Hann) in Hrun.
  apply poll_loop_shape in Hrun as (evs & Htrace & Hshape).
  exists evs. split; [exact Htrace|]. intros url payload Hin.
  destruct (poll_shape_events _ _ _ _ _ _ _ _ Hshape _ _ Hin)
    as [id [= -> ->]].
  split; [reflexivity|]. now exists id.
Qed.

Ltac cut_front H :=
  let b := fresh "before" in
  first
    [ apply nil_eq_app in H; contradiction
    | apply cons_eq_app in H as [(-> & H & <-)|(b & -> & H)] ].

Lemma poll_shape_sleeps (self : A2AProxyClient) (task_id : json)
  (deadline timeout_s poll_interval_s : float) (id : Z) (evs : list event)
  (r : outcome string) :
  poll_shape self task_id deadline timeout_s poll_interval_s id evs r ->
  forall before d after,
    evs = (before ++ EvSleep d :: after)%list ->
    d = poll_interval_s
    /\ exists before' id',
         before = (before' ++ [get_event self task_id id'])%list.
Proof.
  induction 1 as [id|id now Hlt|id now r Hlt Hr|id now e Hlt
                 |id now evs r Hlt Hshape IH];
    intros before d after Heq.
  - cut_front Heq.
  - cut_front Heq; [discriminate|]. cut_front Heq.
  - cut_front Heq; [discriminate|].
    cut_front Heq; [discriminate|]. cut_front Heq.
  - cut_front Heq; [discriminate|].
    cut_front Heq; [discriminate|].
    cut_front Heq; [|cut_front Heq].
    injection Heq as <-. split; [reflexivity|].
    now exists [EvTime now], id.
  - cut_front Heq; [discriminate|].
    cut_front Heq; [discriminate|].
    cut_front Heq.
    + injection Heq as <-. split; [reflexivity|].
      now exists [EvTime now], id.
    + destruct (IH _ _ _ Heq) as (-> & before' & id' & ->).
      split; [reflexivity|].
      now exists (EvTime now :: get_event self task_id id
                  :: EvSleep poll_interval_s :: before'), id'.
Qed.

(** X11. In every run, each sleep lasts the poll interval given to
    [send_prompt] and comes right after a [tasks/get] call: the client
    never sleeps before its first poll, after a timeout, or when the
    agent answered directly. *)
Theorem sleeps_follow_polls (fuel : nat) (self : A2AProxyClient)
  (prompt : string) (poll_interval_s : float) (timeout_s : option float)
  (s : state) (r : outcome string) (s' : state) :
  send_prompt E fuel self prompt poll_interval_s timeout_s s = (r, s') ->
  exists evs,
    trace s' = (trace s ++ evs)%list
    /\ forall before d after,
         evs = (before ++ EvSleep d :: after)%list ->
         d = poll_interval_s
         /\ exists before' url payload,
              before = (before' ++ [EvPost url payload])%list
              /\ payload_field "method" payload = JStr "tasks/get".
Proof.
  intro Hrun. apply send_prompt_shape in Hrun as (evs & Htrace & Hshape).
  exists evs. split; [exact Htrace|]. intros before d after Heq.
  destruct (resolved_timeout self timeout_s) as [t|].
  - destruct Hshape as [u r0 Hr|u task_id start evs0 r0 Hpoll].
    + cut_front Heq; [discriminate|].
      cut_front Heq; [discriminate|]. cut_front Heq.
    + cut_front Heq; [discriminate|].
      cut_front Heq; [discriminate|].
      cut_front Heq; [discriminate|].
      destruct (poll_shape_sleeps _ _ _ _ _ _ _ _ Hpoll _ _ _ Heq)
        as (-> & before' & id' & ->).
      split; [reflexivity|].
      exists (EvUuid u :: send_event self prompt u :: EvTime start
              :: before'), (rpc_url self),
        (jsonrpc_payload "tasks/get" (JObj [("id", task_id)]) id').
      split; reflexivity.
  - destruct Hshape as [-> _]. cut_front Heq.
Qed.

End ClientExtras.

Section InterpreterExtras.
Context {P : Platform}.

(** X12. Only the first artifact of a task is read: the artifacts that
    follow it never change what [_extract_text_from_task] returns or
    raises, also when the first one holds no text. *)
Theorem only_first_artifact (others : list (string * json))
  (first : json) (rest1 rest2 : list json) :
  _extract_text_from_task
    (JObj (("artifacts", JArr (first :: rest1)) :: others))
  = _extract_text_from_task
      (JObj (("artifacts", JArr (first :: rest2)) :: others)).
Proof.
  unfold _extract_text_from_task.
  cbn [py_get dict_get String.eqb Ascii.eqb Bool.eqb rbind].
  destruct (py_get (match dict_get "status" others with
                    | Some x => x
                    | None => JObj []
                    end) "state" JNull) as [st|e]; cbn [rbind];
    [|reflexivity].
  destruct (eq_str st "failed"); [reflexivity|].
  destruct (eq_str st "canceled"); [reflexivity|].
  destruct (eq_str st "rejected"); [reflexivity|].
  unfold task_artifacts_then_result, task_result_fallback.
  cbn [py_in py_getitem dict_get String.eqb Ascii.eqb Bool.eqb rbind].
  destruct first; reflexivity.
Qed.

End InterpreterExtras.

(** * Properties of [config.py] *)

Section ConfigExtras.
Context {P : Platform} {R : Runtime}.

Lemma true_words_not_false (v : string) :
  str_in v true_words = true -> str_in v false_words = false.
Proof.
  unfold str_in. cbn [existsb true_words]. rewrite !orb_true_iff.
  rewrite !String.eqb_eq. intros [->|[->|[->|[->|[=]]]]]; reflexivity.
Qed.

(** X13. [_get_bool] reads the variable without regard to letter case
    and never fails. With the default [True] the answer is [False]
    exactly for the words 0, false, no and off; with the default [False]
    it is [True] exactly for 1, true, yes and on; a variable that is
    unset or empty, like any other value, gives the default. *)
Theorem get_bool_reading (env : environ) (key : string) :
  (_get_bool env key true = false
   <-> str_in (lower (getenv_or env key "")) false_words = true)
  /\ (_get_bool env key false = true
      <-> str_in (lower (getenv_or env key "")) true_words = true)
  /\ (missing (env key) = true ->
      forall default, _get_bool env key default = default)
  /\ (forall other default,
        lower (getenv_or other key "") = lower (getenv_or env key "") ->
        _get_bool other key default = _get_bool env key default).
Proof.
  unfold _get_bool. split; [|split; [|split]].
  - destruct (str_in _ true_words) eqn:Htrue.
    + rewrite (true_words_not_false _ Htrue). split; discriminate.
    + destruct (str_in _ false_words); split; congruence.
  - destruct (str_in _ true_words); [tauto|].
    destruct (str_in _ false_words); split; discriminate.
  - intros Hmissing default. unfold getenv_or.
    destruct (env key) as [v|]; [|reflexivity].
    destruct v; [reflexivity|discriminate].
  - intros other default Hsame. now rewrite Hsame.
Qed.

Lemma or_300_nonzero (x : option Z) : or_300 x <> 0%Z.
Proof.
  destruct x as [n|]; cbn; [|discriminate].
  destruct (Z.eqb_spec n 0); [discriminate|assumption].
Qed.

(** X14. [A2AConfig.from_env] raises [ValueError] exactly when
    [A2A_BASE_URL] is unset or empty. Otherwise the configuration holds
    that base URL, a timeout that is never 0 (300 when
    [A2A_TIMEOUT_SECONDS] is unset, is no integer or is 0), the token as
    given, and the endpoint path [/v1/chat] unless [A2A_ENDPOINT_PATH] is
    set. *)
Theorem a2a_config_from_env (env : environ) :
  match A2AConfig_from_env env with
  | Raise e =>
      e = ValueError "A2A_BASE_URL environment variable is required"
      /\ missing (env "A2A_BASE_URL") = true
  | Ok cfg =>
      env "A2A_BASE_URL" = Some (base_url cfg)
      /\ base_url cfg <> ""
      /\ timeout_seconds cfg <> 0%Z
      /\ (env "A2A_TIMEOUT_SECONDS" = None -> timeout_seconds cfg = 300%Z)
      /\ (forall v, env "A2A_TIMEOUT_SECONDS" = Some v ->
          timeout_seconds cfg
          = match py_int v with
            | Some n => if Z.eqb n 0 then 300%Z else n
            | None => 300%Z
            end)
      /\ auth_token cfg = env "A2A_AUTH_TOKEN"
      /\ (env "A2A_ENDPOINT_PATH" = None -> endpoint_path cfg = "/v1/chat")
      /\ (forall v, env "A2A_ENDPOINT_PATH" = Some v -> endpoint_path cfg = v)
  end.
Proof.
  unfold A2AConfig_from_env.
  destruct (env "A2A_BASE_URL") as [b|] eqn:Hbase; cbn [missing];
    [|now split].
  destruct b as [|c b]; cbn [PyStr.is_empty]; [now split|].
  cbn [base_url timeout_seconds auth_token endpoint_path].
  split; [reflexivity|]. split; [discriminate|].
  split; [apply or_300_nonzero|]. unfold _get_int, getenv_or.
  split; [now intros ->|]. split.
  - intros v ->. now destruct (py_int v).
  - split; [reflexivity|]. split; [now intros ->|now intros v ->].
Qed.

(** X15. [Config.from_env] succeeds exactly when [A2A_BASE_URL],
    [APPWORLD_DATASET] and [APPWORLD_REMOTE_APIS_URL] are all set and not
    empty; otherwise it raises the [ValueError] that names the first of
    them, in this order, that is missing. No other variable can make it
    fail. *)
Theorem config_from_env_required (env : environ) :
  (missing (env "A2A_BASE_URL") = true ->
   Config_from_env env
   = Raise (ValueError "A2A_BASE_URL environment variable is required"))
  /\ (missing (env "A2A_BASE_URL") = false ->
      missing (env "APPWORLD_DATASET") = true ->
      Config_from_env env
      = Raise (ValueError "APPWORLD_DATASET environment variable is required"))
  /\ (missing (env "A2A_BASE_URL") = false ->
      missing (env "APPWORLD_DATASET") = false ->
      missing (env "APPWORLD_REMOTE_APIS_URL") = true ->
      Config_from_env env
      = Raise (ValueError
                 "APPWORLD_REMOTE_APIS_URL environment variable is required"))
  /\ (missing (env "A2A_BASE_URL") = false ->
      missing (env "APPWORLD_DATASET") = false ->
      missing (env "APPWORLD_REMOTE_APIS_URL") = false ->
      exists cfg,
        Config_from_env env = Ok cfg
        /\ env "A2A_BASE_URL" = Some (base_url (a2a cfg))
        /\ env "APPWORLD_DATASET" = Some (dataset (appworld cfg))
        /\ remote_apis_url (appworld cfg) = env "APPWORLD_REMOTE_APIS_URL"
        /\ missing (remote_apis_url (appworld cfg)) = false).
Proof.
  unfold Config_from_env, A2AConfig_from_env, AppWorldConfig_from_env.
  split; [|split; [|split]].
  - now intros ->.
  - now intros -> ->.
  - now intros -> -> ->.
  - intros Hbase Hds Hremote. rewrite Hbase, Hds, Hremote. cbn [rbind].
    eexists. split; [reflexivity|].
    cbn [a2a appworld base_url dataset remote_apis_url].
    destruct (env "A2A_BASE_URL"); [|discriminate].
    destruct (env "APPWORLD_DATASET"); [|discriminate].
    now repeat split.
Qed.

End ConfigExtras.

(** * Properties of the adapter, the telemetry and the runner *)

Section RunnerExtras.
Context {P : Platform} {R : Runtime}.
Variable W : world.

(** *** Computations that end *)

Lemma finishes_ret {A : Type} (a : A) : finishes (rm_ret a).
Proof. intro s. discriminate. Qed.

Lemma finishes_raise {A : Type} (e : py_error) : finishes (rm_raise e : RM A).
Proof. intro s. discriminate. Qed.

Lemma finishes_bind {A B : Type} (m : RM A) (k : A -> RM B) :
  finishes m -> (forall a, finishes (k a)) -> finishes (rm_bind m k).
Proof.
  intros Hm Hk s. unfold rm_bind. specialize (Hm s).
  destruct (m s) as [[a|e|] s']; cbn [fst] in *;
    [apply Hk|discriminate|congruence].
Qed.

Lemma finishes_catch {A : Type} (m : RM A) (h : py_error -> RM A) :
  finishes m -> (forall e, finishes (h e)) -> finishes (rm_catch m h).
Proof.
  intros Hm Hh s. unfold rm_catch. specialize (Hm s).
  destruct (m s) as [[a|e|] s']; cbn [fst] in *;
    [discriminate|apply Hh|congruence].
Qed.

Lemma finishes_finally {A : Type} (m : RM A) (f : RM unit) :
  finishes m -> finishes f -> finishes (rm_finally m f).
Proof.
  intros Hm Hf s. unfold rm_finally. specialize (Hm s).
  destruct (m s) as [[a|e|] s']; cbn [fst] in *; try congruence;
    specialize (Hf s'); destruct (f s') as [[[]|e'|] s''];
    cbn [fst] in *; congruence.
Qed.

Lemma finishes_call (c : call) : finishes (rm_call c).
Proof. intro s. discriminate. Qed.

Lemma finishes_call_may_raise (c : call) (answer : option py_error) :
  finishes (rm_call_may_raise c answer).
Proof.
  apply finishes_bind; [apply finishes_call|]. intros _.
  destruct answer; [apply finishes_raise|apply finishes_ret].
Qed.

Lemma finishes_when (b : bool) (m : RM unit) :
  finishes m -> finishes (rm_when b m).
Proof. destruct b; [auto|intros _; apply finishes_ret]. Qed.

Lemma finishes_get_telemetry : finishes get_telemetry.
Proof. intro s. discriminate. Qed.

Lemma finishes_net {A : Type} (m : M A) :
  (forall n, fst (m n) <> Unfinished) -> finishes (rm_net m).
Proof.
  intros Hm s. unfold rm_net. specialize (Hm (net_state s)).
  now destruct (m (net_state s)).
Qed.

Lemma finishes_now : finishes (now W).
Proof. apply finishes_net. intro n. discriminate. Qed.

Lemma finishes_with_span {A : Type} (name : string) (body : RM A) :
  finishes body -> finishes (with_span name body).
Proof.
  intros Hbody. unfold with_span.
  apply finishes_bind; [apply finishes_call|]. intros _ s.
  specialize (Hbody s). destruct (body s) as [[a|e|] s']; cbn [fst] in *;
    [discriminate|discriminate|congruence].
Qed.

Lemma finishes_state_step {A : Type} (f : run_state -> A * run_state) :
  finishes (fun s => (Returns (fst (f s)), snd (f s))).
Proof. intro s. discriminate. Qed.

Lemma finishes_require_initialized : finishes require_initialized.
Proof.
  intro s. unfold require_initialized.
  destruct (adapter_initialized s); discriminate.
Qed.

Lemma finishes_set_adapter_initialized : finishes set_adapter_initialized.
Proof. intro s. discriminate. Qed.

Lemma finishes_add_result (r : TaskResult.t) : finishes (add_result r).
Proof. intro s. discriminate. Qed.

Lemma finishes_get_results : finishes get_results.
Proof. intro s. discriminate. Qed.

Lemma finishes_set_telemetry (o : OTELInstrumentation) :
  finishes (set_telemetry o).
Proof. intro s. discriminate. Qed.

Ltac finish_step :=
  lazymatch goal with
  | |- finishes require_initialized => apply finishes_require_initialized
  | |- finishes set_adapter_initialized =>
      apply finishes_set_adapter_initialized
  | |- finishes (add_result _) => apply finishes_add_result
  | |- finishes get_results => apply finishes_get_results
  | |- finishes (set_telemetry _) => apply finishes_set_telemetry
  | |- finishes (rm_ret _) => apply finishes_ret
  | |- finishes (rm_raise _) => apply finishes_raise
  | |- finishes (rm_call _) => apply finishes_call
  | |- finishes (rm_call_may_raise _ _) => apply finishes_call_may_raise
  | |- finishes get_telemetry => apply finishes_get_telemetry
  | |- finishes (now _) => apply finishes_now
  | |- finishes (with_span _ _) => apply finishes_with_span
  | |- finishes (rm_when _ _) => apply finishes_when
  | |- finishes (rm_catch _ _) => apply finishes_catch; [|intros ?]
  | |- finishes (rm_finally _ _) => apply finishes_finally
  | |- finishes (rm_bind _ _) => apply finishes_bind; [|intros ?]
  | |- finishes (if ?b then _ else _) => destruct b
  | |- finishes (match ?x with _ => _ end) => destruct x
  | |- finishes _ => assumption
  end.

Ltac finish := repeat finish_step.

Lemma finishes_task_span {A : Type} (task_id ds url : string) (timeout : Z)
  (body : RM A) :
  finishes body -> finishes (task_span W task_id ds url timeout body).
Proof. intro Hbody. unfold task_span. finish. Qed.

Lemma finishes_child_span {A : Type} (name : string) (body : RM A) :
  finishes body -> finishes (child_span name body).
Proof. intro Hbody. unfold child_span. finish. Qed.

Lemma send_prompt_finishes (fuel : nat) (self : A2AProxyClient)
  (prompt : string) (poll_interval_s : float) (timeout_s : option float) :
  never_announces (net W) ->
  forall n,
    fst (send_prompt (net W) fuel self prompt poll_interval_s timeout_s n)
    <> Unfinished.
Proof.
  intros Hdirect n. unfold send_prompt.
  destruct (match timeout_s with Some t => Some t | None =>
              float_of_int (timeout_seconds (config self)) end)
    as [t|] eqn:Ht.
  - assert (Hresolved : resolved_timeout self timeout_s = Some t)
      by exact Ht.
    pose proof (send_prompt_resolved (net W) fuel self prompt
                  poll_interval_s timeout_s t n Hresolved) as Heq.
    unfold send_prompt in Heq. rewrite Heq, send_and_poll_unfold.
    destruct (send_reply (net W) self prompt n) as [data|e] eqn:Hreply;
      [|discriminate].
    destruct (jsonrpc_result data) as [res|e] eqn:Hres; [|discriminate].
    destruct res as [| | | | | |res]; try discriminate.
    cbn [py_get].
    pose proof (Hdirect _ _ _ _ _ Hreply Hres) as Hkind.
    destruct (eq_str _ "task") eqn:Heq'.
    + apply eq_str_true in Heq'. elim Hkind.
      destruct (dict_get "kind" res); [now subst|discriminate].
    + cbn [negb fst]. now destruct (_extract_text_from_message (JObj res)).
  - destruct timeout_s as [t|]; [discriminate|]. rewrite Ht.
    discriminate.
Qed.

Lemma finishes_assign (f : OTELInstrumentation -> OTELInstrumentation) :
  finishes (assign f).
Proof. unfold assign. finish. Qed.

Lemma finishes_setup (c : otel_setup) : finishes (setup W c).
Proof. unfold setup. finish. Qed.

Lemma finishes_create (name : string)
  (f : OTELInstrumentation -> OTELInstrumentation) :
  finishes (create W name f).
Proof.
  unfold create. apply finishes_bind; [apply finishes_setup|].
  intros _. apply finishes_assign.
Qed.

Lemma finishes_otel_initialize : finishes (OTELInstrumentation_initialize W).
Proof.
  unfold OTELInstrumentation_initialize, _initialize_tracing,
    _initialize_auto_instrumentation, _initialize_metrics.
  repeat first
    [ apply finishes_setup | apply finishes_create | apply finishes_assign
    | finish_step ].
Qed.

Lemma finishes_runner_initialize (self : Runner.t) :
  finishes (Runner_initialize W self).
Proof.
  unfold Runner_initialize, AppWorldAdapter_initialize.
  apply finishes_bind; [apply finishes_otel_initialize|]. intros _. finish.
Qed.

Lemma finishes_get_task_ids (cfg : AppWorldConfig) :
  finishes (get_task_ids W cfg).
Proof. unfold get_task_ids. finish. Qed.

Lemma finishes_get_task_data (task_id : string) :
  finishes (get_task_data W task_id).
Proof. unfold get_task_data. finish. Qed.

Lemma finishes_iterate_yield (cfg : AppWorldConfig) (task_id : string) :
  finishes (iterate_tasks_yield W cfg task_id).
Proof.
  unfold iterate_tasks_yield.
  apply finishes_catch; [|intro; apply finishes_raise].
  apply finishes_bind; [apply finishes_call_may_raise|].
  intros _. apply finishes_get_task_data.
Qed.

Lemma finishes_iterate_resume (task_id : string) :
  finishes (iterate_tasks_resume W task_id).
Proof. unfold iterate_tasks_resume. finish. Qed.

Lemma finishes_print_summary (ds : string) : finishes (print_summary W ds).
Proof. unfold print_summary. finish. Qed.

Lemma finishes_record_prompt (prompt : string) :
  finishes (record_prompt prompt).
Proof. unfold record_prompt. finish. Qed.

Lemma finishes_record_a2a_request (d : float) :
  finishes (record_a2a_request d).
Proof. unfold record_a2a_request. finish. Qed.

Lemma finishes_record_response (response : string) :
  finishes (record_response response).
Proof. unfold record_response. finish. Qed.

Lemma finishes_record_success : finishes record_success.
Proof. unfold record_success. finish. Qed.

Lemma finishes_record_failure (e : py_error) (error_type : string) :
  finishes (record_failure e error_type).
Proof. unfold record_failure. finish. Qed.

Lemma finishes_process_task (fuel : nat) (self : Runner.t)
  (task_data : TaskData.t) :
  never_announces (net W) -> finishes (process_task W fuel self task_data).
Proof.
  intro Hdirect. unfold process_task.
  apply finishes_bind; [apply finishes_now|]. intro start_time.
  apply finishes_task_span. apply finishes_catch.
  - unfold process_task_try.
    repeat first
      [ apply finishes_record_prompt | apply finishes_record_a2a_request
      | apply finishes_record_response | apply finishes_record_success
      | apply finishes_child_span
      | apply finishes_net; apply send_prompt_finishes; exact Hdirect
      | finish_step ].
  - intro e. unfold process_task_except.
    apply finishes_bind; [apply finishes_record_failure|]. intros _. finish.
Qed.

Lemma finishes_process_tasks (fuel : nat) (self : Runner.t)
  (task_ids : list string) :
  never_announces (net W) -> finishes (process_tasks W fuel self task_ids).
Proof.
  intro Hdirect. induction task_ids as [|task_id rest IH];
    cbn [process_tasks]; [apply finishes_ret|].
  apply finishes_bind; [apply finishes_iterate_yield|]. intro task_data.
  apply finishes_bind; [now apply finishes_process_task|]. intro result.
  apply finishes_bind; [apply finishes_add_result|]. intros _.
  destruct (_ && _); [apply finishes_ret|].
  apply finishes_bind; [apply finishes_iterate_resume|]. intros _. exact IH.
Qed.

Lemma finishes_run_try (fuel : nat) (self : Runner.t) :
  never_announces (net W) -> finishes (run_try W fuel self).
Proof.
  intro Hdirect. unfold run_try.
  apply finishes_bind; [apply finishes_runner_initialize|]. intros _.
  apply finishes_bind; [apply finishes_get_task_ids|]. intro task_ids.
  apply finishes_bind; [now apply finishes_process_tasks|]. intros _.
  apply finishes_bind; [apply finishes_print_summary|]. intros _. finish.
Qed.

Lemma run_end (fuel : nat) (self : Runner.t) (s : run_state) :
  fst (run_try W fuel self s) <> Unfinished ->
  fst (run W fuel self s) = Raises AttributeError.
Proof.
  unfold run, rm_finally, rm_catch. intro Hfin.
  destruct (run_try W fuel self s) as [[code|e|] s']; cbn [fst] in *;
    [reflexivity|reflexivity|congruence].
Qed.

Lemma run_end_direct (fuel : nat) (self : Runner.t) (s : run_state) :
  never_announces (net W) ->
  fst (run W fuel self s) = Raises AttributeError.
Proof. intro Hdirect. apply run_end. now apply finishes_run_try. Qed.

Lemma init_single_get_state (E : env) (cfg : A2AConfig) (n : state) :
  exists self, __init__ E cfg n = (Returns self, emit (EvGet (card_url cfg)) n).
Proof.
  unfold __init__, bind, _discover_rpc_url, catch, discover_from_card, bind,
    _get_agent_card, catch, session_get.
  destruct (agent_card E (card_url cfg)) as [data|e]; cbn [raise ret];
    [|eexists; reflexivity].
  destruct (py_get data "url" JNull) as [url|e]; cbn [lift ret raise];
    [|eexists; reflexivity].
  destruct (truthy url); [|eexists; reflexivity].
  destruct (parsed_path url) as [path|e]; cbn [lift ret raise]; [|eexists; reflexivity].
  destruct (_ && _); eexists; reflexivity.
Qed.

(** X16. [Runner.run] never returns an exit code: its [finally] clause
    calls [self.otel.shutdown()], which [OTELInstrumentation] does not
    define, so every run that comes to its end raises [AttributeError],
    whatever the tasks did. With an agent that answers directly the run
    does come to its end, for every amount of fuel. *)
Theorem run_always_raises (fuel : nat) (self : Runner.t) (s : run_state) :
  (forall code, fst (run W fuel self s) <> Returns code)
  /\ (fst (run_try W fuel self s) <> Unfinished ->
      fst (run W fuel self s) = Raises AttributeError)
  /\ (never_announces (net W) ->
      fst (run W fuel self s) = Raises AttributeError).
Proof.
  split; [|split].
  - intros code. unfold run, rm_finally, rm_catch.
    destruct (run_try W fuel self s) as [[c|e|] s']; discriminate.
  - apply run_end.
  - apply run_end_direct.
Qed.

Lemma main_handlers_raises (e : py_error) :
  main_handlers (Ended (Raises e)) = Returns 1%Z.
Proof. now destruct e. Qed.

Lemma run_ends (fuel : nat) (self : Runner.t) (s : run_state) :
  fst (run W fuel self s) = Raises AttributeError
  \/ fst (run W fuel self s) = Unfinished.
Proof.
  destruct (fst (run_try W fuel self s)) eqn:Htry.
  - left. apply run_end. congruence.
  - left. apply run_end. congruence.
  - right. unfold run, rm_finally, rm_catch.
    destruct (run_try W fuel self s) as [[c|e|] s']; cbn [fst] in *;
      try discriminate. reflexivity.
Qed.

Lemma runner_init_returns (cfg : Config) (s : run_state) :
  exists runner s1, Runner_init W cfg s = (Returns runner, s1).
Proof.
  unfold Runner_init, rm_bind, rm_net. cbn [net_state].
  destruct (init_single_get_state (net W) (a2a cfg) (net_state s))
    as (client & Hclient).
  rewrite Hclient. do 2 eexists. reflexivity.
Qed.

(** X17. Once the arguments are parsed, [main] never returns 0, and no
    [Exception] or [KeyboardInterrupt] raised in its [try] block gets
    out: it returns 1 or 130. It returns 130 exactly when a Ctrl-C
    reaches its handler for [KeyboardInterrupt], which a configuration
    error forestalls unless the Ctrl-C comes first. Without a Ctrl-C it
    returns 1 whenever it returns: when the configuration cannot be
    loaded, and otherwise because [run] raises in its [finally] clause,
    also when every task succeeded. *)
Theorem main_exit_code (env : environ) (fuel : nat)
  (ctrl_c : option main_point) (s : run_state) :
  (forall code,
     fst (main W env fuel ctrl_c s) = Returns code ->
     code = 1%Z \/ code = 130%Z)
  /\ (forall e, fst (main W env fuel ctrl_c s) <> Raises e)
  /\ (fst (main W env fuel ctrl_c s) = Returns 130%Z
      <-> ctrl_c = Some BeforeConfig
          \/ (ctrl_c <> None /\ exists cfg, Config_from_env env = Ok cfg))
  /\ (ctrl_c = None ->
      forall code, fst (main W env fuel ctrl_c s) = Returns code ->
                   code = 1%Z)
  /\ (ctrl_c = None ->
      (exists e, Config_from_env env = Raise e) \/ never_announces (net W) ->
      fst (main W env fuel ctrl_c s) = Returns 1%Z).
Proof.
  unfold main, main_try.
  destruct (Config_from_env env) as [cfg|e0] eqn:Hcfg.
  - destruct (runner_init_returns cfg s) as (runner & s1 & Hinit).
    rewrite Hinit.
    pose proof (run_ends fuel runner s1) as Hrun.
    pose proof (run_end_direct fuel runner s1) as Hdirect.
    destruct (run W fuel runner s1) as [r s2]. cbn [fst] in Hrun, Hdirect.
    destruct ctrl_c as [[| | |]|]; cbn [fst main_handlers].
    + split; [intros code [= <-]; now right|]. split; [discriminate|].
      split; [split; [now left|reflexivity]|].
      split; discriminate.
    + split; [intros code [= <-]; now right|]. split; [discriminate|].
      split; [split; [intros _; right; split; [discriminate|now exists cfg]
                     |reflexivity]|].
      split; discriminate.
    + split; [intros code [= <-]; now right|]. split; [discriminate|].
      split; [split; [intros _; right; split; [discriminate|now exists cfg]
                     |reflexivity]|].
      split; discriminate.
    + split; [intros code [= <-]; now right|]. split; [discriminate|].
      split; [split; [intros _; right; split; [discriminate|now exists cfg]
                     |reflexivity]|].
      split; discriminate.
    + destruct Hrun as [->| ->]; cbn [main_handlers].
      * split; [intros code [= <-]; now left|]. split; [discriminate|].
        split; [split; [discriminate|intros [[=]|[Hnone _]]; now elim Hnone]|].
        split; [now intros _ code [= <-]|reflexivity].
      * split; [discriminate|]. split; [discriminate|].
        split; [split; [discriminate|intros [[=]|[Hnone _]]; now elim Hnone]|].
        split; [discriminate|].
        intros _ [[e He]|Hnever]; [discriminate|].
        specialize (Hdirect Hnever). discriminate.
  - destruct ctrl_c as [[| | |]|]; cbn [fst]; rewrite ?main_handlers_raises;
      cbn [main_handlers].
    + split; [intros code [= <-]; now right|]. split; [discriminate|].
      split; [split; [now left|reflexivity]|].
      split; discriminate.
    + split; [intros code [= <-]; now left|]. split; [discriminate|].
      split; [split; [discriminate
                     |intros [[=]|[_ [cfg [=]]]]]|].
      split; discriminate.
    + split; [intros code [= <-]; now left|]. split; [discriminate|].
      split; [split; [discriminate
                     |intros [[=]|[_ [cfg [=]]]]]|].
      split; discriminate.
    + split; [intros code [= <-]; now left|]. split; [discriminate|].
      split; [split; [discriminate
                     |intros [[=]|[_ [cfg [=]]]]]|].
      split; discriminate.
    + split; [intros code [= <-]; now left|]. split; [discriminate|].
      split; [split; [discriminate
                     |intros [[=]|[_ [cfg [=]]]]]|].
      split; [now intros _ code [= <-]|reflexivity].
Qed.

(** *** Runs, step by step *)

Lemma advance_advance (s : run_state) (n1 n2 : state) (c1 c2 : list call) :
  advance (advance s n1 c1) n2 c2 = advance s n2 (c1 ++ c2).
Proof. unfold advance. cbn. now rewrite app_assoc. Qed.

Lemma advance_same (s : run_state) : advance s (net_state s) [] = s.
Proof. destruct s. unfold advance. cbn. now rewrite app_nil_r. Qed.

Lemma call_run (c : call) (s : run_state) :
  rm_call c s = (Returns tt, advance s (net_state s) [c]).
Proof. reflexivity. Qed.

Lemma when_call_run (b : bool) (c : call) (s : run_state) :
  rm_when b (rm_call c) s = (Returns tt, advance s (net_state s) (when_set b c)).
Proof.
  destruct b; [reflexivity|]. cbn. now rewrite advance_same.
Qed.

Lemma now_run (s : run_state) :
  now W s
  = (Returns (time_at (net W) (net_state s) 0),
     advance s (reads (net W) 1 (net_state s)) []).
Proof.
  unfold now, rm_net, time_at, advance. cbn. rewrite Nat.add_0_r.
  now rewrite app_nil_r.
Qed.

Lemma net_run {A : Type} (m : M A) (s : run_state) :
  rm_net m s = (fst (m (net_state s)), advance s (snd (m (net_state s))) []).
Proof.
  unfold rm_net, advance. destruct (m (net_state s)) as [r n]. cbn.
  now rewrite app_nil_r.
Qed.

Lemma reads_ticks (E : env) (k : nat) (n : state) :
  ticks (reads E k n) = ticks n + k
  /\ posts (reads E k n) = posts n
  /\ uuids (reads E k n) = uuids n.
Proof.
  revert n. induction k as [|k IH]; intro n; cbn [reads].
  - now rewrite Nat.add_0_r.
  - destruct (IH (snd (time_time E n))) as (Ht & Hp & Hu).
    cbn [time_time snd ticks posts uuids] in *. repeat split; try assumption.
    lia.
Qed.

Lemma reads_reads (E : env) (j k : nat) (n : state) :
  reads E k (reads E j n) = reads E (j + k) n.
Proof.
  revert n. induction j as [|j IH]; intro n; [reflexivity|].
  cbn [reads Nat.add]. apply IH.
Qed.

Lemma time_at_reads (E : env) (k i : nat) (n : state) :
  time_at E (reads E k n) i = time_at E n (k + i).
Proof.
  unfold time_at. destruct (reads_ticks E k n) as (-> & _). f_equal. lia.
Qed.

(** *** The adapter *)

Lemma slice_to_prefix {A : Type} (l : list A) (n : Z) :
  exists rest, l = (slice_to l n ++ rest)%list.
Proof.
  unfold slice_to. destruct (0 <=? n)%Z; eexists; symmetry;
    apply firstn_skipn.
Qed.

Lemma slice_to_length {A : Type} (l : list A) (n : Z) :
  length (slice_to l n)
  = if (0 <=? n)%Z then Nat.min (Z.to_nat n) (length l)
    else Z.to_nat (Z.of_nat (length l) + n).
Proof.
  unfold slice_to. destruct (Z.leb_spec 0 n); rewrite length_firstn; lia.
Qed.

(** X18. [get_task_ids] gives the task ids of the data set in their
    order, cut by [MAX_TASKS]: all of them without a limit, the first [n]
    for a limit [n >= 0] (none for 0), and all but the last [-n] for a
    negative limit. Before [initialize] it raises [RuntimeError] without
    loading anything. *)
Theorem get_task_ids_prefix (cfg : AppWorldConfig) (s : run_state) :
  (adapter_initialized s = false ->
   get_task_ids W cfg s
   = (Raises (RuntimeError
                "AppWorld adapter not initialized. Call initialize() first."),
      s))
  /\ (adapter_initialized s = true ->
      forall task_ids,
        load_task_ids W (dataset cfg) = Ok task_ids ->
        exists chosen rest,
          get_task_ids W cfg s
          = (Returns chosen,
             advance s (net_state s) [LoadTaskIds (dataset cfg)])
          /\ task_ids = (chosen ++ rest)%list
          /\ length chosen
             = match max_tasks cfg with
               | None => length task_ids
               | Some n =>
                   if (0 <=? n)%Z then Nat.min (Z.to_nat n) (length task_ids)
                   else Z.to_nat (Z.of_nat (length task_ids) + n)
               end).
Proof.
  unfold get_task_ids, rm_bind, require_initialized. split.
  - now intros ->.
  - intros -> task_ids Hload. rewrite call_run, Hload.
    destruct (max_tasks cfg) as [n|].
    + destruct (slice_to_prefix task_ids n) as [rest Hrest].
      exists (slice_to task_ids n), rest.
      split; [reflexivity|]. split; [exact Hrest|apply slice_to_length].
    + exists task_ids, []. split; [reflexivity|].
      now rewrite app_nil_r.
Qed.

(** X19. [get_task_data] loads the task once. A task without
    instruction makes it raise the [ValueError] that names the task, and
    the loaded task is then not closed; otherwise the task is closed and
    its instruction, supervisor and application descriptions are passed
    on under the task id that was asked for. *)
Theorem get_task_data_closes (task_id : string) (s : run_state)
  (task : LoadedTask.t) :
  adapter_initialized s = true ->
  task_load W task_id = Ok task ->
  (LoadedTask.instruction task = "" ->
   get_task_data W task_id s
   = (Raises (ValueError ("Task " ++ task_id ++ " has no instruction")),
      advance s (net_state s) [TaskLoad task_id]))
  /\ (LoadedTask.instruction task <> "" ->
      get_task_data W task_id s
      = (Returns (TaskData.make task_id (LoadedTask.instruction task)
                                (LoadedTask.supervisor task)
                                (LoadedTask.app_descriptions task)),
         advance s (net_state s) [TaskLoad task_id; TaskClose task_id])).
Proof.
  intros Hinit Hload.
  unfold get_task_data, rm_bind, require_initialized.
  rewrite Hinit, call_run, Hload. split.
  - now intros ->.
  - intro Hne. rewrite (is_empty_false _ Hne), call_run. cbn [rm_ret].
    now rewrite advance_advance.
Qed.

(** X20. A configuration loaded from the environment always passes
    [AppWorldAdapter.initialize]: its check of the remote APIs URL cannot
    fail after [Config.from_env], and [get_task_ids] then no longer
    raises for lack of initialization. *)
Theorem initialize_after_from_env (env : environ) (cfg : Config)
  (s : run_state) :
  Config_from_env env = Ok cfg ->
  exists s',
    AppWorldAdapter_initialize (appworld cfg) s = (Returns tt, s')
    /\ adapter_initialized s' = true
    /\ journal s' = journal s
    /\ net_state s' = net_state s.
Proof.
  unfold Config_from_env, A2AConfig_from_env, AppWorldConfig_from_env.
  destruct (missing (env "A2A_BASE_URL")); [discriminate|]. cbn [rbind].
  destruct (missing (env "APPWORLD_DATASET")); [discriminate|].
  destruct (missing (env "APPWORLD_REMOTE_APIS_URL")) eqn:Hremote;
    [discriminate|].
  cbn [rbind]. intros [= <-]. unfold AppWorldAdapter_initialize.
  cbn [appworld remote_apis_url]. rewrite Hremote.
  eexists. split; [reflexivity|]. now repeat split.
Qed.

(** *** One task *)

Lemma net_state_advance (s : run_state) (n : state) (c : list call) :
  net_state (advance s n c) = n.
Proof. reflexivity. Qed.

Lemma telemetry_advance (s : run_state) (n : state) (c : list call) :
  telemetry (advance s n c) = telemetry s.
Proof. reflexivity. Qed.

Lemma journal_advance (s : run_state) (n : state) (c : list call) :
  journal (advance s n c) = (journal s ++ c)%list.
Proof. reflexivity. Qed.

Lemma bind_run {A B : Type} (m : RM A) (k : A -> RM B) (s : run_state)
  (a : A) (s' : run_state) :
  m s = (Returns a, s') -> rm_bind m k s = k a s'.
Proof. unfold rm_bind. now intros ->. Qed.

Lemma bind_raises {A B : Type} (m : RM A) (k : A -> RM B) (s : run_state)
  (e : py_error) (s' : run_state) :
  m s = (Raises e, s') -> rm_bind m k s = (Raises e, s').
Proof. unfold rm_bind. now intros ->. Qed.

Lemma bind_unfinished {A B : Type} (m : RM A) (k : A -> RM B)
  (s : run_state) :
  fst (m s) = Unfinished -> fst (rm_bind m k s) = Unfinished.
Proof. unfold rm_bind. destruct (m s) as [[a|e|] s']; now cbn. Qed.

Ltac settle :=
  cbv beta;
  rewrite ?net_state_advance, ?telemetry_advance, ?advance_advance.

Ltac step_by H := (erewrite bind_run by (apply H)); settle.

Lemma with_span_returns {A : Type} (name : string) (body : RM A)
  (s : run_state) (a : A) (s' : run_state) :
  body (advance s (net_state s) [SpanStart name]) = (Returns a, s') ->
  with_span name body s
  = (Returns a, advance s' (net_state s') [SpanEnd name None]).
Proof.
  intro H. unfold with_span. step_by call_run. now rewrite H.
Qed.

Lemma with_span_raises {A : Type} (name : string) (body : RM A)
  (s : run_state) (e : py_error) (s' : run_state) :
  body (advance s (net_state s) [SpanStart name]) = (Raises e, s') ->
  with_span name body s
  = (Raises e, advance s' (net_state s') [SpanEnd name (Some e)]).
Proof.
  intro H. unfold with_span. step_by call_run. now rewrite H.
Qed.

Lemma with_span_unfinished {A : Type} (name : string) (body : RM A)
  (s : run_state) :
  fst (body (advance s (net_state s) [SpanStart name])) = Unfinished ->
  fst (with_span name body s) = Unfinished.
Proof.
  intro H. unfold with_span. step_by call_run.
  destruct (body _) as [[a|e|] s']; now cbn in *.
Qed.

Lemma child_span_run {A : Type} (name : string) (body : RM A)
  (s : run_state) :
  tracer (telemetry s) = true ->
  child_span name body s = with_span name body s.
Proof.
  intro H. unfold child_span, rm_bind, get_telemetry. now rewrite H.
Qed.

Lemma record_prompt_run (prompt : string) (s : run_state) :
  record_prompt prompt s
  = (Returns tt,
     advance s (net_state s)
       ([SpanSetAttribute "prompt.chars"
           (JInt (Z.of_nat (String.length prompt)));
         SpanAddEvent "prompt_built" []]
        ++ when_set (prompt_size_histogram (telemetry s))
             (InstrumentRecord "a2a_proxy_prompt_size_chars"
                (NInt (Z.of_nat (String.length prompt)))))).
Proof.
  unfold record_prompt. do 2 step_by call_run.
  rewrite (bind_run _ _ _ _ _ eq_refl : rm_bind get_telemetry _ _ = _).
  settle. rewrite when_call_run. now settle.
Qed.

Lemma record_a2a_request_run (duration_ms : float) (s : run_state) :
  record_a2a_request duration_ms s
  = (Returns tt,
     advance s (net_state s)
       ([SpanSetAttribute "a2a.duration_ms" (JFloat duration_ms)]
        ++ when_set (a2a_latency_histogram (telemetry s))
             (InstrumentRecord "a2a_proxy_a2a_latency_ms"
                (NFloat duration_ms)))).
Proof.
  unfold record_a2a_request. step_by call_run.
  rewrite (bind_run _ _ _ _ _ eq_refl : rm_bind get_telemetry _ _ = _).
  settle. rewrite when_call_run. now settle.
Qed.

Lemma record_response_run (response : string) (s : run_state) :
  record_response response s
  = (Returns tt,
     advance s (net_state s)
       ([SpanSetAttribute "response.chars"
           (JInt (Z.of_nat (String.length response)))]
        ++ when_set (response_size_histogram (telemetry s))
             (InstrumentRecord "a2a_proxy_response_size_chars"
                (NInt (Z.of_nat (String.length response)))))).
Proof.
  unfold record_response. step_by call_run.
  rewrite (bind_run _ _ _ _ _ eq_refl : rm_bind get_telemetry _ _ = _).
  settle. rewrite when_call_run. now settle.
Qed.

Lemma record_success_run (s : run_state) :
  record_success s
  = (Returns tt,
     advance s (net_state s)
       ([SpanSetAttribute "task.status" (JStr "success");
         SpanSetStatus true None]
        ++ when_set (tasks_counter (telemetry s))
             (InstrumentAdd "a2a_proxy_tasks_total" 1
                            [("status", "success")]))).
Proof.
  unfold record_success. do 2 step_by call_run.
  rewrite (bind_run _ _ _ _ _ eq_refl : rm_bind get_telemetry _ _ = _).
  settle. rewrite when_call_run. now settle.
Qed.

Lemma record_failure_run (e : py_error) (s : run_state) :
  record_failure e (exc_type_name e) s
  = (Returns tt,
     advance s (net_state s)
       ([SpanSetAttribute "task.status" (JStr "failed");
         SpanAddEvent "task_failed"
           [("error.type", exc_type_name e); ("error.message", exc_str e)];
         SpanSetStatus false (Some (exc_str e));
         SpanRecordException e]
        ++ when_set (tasks_counter (telemetry s))
             (InstrumentAdd "a2a_proxy_tasks_total" 1 [("status", "failed")])
        ++ when_set (errors_counter (telemetry s))
             (InstrumentAdd "a2a_proxy_errors_total" 1
                            [("error_type", exc_type_name e)]))).
Proof.
  unfold record_failure. do 4 step_by call_run.
  rewrite (bind_run _ _ _ _ _ eq_refl : rm_bind get_telemetry _ _ = _).
  settle. step_by when_call_run. rewrite when_call_run. settle.
  now rewrite <- !app_assoc.
Qed.

Lemma process_task_try_returns (fuel : nat) (self : Runner.t)
  (td : TaskData.t) (start : float) (s : run_state) (response : string)
  (n : state) :
  tracer (telemetry s) = true ->
  send_prompt (net W) fuel (Runner.a2a_client self)
    (build_prompt (TaskData.instruction td) (TaskData.supervisor td)
                  (TaskData.app_descriptions td))
    float_half None (reads (net W) 1 (net_state s))
  = (Returns response, n) ->
  process_task_try W fuel self td start s
  = (Returns (TaskResult.make (TaskData.task_id td) true
                (elapsed_ms start (time_at (net W) n 1)) None
                (Some (String.length response))),
     advance s (reads (net W) 2 n)
       (prompt_calls (telemetry s)
          (build_prompt (TaskData.instruction td) (TaskData.supervisor td)
                        (TaskData.app_descriptions td))
        ++ success_calls (telemetry s) response
             (elapsed_ms (time_at (net W) (net_state s) 0)
                         (time_at (net W) n 0)))).
Proof.
  intros Htr Hsend. unfold process_task_try.
  erewrite bind_run
    by (rewrite child_span_run by exact Htr;
        apply with_span_returns; reflexivity).
  settle. step_by record_prompt_run. step_by now_run.
  erewrite bind_run
    by (rewrite child_span_run by exact Htr;
        apply with_span_returns; rewrite net_run; settle;
        rewrite Hsend; reflexivity).
  settle. cbn [snd]. step_by now_run. step_by record_a2a_request_run.
  step_by record_response_run. step_by record_success_run.
  step_by now_run. unfold rm_ret.
  rewrite reads_reads, (time_at_reads (net W) 1 0 n). cbn [Nat.add].
  unfold prompt_calls, success_calls.
  repeat (rewrite <- ?app_assoc; cbn [app]). rewrite ?app_nil_r.
  reflexivity.
Qed.

Lemma process_task_try_raises (fuel : nat) (self : Runner.t)
  (td : TaskData.t) (start : float) (s : run_state) (e : py_error)
  (n : state) :
  tracer (telemetry s) = true ->
  send_prompt (net W) fuel (Runner.a2a_client self)
    (build_prompt (TaskData.instruction td) (TaskData.supervisor td)
                  (TaskData.app_descriptions td))
    float_half None (reads (net W) 1 (net_state s))
  = (Raises e, n) ->
  process_task_try W fuel self td start s
  = (Raises e,
     advance s n
       (prompt_calls (telemetry s)
          (build_prompt (TaskData.instruction td) (TaskData.supervisor td)
                        (TaskData.app_descriptions td))
        ++ [SpanEnd "a2a_proxy.a2a.send_prompt" (Some e)])).
Proof.
  intros Htr Hsend. unfold process_task_try.
  erewrite bind_run
    by (rewrite child_span_run by exact Htr;
        apply with_span_returns; reflexivity).
  settle. step_by record_prompt_run. step_by now_run.
  erewrite bind_raises
    by (rewrite child_span_run by exact Htr;
        apply with_span_raises; rewrite net_run; settle;
        rewrite Hsend; reflexivity).
  settle. cbn [snd].
  unfold prompt_calls.
  repeat (rewrite <- ?app_assoc; cbn [app]). rewrite ?app_nil_r.
  reflexivity.
Qed.

Lemma process_task_try_unfinished (fuel : nat) (self : Runner.t)
  (td : TaskData.t) (start : float) (s : run_state) :
  tracer (telemetry s) = true ->
  fst (send_prompt (net W) fuel (Runner.a2a_client self)
         (build_prompt (TaskData.instruction td) (TaskData.supervisor td)
                       (TaskData.app_descriptions td))
         float_half None (reads (net W) 1 (net_state s)))
  = Unfinished ->
  fst (process_task_try W fuel self td start s) = Unfinished.
Proof.
  intros Htr Hsend. unfold process_task_try.
  erewrite bind_run
    by (rewrite child_span_run by exact Htr;
        apply with_span_returns; reflexivity).
  settle. step_by record_prompt_run. step_by now_run.
  apply bind_unfinished. rewrite child_span_run by exact Htr.
  apply with_span_unfinished. rewrite net_run. settle. exact Hsend.
Qed.

Lemma process_task_except_run (td : TaskData.t) (start : float)
  (e : py_error) (s : run_state) :
  process_task_except W td start e s
  = (Returns (TaskResult.make (TaskData.task_id td) false
                (elapsed_ms start (time_at (net W) (net_state s) 0))
                (Some (exc_type_name e ++ ": " ++ exc_str e)) None),
     advance s (reads (net W) 1 (net_state s))
       ([SpanSetAttribute "task.status" (JStr "failed");
         SpanAddEvent "task_failed"
           [("error.type", exc_type_name e); ("error.message", exc_str e)];
         SpanSetStatus false (Some (exc_str e));
         SpanRecordException e]
        ++ when_set (tasks_counter (telemetry s))
             (InstrumentAdd "a2a_proxy_tasks_total" 1 [("status", "failed")])
        ++ when_set (errors_counter (telemetry s))
             (InstrumentAdd "a2a_proxy_errors_total" 1
                            [("error_type", exc_type_name e)]))).
Proof.
  unfold process_task_except. step_by record_failure_run. step_by now_run.
  unfold rm_ret. now rewrite app_nil_r.
Qed.

Lemma task_span_returns {A : Type} (task_id ds url : string) (timeout : Z)
  (body : RM A) (s : run_state) (a : A) (n : state) (calls : list call) :
  tracer (telemetry s) = true ->
  body (advance s (reads (net W) 1 (net_state s))
          (span_prelude (telemetry s) task_id ds url timeout))
  = (Returns a,
     advance s n (span_prelude (telemetry s) task_id ds url timeout ++ calls)) ->
  task_span W task_id ds url timeout body s
  = (Returns a,
     advance s (reads (net W) 1 n)
       (span_prelude (telemetry s) task_id ds url timeout ++ calls
        ++ span_epilogue (telemetry s)
             (elapsed_ms (time_at (net W) (net_state s) 0)
                         (time_at (net W) n 0)) None)).
Proof.
  intros Htr Hbody. unfold task_span.
  rewrite (bind_run _ _ _ _ _ eq_refl : rm_bind get_telemetry _ _ = _).
  cbv beta. rewrite Htr. cbn [negb]. step_by when_call_run. step_by now_run.
  erewrite with_span_returns.
  2:{ settle. do 4 step_by call_run. unfold rm_finally.
      rewrite app_nil_r. repeat (rewrite <- ?app_assoc; cbn [app]).
      unfold span_prelude in Hbody.
      repeat (rewrite <- ?app_assoc in Hbody; cbn [app] in Hbody).
      rewrite Hbody.
      rewrite (bind_run _ _ _ _ _ eq_refl : rm_bind get_telemetry _ _ = _).
      settle. step_by when_call_run. step_by now_run. rewrite when_call_run.
      settle. reflexivity. }
  settle. unfold span_prelude, span_epilogue.
  repeat (rewrite <- ?app_assoc; cbn [app]). rewrite ?app_nil_r.
  reflexivity.
Qed.

Lemma catch_returns {A : Type} (m : RM A) (h : py_error -> RM A)
  (s : run_state) (a : A) (s' : run_state) :
  m s = (Returns a, s') -> rm_catch m h s = (Returns a, s').
Proof. unfold rm_catch. now intros ->. Qed.

Lemma catch_raises {A : Type} (m : RM A) (h : py_error -> RM A)
  (s : run_state) (e : py_error) (s' : run_state) :
  m s = (Raises e, s') -> rm_catch m h s = h e s'.
Proof. unfold rm_catch. now intros ->. Qed.

(** The prompt [process_task] builds for a task. *)
Lemma process_task_returns (fuel : nat) (self : Runner.t) (td : TaskData.t)
  (s : run_state) (response : string) (n : state) :
  tracer (telemetry s) = true ->
  send_prompt (net W) fuel (Runner.a2a_client self)
    (build_prompt (TaskData.instruction td) (TaskData.supervisor td)
                  (TaskData.app_descriptions td))
    float_half None (reads (net W) 3 (net_state s))
  = (Returns response, n) ->
  process_task W fuel self td s
  = (Returns (TaskResult.make (TaskData.task_id td) true
                (elapsed_ms (time_at (net W) (net_state s) 0)
                            (time_at (net W) n 1)) None
                (Some (String.length response))),
     advance s (reads (net W) 3 n)
       (span_prelude (telemetry s) (TaskData.task_id td)
          (dataset (appworld (Runner.config self)))
          (base_url (a2a (Runner.config self)))
          (timeout_seconds (a2a (Runner.config self)))
        ++ (prompt_calls (telemetry s)
              (build_prompt (TaskData.instruction td) (TaskData.supervisor td)
                            (TaskData.app_descriptions td))
            ++ success_calls (telemetry s) response
                 (elapsed_ms (time_at (net W) (net_state s) 2)
                             (time_at (net W) n 0)))
        ++ span_epilogue (telemetry s)
             (elapsed_ms (time_at (net W) (net_state s) 1)
                         (time_at (net W) n 2)) None)).
Proof.
  intros Htr Hsend. unfold process_task. step_by now_run.
  erewrite task_span_returns.
  2: exact Htr.
  2:{ erewrite catch_returns.
      2:{ apply process_task_try_returns; [exact Htr|].
          settle. rewrite !reads_reads. exact Hsend. }
      settle. reflexivity. }
  settle. rewrite !reads_reads, !time_at_reads. cbn [Nat.add app].
  reflexivity.
Qed.

Lemma process_task_fails (fuel : nat) (self : Runner.t) (td : TaskData.t)
  (s : run_state) (e : py_error) (n : state) :
  tracer (telemetry s) = true ->
  send_prompt (net W) fuel (Runner.a2a_client self)
    (build_prompt (TaskData.instruction td) (TaskData.supervisor td)
                  (TaskData.app_descriptions td))
    float_half None (reads (net W) 3 (net_state s))
  = (Raises e, n) ->
  process_task W fuel self td s
  = (Returns (TaskResult.make (TaskData.task_id td) false
                (elapsed_ms (time_at (net W) (net_state s) 0)
                            (time_at (net W) n 0))
                (Some (exc_type_name e ++ ": " ++ exc_str e)) None),
     advance s (reads (net W) 2 n)
       (span_prelude (telemetry s) (TaskData.task_id td)
          (dataset (appworld (Runner.config self)))
          (base_url (a2a (Runner.config self)))
          (timeout_seconds (a2a (Runner.config self)))
        ++ (prompt_calls (telemetry s)
              (build_prompt (TaskData.instruction td) (TaskData.supervisor td)
                            (TaskData.app_descriptions td))
            ++ failure_calls (telemetry s) e)
        ++ span_epilogue (telemetry s)
             (elapsed_ms (time_at (net W) (net_state s) 1)
                         (time_at (net W) n 1)) None)).
Proof.
  intros Htr Hsend. unfold process_task. step_by now_run.
  erewrite task_span_returns.
  2: exact Htr.
  2:{ erewrite catch_raises.
      2:{ apply process_task_try_raises; [exact Htr|].
          settle. rewrite !reads_reads. exact Hsend. }
      rewrite process_task_except_run.
      settle. unfold failure_calls.
      rewrite <- !app_assoc. cbn [app]. reflexivity. }
  settle. rewrite !reads_reads, !time_at_reads. cbn [Nat.add app].
  unfold failure_calls.
  repeat (rewrite <- ?app_assoc; cbn [app]). reflexivity.
Qed.

Lemma task_span_unfinished {A : Type} (task_id ds url : string) (timeout : Z)
  (body : RM A) (s : run_state) :
  tracer (telemetry s) = true ->
  fst (body (advance s (reads (net W) 1 (net_state s))
              (span_prelude (telemetry s) task_id ds url timeout)))
  = Unfinished ->
  fst (task_span W task_id ds url timeout body s) = Unfinished.
Proof.
  intros Htr Hbody. unfold task_span.
  rewrite (bind_run _ _ _ _ _ eq_refl : rm_bind get_telemetry _ _ = _).
  cbv beta. rewrite Htr. cbn [negb]. step_by when_call_run. step_by now_run.
  apply with_span_unfinished. settle. do 4 step_by call_run.
  unfold rm_finally. rewrite app_nil_r.
  repeat (rewrite <- ?app_assoc; cbn [app]).
  unfold span_prelude in Hbody.
  repeat (rewrite <- ?app_assoc in Hbody; cbn [app] in Hbody).
  destruct (body _) as [[a|e|] s']; now cbn in *.
Qed.

Lemma process_task_unfinished (fuel : nat) (self : Runner.t)
  (td : TaskData.t) (s : run_state) :
  tracer (telemetry s) = true ->
  fst (send_prompt (net W) fuel (Runner.a2a_client self)
         (build_prompt (TaskData.instruction td) (TaskData.supervisor td)
                       (TaskData.app_descriptions td))
         float_half None (reads (net W) 3 (net_state s)))
  = Unfinished ->
  fst (process_task W fuel self td s) = Unfinished.
Proof.
  intros Htr Hsend. unfold process_task. step_by now_run.
  apply task_span_unfinished; [exact Htr|]. settle.
  unfold rm_catch.
  pose proof (process_task_try_unfinished fuel self td
                (time_at (net W) (net_state s) 0)
                (advance s (reads (net W) 1 (reads (net W) 1 (net_state s)))
                   ([] ++ span_prelude (telemetry s) (TaskData.task_id td)
                            (dataset (appworld (Runner.config self)))
                            (base_url (a2a (Runner.config self)))
                            (timeout_seconds (a2a (Runner.config self)))))
                Htr) as Htry.
  rewrite net_state_advance, !reads_reads in Htry. specialize (Htry Hsend).
  destruct (process_task_try _ _ _ _ _ _) as [[r|e|] s']; now cbn in *.
Qed.

Lemma process_task_without_tracer (fuel : nat) (self : Runner.t)
  (td : TaskData.t) (s : run_state) :
  tracer (telemetry s) = false ->
  process_task W fuel self td s
  = (Raises (RuntimeError "OTEL not initialized"),
     advance s (reads (net W) 1 (net_state s)) []).
Proof.
  intro Htr. unfold process_task. step_by now_run. unfold task_span.
  rewrite (bind_run _ _ _ _ _ eq_refl : rm_bind get_telemetry _ _ = _).
  cbv beta. rewrite telemetry_advance, Htr. reflexivity.
Qed.

Lemma inflight_app (a b : list call) :
  inflight (a ++ b) = (inflight a + inflight b)%Z.
Proof.
  induction a as [|c a IH]; [reflexivity|].
  destruct c; cbn [app inflight]; try exact IH.
  destruct (String.eqb _ _); lia.
Qed.

Lemma counted_app (status : string) (a b : list call) :
  counted status (a ++ b) = counted status a + counted status b.
Proof.
  induction a as [|c a IH]; [reflexivity|].
  destruct c; cbn [app counted]; try exact IH.
  destruct (_ && _); cbn; now rewrite IH.
Qed.

Lemma reads_trace (E : env) (k : nat) (n : state) :
  trace (reads E k n)
  = (trace n ++ map (fun i => EvTime (time_at E n i)) (seq 0 k))%list.
Proof.
  revert n. induction k as [|k IH]; intro n.
  - cbn. now rewrite app_nil_r.
  - cbn [reads]. rewrite IH. cbn [time_time snd trace].
    rewrite <- app_assoc. f_equal. cbn [seq map app]. f_equal.
    + unfold time_at. now rewrite Nat.add_0_r.
    + rewrite <- seq_shift, map_map. apply map_ext. intro i.
      unfold time_at, time_time. cbn [ticks snd].
      now rewrite Nat.add_succ_r.
Qed.

Lemma span_prelude_counts (o : OTELInstrumentation) (task_id ds url : string)
  (timeout : Z) :
  inflight (span_prelude o task_id ds url timeout)
  = (if inflight_gauge o then 1 else 0)%Z
  /\ forall status,
       counted status (span_prelude o task_id ds url timeout) = 0.
Proof.
  unfold span_prelude. destruct (inflight_gauge o); split; reflexivity.
Qed.

Lemma span_epilogue_counts (o : OTELInstrumentation) (latency_ms : float)
  (exc : option py_error) :
  inflight (span_epilogue o latency_ms exc)
  = (if inflight_gauge o then -1 else 0)%Z
  /\ forall status, counted status (span_epilogue o latency_ms exc) = 0.
Proof.
  unfold span_epilogue.
  destruct (inflight_gauge o), (task_latency_histogram o); split;
    reflexivity.
Qed.

Lemma prompt_calls_counts (o : OTELInstrumentation) (prompt : string) :
  inflight (prompt_calls o prompt) = 0%Z
  /\ forall status, counted status (prompt_calls o prompt) = 0.
Proof.
  unfold prompt_calls. destruct (prompt_size_histogram o); split;
    reflexivity.
Qed.

Lemma success_calls_counts (o : OTELInstrumentation) (response : string)
  (duration_ms : float) :
  inflight (success_calls o response duration_ms) = 0%Z
  /\ counted "success" (success_calls o response duration_ms)
     = (if tasks_counter o then 1 else 0)
  /\ counted "failed" (success_calls o response duration_ms) = 0.
Proof.
  unfold success_calls.
  destruct (a2a_latency_histogram o), (response_size_histogram o),
    (tasks_counter o); repeat split; reflexivity.
Qed.

Lemma failure_calls_counts (o : OTELInstrumentation) (e : py_error) :
  inflight (failure_calls o e) = 0%Z
  /\ counted "success" (failure_calls o e) = 0
  /\ counted "failed" (failure_calls o e)
     = (if tasks_counter o then 1 else 0).
Proof.
  unfold failure_calls.
  destruct (tasks_counter o), (errors_counter o); repeat split; reflexivity.
Qed.

(** X21. Once telemetry is initialized, [process_task] does not raise:
    it asks the agent once, with the prompt built from the task, the
    default polling interval and the configured timeout, and reports what
    came of it in its result. The result is a success exactly when
    [send_prompt] returned, and then holds the length of the response; an
    exception of [send_prompt] becomes a failed result whose error reads
    [<type>: <message>]. *)
Theorem process_task_reports (fuel : nat) (self : Runner.t)
  (td : TaskData.t) (s : run_state) :
  tracer (telemetry s) = true ->
  fst (send_prompt (net W) fuel (Runner.a2a_client self)
         (build_prompt (TaskData.instruction td) (TaskData.supervisor td)
                       (TaskData.app_descriptions td))
         float_half None (reads (net W) 3 (net_state s)))
  <> Unfinished ->
  exists r s',
    process_task W fuel self td s = (Returns r, s')
    /\ TaskResult.task_id r = TaskData.task_id td
    /\ match fst (send_prompt (net W) fuel (Runner.a2a_client self)
                    (build_prompt (TaskData.instruction td)
                                  (TaskData.supervisor td)
                                  (TaskData.app_descriptions td))
                    float_half None (reads (net W) 3 (net_state s))) with
       | Returns response =>
           TaskResult.success r = true
           /\ TaskResult.error r = None
           /\ TaskResult.response_chars r = Some (String.length response)
       | Raises e =>
           TaskResult.success r = false
           /\ TaskResult.error r
              = Some (exc_type_name e ++ ": " ++ exc_str e)
           /\ TaskResult.response_chars r = None
       | Unfinished => False
       end.
Proof.
  intros Htr Hfin.
  destruct (send_prompt _ _ _ _ _ _ _) as [[response|e|] n] eqn:Hsend;
    cbn [fst] in *; [| |congruence].
  - do 2 eexists. split; [exact (process_task_returns _ _ _ _ _ _ Htr Hsend)|].
    now repeat split.
  - do 2 eexists. split; [exact (process_task_fails _ _ _ _ _ _ Htr Hsend)|].
    now repeat split.
Qed.

(** X22. What [process_task] records for a task is balanced: the gauge
    of tasks in flight is back where it was, and the counter of processed
    tasks, when it exists, has counted the task exactly once, as a
    success or as a failure according to the result. The telemetry object
    and the results of the summary are left as they were. *)
Theorem process_task_telemetry_balanced (fuel : nat) (self : Runner.t)
  (td : TaskData.t) (s : run_state) :
  tracer (telemetry s) = true ->
  fst (send_prompt (net W) fuel (Runner.a2a_client self)
         (build_prompt (TaskData.instruction td) (TaskData.supervisor td)
                       (TaskData.app_descriptions td))
         float_half None (reads (net W) 3 (net_state s)))
  <> Unfinished ->
  exists r s' calls,
    process_task W fuel self td s = (Returns r, s')
    /\ journal s' = (journal s ++ calls)%list
    /\ telemetry s' = telemetry s
    /\ results s' = results s
    /\ inflight calls = 0%Z
    /\ counted "success" calls
       = (if tasks_counter (telemetry s) && TaskResult.success r
          then 1 else 0)
    /\ counted "failed" calls
       = (if tasks_counter (telemetry s) && negb (TaskResult.success r)
          then 1 else 0).
Proof.
  intros Htr Hfin.
  destruct (send_prompt _ _ _ _ _ _ _) as [[response|e|] n] eqn:Hsend;
    cbn [fst] in *; [| |congruence].
  - do 3 eexists.
    split; [exact (process_task_returns _ _ _ _ _ _ Htr Hsend)|].
    split; [reflexivity|]. split; [reflexivity|]. split; [reflexivity|].
    cbn [TaskResult.success negb]. rewrite Bool.andb_true_r, Bool.andb_false_r.
    rewrite !inflight_app, !counted_app.
    destruct (span_prelude_counts (telemetry s) (TaskData.task_id td)
                (dataset (appworld (Runner.config self)))
                (base_url (a2a (Runner.config self)))
                (timeout_seconds (a2a (Runner.config self)))) as (-> & Hc1).
    destruct (prompt_calls_counts (telemetry s)
                (build_prompt (TaskData.instruction td)
                   (TaskData.supervisor td) (TaskData.app_descriptions td)))
      as (-> & Hc2).
    destruct (success_calls_counts (telemetry s) response
                (elapsed_ms (time_at (net W) (net_state s) 2)
                            (time_at (net W) n 0))) as (-> & -> & ->).
    destruct (span_epilogue_counts (telemetry s)
                (elapsed_ms (time_at (net W) (net_state s) 1)
                            (time_at (net W) n 2)) None) as (-> & Hc3).
    rewrite !Hc1, !Hc2, !Hc3.
    destruct (inflight_gauge (telemetry s)), (tasks_counter (telemetry s));
      repeat split; reflexivity.
  - do 3 eexists.
    split; [exact (process_task_fails _ _ _ _ _ _ Htr Hsend)|].
    split; [reflexivity|]. split; [reflexivity|]. split; [reflexivity|].
    cbn [TaskResult.success negb]. rewrite Bool.andb_true_r, Bool.andb_false_r.
    rewrite !inflight_app, !counted_app.
    destruct (span_prelude_counts (telemetry s) (TaskData.task_id td)
                (dataset (appworld (Runner.config self)))
                (base_url (a2a (Runner.config self)))
                (timeout_seconds (a2a (Runner.config self)))) as (-> & Hc1).
    destruct (prompt_calls_counts (telemetry s)
                (build_prompt (TaskData.instruction td)
                   (TaskData.supervisor td) (TaskData.app_descriptions td)))
      as (-> & Hc2).
    destruct (failure_calls_counts (telemetry s) e) as (-> & -> & ->).
    destruct (span_epilogue_counts (telemetry s)
                (elapsed_ms (time_at (net W) (net_state s) 1)
                            (time_at (net W) n 1)) None) as (-> & Hc3).
    rewrite !Hc1, !Hc2, !Hc3.
    destruct (inflight_gauge (telemetry s)), (tasks_counter (telemetry s));
      repeat split; reflexivity.
Qed.

(** X23. The text [process_task] sends to the agent is
    [build_prompt(instruction, supervisor, app_descriptions)] of its
    task: after three readings of the clock, the first thing the client
    does is to draw a message id and to post [message/send] to its RPC
    URL with that prompt as the one text part. *)
Theorem process_task_sends_built_prompt (fuel : nat) (self : Runner.t)
  (td : TaskData.t) (s : run_state) (t : float) (r : TaskResult.t)
  (s' : run_state) :
  tracer (telemetry s) = true ->
  float_of_int (timeout_seconds (config (Runner.a2a_client self))) = Some t ->
  process_task W fuel self td s = (Returns r, s') ->
  exists message_id rest,
    trace (net_state s')
    = (trace (net_state s)
       ++ [EvTime (time_at (net W) (net_state s) 0);
           EvTime (time_at (net W) (net_state s) 1);
           EvTime (time_at (net W) (net_state s) 2);
           EvUuid message_id;
           send_event (Runner.a2a_client self)
             (build_prompt (TaskData.instruction td) (TaskData.supervisor td)
                           (TaskData.app_descriptions td)) message_id]
       ++ rest)%list.
Proof.
  intros Htr Ht Hrun.
  destruct (send_prompt (net W) fuel (Runner.a2a_client self)
              (build_prompt (TaskData.instruction td) (TaskData.supervisor td)
                            (TaskData.app_descriptions td))
              float_half None (reads (net W) 3 (net_state s)))
    as [out n] eqn:Hsend.
  assert (Hshape : exists message_id evs,
             trace n = (trace (net_state s)
                        ++ [EvTime (time_at (net W) (net_state s) 0);
                            EvTime (time_at (net W) (net_state s) 1);
                            EvTime (time_at (net W) (net_state s) 2);
                            EvUuid message_id;
                            send_event (Runner.a2a_client self)
                              (build_prompt (TaskData.instruction td)
                                 (TaskData.supervisor td)
                                 (TaskData.app_descriptions td)) message_id]
                        ++ evs)%list).
  { destruct (send_prompt_shape _ _ _ _ _ _ _ _ _ Hsend) as (evs & Htrace & Hs).
    unfold resolved_timeout in Hs. rewrite Ht in Hs.
    rewrite Htrace, reads_trace. cbn [seq map].
    destruct Hs as [m out' _|m task_id start evs' out' _].
    - exists m, []. now rewrite <- app_assoc.
    - exists m, (EvTime start :: evs'). now rewrite <- app_assoc. }
  destruct Hshape as (m & evs & Htrace).
  destruct out as [response|e|].
  - rewrite (process_task_returns _ _ _ _ _ _ Htr Hsend) in Hrun.
    apply (f_equal snd) in Hrun. cbn [snd] in Hrun. rewrite <- Hrun.
    rewrite net_state_advance, reads_trace, Htrace.
    exists m. eexists. rewrite <- !app_assoc. reflexivity.
  - rewrite (process_task_fails _ _ _ _ _ _ Htr Hsend) in Hrun.
    apply (f_equal snd) in Hrun. cbn [snd] in Hrun. rewrite <- Hrun.
    rewrite net_state_advance, reads_trace, Htrace.
    exists m. eexists. rewrite <- !app_assoc. reflexivity.
  - pose proof (process_task_unfinished fuel self td s Htr) as Hun.
    rewrite Hsend, Hrun in Hun. now specialize (Hun eq_refl).
Qed.

(** X24. Before telemetry is initialized [process_task] raises
    [RuntimeError('OTEL not initialized')]: the exception comes from
    [task_span], outside the [try] of [process_task], so no result is
    made of it; nothing is sent to the agent and nothing is recorded. *)
Theorem process_task_needs_tracer (fuel : nat) (self : Runner.t)
  (td : TaskData.t) (s : run_state) :
  tracer (telemetry s) = false ->
  exists s',
    process_task W fuel self td s
    = (Raises (RuntimeError "OTEL not initialized"), s')
    /\ journal s' = journal s
    /\ results s' = results s
    /\ posts (net_state s') = posts (net_state s).
Proof.
  intro Htr. eexists. split; [exact (process_task_without_tracer _ _ _ _ Htr)|].
  rewrite journal_advance, net_state_advance, app_nil_r.
  split; [reflexivity|]. split; [reflexivity|].
  now destruct (reads_ticks (net W) 1 (net_state s)) as (_ & -> & _).
Qed.

(** *** What a computation leaves alone *)

Lemma pair_eq {A B : Type} (a a' : A) (b b' : B) :
  (a, b) = (a', b') -> a = a' /\ b = b'.
Proof. now intros [= -> ->]. Qed.

Lemma returns_inj {A : Type} (a b : A) : Returns a = Returns b -> a = b.
Proof. now intros [= ->]. Qed.

Lemma keeps_bind {A B X : Type} (part : run_state -> X) (m : RM A)
  (k : A -> RM B) :
  keeps part m -> (forall a, keeps part (k a)) -> keeps part (rm_bind m k).
Proof.
  intros Hm Hk s. unfold rm_bind. specialize (Hm s).
  destruct (m s) as [[a|e|] s1]; cbn [snd] in *; [|exact Hm|exact Hm].
  now rewrite Hk.
Qed.

Lemma keeps_catch {A X : Type} (part : run_state -> X) (m : RM A)
  (h : py_error -> RM A) :
  keeps part m -> (forall e, keeps part (h e)) -> keeps part (rm_catch m h).
Proof.
  intros Hm Hh s. unfold rm_catch. specialize (Hm s).
  destruct (m s) as [[a|e|] s1]; cbn [snd] in *; [exact Hm| |exact Hm].
  now rewrite Hh.
Qed.

Lemma keeps_finally {A X : Type} (part : run_state -> X) (m : RM A)
  (f : RM unit) :
  keeps part m -> keeps part f -> keeps part (rm_finally m f).
Proof.
  intros Hm Hf s. unfold rm_finally. specialize (Hm s).
  destruct (m s) as [[a|e|] s1]; cbn [snd] in *; [| |exact Hm];
    specialize (Hf s1); destruct (f s1) as [[[]|e'|] s2]; cbn [snd] in *;
    congruence.
Qed.

Lemma keeps_when {X : Type} (part : run_state -> X) (b : bool)
  (m : RM unit) :
  keeps part m -> keeps part (rm_when b m).
Proof. destruct b; [auto|]. intros _ s. reflexivity. Qed.

Lemma keeps_with_span {A X : Type} (part : run_state -> X) (name : string)
  (body : RM A) :
  keeps part (rm_call (SpanStart name)) ->
  (forall exc, keeps part (rm_call (SpanEnd name exc))) ->
  keeps part body -> keeps part (with_span name body).
Proof.
  intros Hstart Hend Hbody. unfold with_span.
  apply keeps_bind; [exact Hstart|]. intros _ s. specialize (Hbody s).
  destruct (body s) as [[a|e|] s1]; cbn [snd] in *; [| |exact Hbody].
  - unfold rm_bind. rewrite <- Hbody. apply (Hend None s1).
  - unfold rm_bind. rewrite <- Hbody. apply (Hend (Some e) s1).
Qed.

Lemma keeps_net {A X : Type} (part : run_state -> X) (m : M A) :
  (forall s n, part (advance s n []) = part s) -> keeps part (rm_net m).
Proof.
  intros Hpart s. rewrite net_run. cbn [snd]. apply Hpart.
Qed.

(** The steps of a run that touch neither the telemetry object nor the
    results. *)
Ltac keep_step :=
  lazymatch goal with
  | |- keeps _ (rm_ret _) => intro; reflexivity
  | |- keeps _ (rm_raise _) => intro; reflexivity
  | |- keeps _ (rm_call _) => intro; reflexivity
  | |- keeps _ get_telemetry => intro; reflexivity
  | |- keeps _ require_initialized =>
      let s := fresh "s" in
      intro s; unfold require_initialized;
      destruct (adapter_initialized s); reflexivity
  | |- keeps _ (rm_call_may_raise _ ?answer) =>
      unfold rm_call_may_raise; apply keeps_bind; [|intros ?];
      [|destruct answer]
  | |- keeps _ (now _) => apply keeps_net; intros; reflexivity
  | |- keeps _ (rm_net _) => apply keeps_net; intros; reflexivity
  | |- keeps _ (with_span _ _) =>
      apply keeps_with_span; [intro; reflexivity|intros ? ?; reflexivity|]
  | |- keeps _ (rm_when _ _) => apply keeps_when
  | |- keeps _ (rm_catch _ _) => apply keeps_catch; [|intros ?]
  | |- keeps _ (rm_finally _ _) => apply keeps_finally
  | |- keeps _ (rm_bind _ _) => apply keeps_bind; [|intros ?]
  | |- keeps _ (if ?b then _ else _) => destruct b
  | |- keeps _ (match ?x with _ => _ end) => destruct x
  end.

Ltac keep := repeat keep_step.

Lemma keeps_results_get_task_data (task_id : string) :
  keeps results (get_task_data W task_id).
Proof. unfold get_task_data. keep. Qed.

Lemma keeps_results_yield (cfg : AppWorldConfig) (task_id : string) :
  keeps results (iterate_tasks_yield W cfg task_id).
Proof.
  unfold iterate_tasks_yield.
  apply keeps_catch; [|intro; intro; reflexivity].
  apply keeps_bind; [keep|]. intros _. apply keeps_results_get_task_data.
Qed.

Lemma keeps_results_resume (task_id : string) :
  keeps results (iterate_tasks_resume W task_id).
Proof. unfold iterate_tasks_resume. keep. Qed.

Lemma keeps_results_process_task (fuel : nat) (self : Runner.t)
  (td : TaskData.t) :
  keeps results (process_task W fuel self td).
Proof.
  unfold process_task, task_span, process_task_try, process_task_except,
    child_span, record_prompt, record_a2a_request, record_response,
    record_success, record_failure.
  keep.
Qed.

Lemma get_task_data_id (task_id : string) (s : run_state) (td : TaskData.t)
  (s' : run_state) :
  get_task_data W task_id s = (Returns td, s') ->
  TaskData.task_id td = task_id.
Proof.
  unfold get_task_data, rm_bind, require_initialized.
  destruct (adapter_initialized s); [|discriminate].
  rewrite call_run. destruct (task_load W task_id) as [task|e];
    [|discriminate].
  destruct (PyStr.is_empty _); [discriminate|]. rewrite call_run.
  intro H. apply pair_eq in H as [H _]. apply returns_inj in H.
  now rewrite <- H.
Qed.

Lemma yield_id (cfg : AppWorldConfig) (task_id : string) (s : run_state)
  (td : TaskData.t) (s' : run_state) :
  iterate_tasks_yield W cfg task_id s = (Returns td, s') ->
  TaskData.task_id td = task_id.
Proof.
  unfold iterate_tasks_yield, rm_catch, rm_bind at 1, rm_call_may_raise,
    rm_bind at 1.
  rewrite call_run. destruct (world_open W task_id); [discriminate|].
  cbn [rm_ret].
  destruct (get_task_data W task_id _) as [[td'|e|] s1] eqn:Hget;
    [|discriminate|discriminate].
  intro H. apply pair_eq in H as [H _]. apply returns_inj in H. subst td'.
  exact (get_task_data_id _ _ _ _ Hget).
Qed.

Lemma process_task_result_id (fuel : nat) (self : Runner.t)
  (td : TaskData.t) (s : run_state) (r : TaskResult.t) (s' : run_state) :
  process_task W fuel self td s = (Returns r, s') ->
  TaskResult.task_id r = TaskData.task_id td.
Proof.
  intro Hrun. destruct (tracer (telemetry s)) eqn:Htr.
  - destruct (send_prompt (net W) fuel (Runner.a2a_client self)
                (build_prompt (TaskData.instruction td)
                   (TaskData.supervisor td) (TaskData.app_descriptions td))
                float_half None (reads (net W) 3 (net_state s)))
      as [[response|e|] n] eqn:Hsend.
    + rewrite (process_task_returns _ _ _ _ _ _ Htr Hsend) in Hrun.
      apply pair_eq in Hrun as [Hrun _]. apply returns_inj in Hrun.
      now rewrite <- Hrun.
    + rewrite (process_task_fails _ _ _ _ _ _ Htr Hsend) in Hrun.
      apply pair_eq in Hrun as [Hrun _]. apply returns_inj in Hrun.
      now rewrite <- Hrun.
    + pose proof (process_task_unfinished fuel self td s Htr) as Hun.
      rewrite Hsend, Hrun in Hun. now specialize (Hun eq_refl).
  - rewrite (process_task_without_tracer _ _ _ _ Htr) in Hrun.
    apply pair_eq in Hrun as [Hrun _]. discriminate.
Qed.

(** X25. The loop of [Runner.run] takes the tasks in the order of the
    data set and adds one result per processed task: when it ends, the
    new results are those of a prefix of the task ids, in order. With
    [ABORT_ON_FAILURE] no task is processed after a failed one, and the
    loop ends normally before the last task only for that reason. *)
Theorem process_tasks_in_order (fuel : nat) (self : Runner.t)
  (task_ids : list string) (s : run_state) (out : outcome unit)
  (s' : run_state) :
  process_tasks W fuel self task_ids s = (out, s') ->
  out <> Unfinished ->
  exists new rest,
    results s' = (results s ++ new)%list
    /\ task_ids = (map TaskResult.task_id new ++ rest)%list
    /\ (abort_on_failure (appworld (Runner.config self)) = true ->
        forall r, In r (removelast new) -> TaskResult.success r = true)
    /\ (out = Returns tt -> rest <> [] ->
        abort_on_failure (appworld (Runner.config self)) = true
        /\ exists front r,
             new = (front ++ [r])%list /\ TaskResult.success r = false).
Proof.
  revert s. induction task_ids as [|task_id task_ids IH];
    intros s Hrun Hfin.
  - apply pair_eq in Hrun as [_ <-]. exists [], [].
    rewrite app_nil_r. split; [reflexivity|]. split; [reflexivity|].
    split; [now intros _ r []|]. now intros _ Hrest.
  - cbn [process_tasks] in Hrun. unfold rm_bind at 1 in Hrun.
    pose proof (keeps_results_yield (appworld (Runner.config self)) task_id s)
      as Hk1.
    destruct (iterate_tasks_yield W _ task_id s) as [[td|e|] s1] eqn:Hy;
      cbn [snd] in Hk1.
    2:{ apply pair_eq in Hrun as [<- <-]. exists [], (task_id :: task_ids).
        rewrite app_nil_r, Hk1. split; [reflexivity|]. split; [reflexivity|].
        split; [now intros _ r []|]. intro Hout. discriminate Hout. }
    2:{ apply pair_eq in Hrun as [<- _]. congruence. }
    apply yield_id in Hy. unfold rm_bind at 1 in Hrun.
    pose proof (keeps_results_process_task fuel self td s1) as Hk2.
    destruct (process_task W fuel self td s1) as [[r|e|] s2] eqn:Hp;
      cbn [snd] in Hk2.
    2:{ apply pair_eq in Hrun as [<- <-]. exists [], (task_id :: task_ids).
        rewrite app_nil_r, Hk2, Hk1. split; [reflexivity|].
        split; [reflexivity|].
        split; [now intros _ r []|]. intro Hout. discriminate Hout. }
    2:{ apply pair_eq in Hrun as [<- _]. congruence. }
    apply process_task_result_id in Hp. rewrite Hy in Hp.
    rewrite (bind_run (add_result r) _ s2 tt _ eq_refl) in Hrun.
    destruct (negb (TaskResult.success r) && _) eqn:Hab.
    + apply pair_eq in Hrun as [<- <-]. exists [r], task_ids.
      cbn [results map app removelast]. rewrite Hk2, Hk1, Hp.
      apply Bool.andb_true_iff in Hab as [Hr Hab].
      apply Bool.negb_true_iff in Hr.
      split; [reflexivity|]. split; [reflexivity|].
      split; [now intros _ r' []|]. intros _ _. split; [exact Hab|].
      exists [], r. now split.
    + unfold rm_bind at 1 in Hrun.
      pose proof (keeps_results_resume task_id
                    (snd (add_result r s2))) as Hk3.
      cbn [add_result snd] in Hk3.
      destruct (iterate_tasks_resume W task_id _) as [[[]|e|] s4] eqn:Hr;
        cbn [snd] in Hk3.
      3:{ apply pair_eq in Hrun as [<- _]. congruence. }
      2:{ apply pair_eq in Hrun as [<- <-]. exists [r], task_ids.
          rewrite Hk3. cbn [results map app removelast].
          rewrite Hk2, Hk1, Hp. split; [reflexivity|].
          split; [reflexivity|].
          split; [now intros _ r' []|]. intro Hout. discriminate Hout. }
      destruct (IH _ Hrun Hfin) as (new & rest & Hres & Hids & Hprev & Hend).
      exists (r :: new), rest. rewrite Hres, Hk3.
      cbn [results map app]. rewrite Hk2, Hk1, Hp, <- app_assoc.
      split; [reflexivity|]. split; [now rewrite Hids|]. split.
      * intros Habort r' Hin. rewrite Habort, Bool.andb_true_r in Hab.
        apply Bool.negb_false_iff in Hab.
        destruct new as [|r0 new]; [now destruct Hin|].
        destruct Hin as [<-|Hin]; [exact Hab|]. now apply Hprev.
      * intros Hout Hrest. destruct (Hend Hout Hrest)
          as (Habort & front & r' & -> & Hfail).
        split; [exact Habort|]. exists (r :: front), r'. now split.
Qed.

(** *** Setting telemetry up *)

Lemma retel_same (s : run_state) : retel s (telemetry s) [] = s.
Proof. destruct s. unfold retel. cbn. now rewrite app_nil_r. Qed.

Lemma bind_returns_inv {A B : Type} (m : RM A) (k : A -> RM B)
  (s : run_state) (b : B) (s' : run_state) :
  rm_bind m k s = (Returns b, s') ->
  exists a s1, m s = (Returns a, s1) /\ k a s1 = (Returns b, s').
Proof.
  unfold rm_bind. destruct (m s) as [[a|e|] s1]; try discriminate.
  intro H. now exists a, s1.
Qed.

Lemma setup_ok (c : otel_setup) (s : run_state) (o : OTELInstrumentation)
  (calls : list call) :
  otel_setup_fails W c = None ->
  setup W c (retel s o calls)
  = (Returns tt, retel s o (calls ++ [Setup c])).
Proof.
  intro Hok. unfold setup, rm_call_may_raise, rm_bind, rm_call, retel.
  cbn [journal net_state telemetry adapter_initialized results].
  rewrite Hok, app_assoc. reflexivity.
Qed.

Lemma setup_returns_inv (c : otel_setup) (s : run_state)
  (o : OTELInstrumentation) (calls : list call) (s1 : run_state) :
  setup W c (retel s o calls) = (Returns tt, s1) ->
  s1 = retel s o (calls ++ [Setup c]).
Proof.
  destruct (otel_setup_fails W c) as [e|] eqn:Hc.
  - unfold setup, rm_call_may_raise, rm_bind, rm_call. rewrite Hc.
    discriminate.
  - rewrite (setup_ok _ _ _ _ Hc). intro H.
    now apply pair_eq in H as [_ <-].
Qed.

Lemma assign_retel (f : OTELInstrumentation -> OTELInstrumentation)
  (s : run_state) (o : OTELInstrumentation) (calls : list call) :
  assign f (retel s o calls) = (Returns tt, retel s (f o) calls).
Proof. reflexivity. Qed.

Lemma create_ok (name : string)
  (f : OTELInstrumentation -> OTELInstrumentation) (s : run_state)
  (o : OTELInstrumentation) (calls : list call) :
  otel_setup_fails W (CreateInstrument name) = None ->
  create W name f (retel s o calls)
  = (Returns tt, retel s (f o) (calls ++ [Setup (CreateInstrument name)])).
Proof.
  intro Hok. unfold create.
  rewrite (bind_run _ _ _ _ _ (setup_ok _ _ _ _ Hok)). apply assign_retel.
Qed.

Lemma create_returns_inv (name : string)
  (f : OTELInstrumentation -> OTELInstrumentation) (s : run_state)
  (o : OTELInstrumentation) (calls : list call) (s1 : run_state) :
  create W name f (retel s o calls) = (Returns tt, s1) ->
  s1 = retel s (f o) (calls ++ [Setup (CreateInstrument name)]).
Proof.
  unfold create. intro H.
  apply bind_returns_inv in H as ([] & s2 & Hs & H).
  apply setup_returns_inv in Hs. subst s2. rewrite assign_retel in H.
  now apply pair_eq in H as [_ <-].
Qed.

Lemma tracing_ok (s : run_state) (o : OTELInstrumentation)
  (calls : list call) :
  (forall c, otel_setup_fails W c = None) ->
  _initialize_tracing W (retel s o calls)
  = (Returns tt,
     retel s (set_tracer o)
       (calls ++ [Setup (TracingSetup
                           (truthy_str (exporter_endpoint (otel_config o))))])).
Proof.
  intro Hok. unfold _initialize_tracing.
  rewrite (bind_run get_telemetry _ _ _ _ eq_refl). cbv beta.
  cbn [telemetry retel].
  rewrite (bind_run _ _ _ _ _ (setup_ok _ s o calls (Hok _))).
  apply assign_retel.
Qed.

Lemma tracing_returns_inv (s : run_state) (o : OTELInstrumentation)
  (calls : list call) (s1 : run_state) :
  _initialize_tracing W (retel s o calls) = (Returns tt, s1) ->
  s1 = retel s (set_tracer o)
         (calls ++ [Setup (TracingSetup
                             (truthy_str (exporter_endpoint (otel_config o))))]).
Proof.
  unfold _initialize_tracing.
  rewrite (bind_run get_telemetry _ _ _ _ eq_refl). cbv beta.
  cbn [telemetry retel]. intro H.
  apply bind_returns_inv in H as ([] & s2 & Hs & H).
  apply (setup_returns_inv _ s o calls) in Hs. subst s2.
  rewrite assign_retel in H. now apply pair_eq in H as [_ <-].
Qed.

Lemma requests_ok (s : run_state) (o : OTELInstrumentation)
  (calls : list call) :
  (forall c, otel_setup_fails W c = None) ->
  _initialize_auto_instrumentation W (retel s o calls)
  = (Returns tt,
     retel s (requests_done o)
       (calls ++ when_set (instrument_requests (otel_config o)
                           && negb (_requests_instrumented o))
                          (Setup RequestsInstrument))).
Proof.
  intro Hok. unfold _initialize_auto_instrumentation, requests_done.
  rewrite (bind_run get_telemetry _ _ _ _ eq_refl). cbv beta.
  cbn [telemetry retel].
  destruct (instrument_requests (otel_config o));
    [destruct (_requests_instrumented o)|]; cbn [negb andb when_set].
  - now rewrite app_nil_r.
  - rewrite (bind_run _ _ _ _ _ (setup_ok _ s o calls (Hok _))).
    apply assign_retel.
  - now rewrite app_nil_r.
Qed.

Lemma requests_returns_inv (s : run_state) (o : OTELInstrumentation)
  (calls : list call) (s1 : run_state) :
  _initialize_auto_instrumentation W (retel s o calls) = (Returns tt, s1) ->
  s1 = retel s (requests_done o)
         (calls ++ when_set (instrument_requests (otel_config o)
                             && negb (_requests_instrumented o))
                            (Setup RequestsInstrument)).
Proof.
  unfold _initialize_auto_instrumentation, requests_done.
  rewrite (bind_run get_telemetry _ _ _ _ eq_refl). cbv beta.
  cbn [telemetry retel].
  destruct (instrument_requests (otel_config o));
    [destruct (_requests_instrumented o)|]; cbn [negb andb when_set];
    intro H.
  - apply pair_eq in H as [_ <-]. now rewrite app_nil_r.
  - apply bind_returns_inv in H as ([] & s2 & Hs & H).
    apply (setup_returns_inv _ s o calls) in Hs. subst s2.
    rewrite assign_retel in H. now apply pair_eq in H as [_ <-].
  - apply pair_eq in H as [_ <-]. now rewrite app_nil_r.
Qed.

Lemma metrics_ok (s : run_state) (o : OTELInstrumentation)
  (calls : list call) :
  (forall c, otel_setup_fails W c = None) ->
  _initialize_metrics W (retel s o calls)
  = (Returns tt, retel s (metrics_done o) (calls ++ metrics_calls o)).
Proof.
  intro Hok. unfold _initialize_metrics.
  rewrite (bind_run get_telemetry _ _ _ _ eq_refl). cbv beta.
  cbn [telemetry retel].
  rewrite (bind_run _ _ _ _ _ (setup_ok _ s o calls (Hok _))).
  rewrite (bind_run _ _ _ _ _ (assign_retel _ _ _ _)).
  do 6 rewrite (bind_run _ _ _ _ _ (create_ok _ _ _ _ _ (Hok _))).
  rewrite (create_ok _ _ _ _ _ (Hok _)).
  unfold metrics_done, metrics_calls. cbn [map].
  repeat (rewrite <- ?app_assoc; cbn [app]). reflexivity.
Qed.

Lemma metrics_returns_inv (s : run_state) (o : OTELInstrumentation)
  (calls : list call) (s1 : run_state) :
  _initialize_metrics W (retel s o calls) = (Returns tt, s1) ->
  s1 = retel s (metrics_done o) (calls ++ metrics_calls o).
Proof.
  unfold _initialize_metrics.
  rewrite (bind_run get_telemetry _ _ _ _ eq_refl). cbv beta.
  cbn [telemetry retel]. intro H.
  apply bind_returns_inv in H as ([] & s2 & Hs & H).
  apply (setup_returns_inv _ s o calls) in Hs. subst s2.
  rewrite (bind_run _ _ _ _ _ (assign_retel _ _ _ _)) in H.
  do 6 (apply bind_returns_inv in H as ([] & s2 & Hs & H);
        apply create_returns_inv in Hs; subst s2).
  apply create_returns_inv in H. subst s1.
  unfold metrics_done, metrics_calls. cbn [map].
  repeat (rewrite <- ?app_assoc; cbn [app]). reflexivity.
Qed.

Lemma initialize_calls_parts (o : OTELInstrumentation) :
  initialize_calls o
  = ([Setup (ResourceCreate (resource_attrs (otel_config o)))]
     ++ [Setup (TracingSetup (truthy_str (exporter_endpoint (otel_config o))))]
     ++ when_set (instrument_requests (otel_config (set_tracer o))
                  && negb (_requests_instrumented (set_tracer o)))
                 (Setup RequestsInstrument)
     ++ metrics_calls (requests_done (set_tracer o)))%list.
Proof.
  unfold initialize_calls, metrics_calls, requests_done.
  cbn [set_tracer otel_config _requests_instrumented].
  now destruct (_ && _).
Qed.

Lemma initialize_ok_at (s : run_state) (o : OTELInstrumentation)
  (calls : list call) :
  (forall c, otel_setup_fails W c = None) ->
  OTELInstrumentation_initialize W (retel s o calls)
  = (Returns tt, retel s (initialized o) (calls ++ initialize_calls o)).
Proof.
  intro Hok. unfold OTELInstrumentation_initialize.
  rewrite (bind_run get_telemetry _ _ _ _ eq_refl). cbv beta.
  cbn [telemetry retel].
  rewrite (bind_run _ _ _ _ _ (setup_ok _ s o calls (Hok _))).
  rewrite (bind_run _ _ _ _ _ (tracing_ok _ _ _ Hok)).
  rewrite (bind_run _ _ _ _ _ (requests_ok _ _ _ Hok)).
  rewrite (metrics_ok _ _ _ Hok), initialize_calls_parts.
  unfold initialized. repeat (rewrite <- ?app_assoc; cbn [app]).
  reflexivity.
Qed.

Lemma initialize_ok (s : run_state) :
  (forall c, otel_setup_fails W c = None) ->
  OTELInstrumentation_initialize W s
  = (Returns tt,
     retel s (initialized (telemetry s)) (initialize_calls (telemetry s))).
Proof.
  intro Hok. pose proof (initialize_ok_at s (telemetry s) [] Hok) as H.
  now rewrite retel_same in H.
Qed.

Lemma initialize_returns_inv_at (s : run_state) (o : OTELInstrumentation)
  (calls : list call) (s' : run_state) :
  OTELInstrumentation_initialize W (retel s o calls) = (Returns tt, s') ->
  s' = retel s (initialized o) (calls ++ initialize_calls o).
Proof.
  unfold OTELInstrumentation_initialize.
  rewrite (bind_run get_telemetry _ _ _ _ eq_refl). cbv beta.
  cbn [telemetry retel]. intro H.
  apply bind_returns_inv in H as ([] & s1 & Hs & H).
  apply (setup_returns_inv _ s o calls) in Hs. subst s1.
  apply bind_returns_inv in H as ([] & s1 & Hs & H).
  apply tracing_returns_inv in Hs. subst s1.
  apply bind_returns_inv in H as ([] & s1 & Hs & H).
  apply requests_returns_inv in Hs. subst s1.
  apply metrics_returns_inv in H. subst s'.
  rewrite initialize_calls_parts. unfold initialized.
  repeat (rewrite <- ?app_assoc; cbn [app]). reflexivity.
Qed.

Lemma initialize_returns_inv (s s' : run_state) :
  OTELInstrumentation_initialize W s = (Returns tt, s') ->
  s' = retel s (initialized (telemetry s)) (initialize_calls (telemetry s)).
Proof.
  intro H. apply (initialize_returns_inv_at s (telemetry s) []).
  now rewrite retel_same.
Qed.

Lemma initialized_flags (o : OTELInstrumentation) :
  instruments_set (initialized o) = true
  /\ otel_config (initialized o) = otel_config o
  /\ _requests_instrumented (initialized o)
     = instrument_requests (otel_config o) || _requests_instrumented o.
Proof.
  unfold initialized, requests_done.
  cbn [set_tracer otel_config _requests_instrumented].
  destruct (instrument_requests (otel_config o)) eqn:Hask;
    destruct (_requests_instrumented o) eqn:Hdone;
    cbn [andb negb orb]; unfold instruments_set, metrics_done;
    cbn [set_tracer set_meter set_tasks_counter set_errors_counter
         set_task_latency_histogram set_a2a_latency_histogram
         set_prompt_size_histogram set_response_size_histogram
         set_inflight_gauge set_requests_instrumented
         otel_config tracer meter tasks_counter errors_counter
         task_latency_histogram a2a_latency_histogram
         prompt_size_histogram response_size_histogram inflight_gauge
         _requests_instrumented andb];
    rewrite ?Hdone; repeat split; reflexivity.
Qed.

Lemma setup_step {A : Type} (c : otel_setup) (k : unit -> RM A)
  (s : run_state) (o : OTELInstrumentation) (calls : list call) :
  rm_bind (setup W c) k (retel s o calls)
  = match otel_setup_fails W c with
    | Some e => (Raises e, retel s o (calls ++ [Setup c]))
    | None => k tt (retel s o (calls ++ [Setup c]))
    end.
Proof.
  unfold setup, rm_call_may_raise, rm_bind, rm_call, retel.
  cbn [journal net_state telemetry adapter_initialized results].
  rewrite <- app_assoc.
  now destruct (otel_setup_fails W c).
Qed.

Lemma assign_step {A : Type}
  (f : OTELInstrumentation -> OTELInstrumentation) (k : unit -> RM A)
  (s : run_state) (o : OTELInstrumentation) (calls : list call) :
  rm_bind (assign f) k (retel s o calls) = k tt (retel s (f o) calls).
Proof. reflexivity. Qed.

Lemma get_telemetry_step {A : Type} (k : OTELInstrumentation -> RM A)
  (s : run_state) (o : OTELInstrumentation) (calls : list call) :
  rm_bind get_telemetry k (retel s o calls) = k o (retel s o calls).
Proof. reflexivity. Qed.

Lemma bind_assoc {A B C : Type} (m : RM A) (k : A -> RM B) (h : B -> RM C)
  (s : run_state) :
  rm_bind (rm_bind m k) h s = rm_bind m (fun a => rm_bind (k a) h) s.
Proof. unfold rm_bind. now destruct (m s) as [[a|e|] s1]. Qed.

Lemma ret_step {A B : Type} (a : A) (k : A -> RM B) (s : run_state) :
  rm_bind (rm_ret a) k s = k a s.
Proof. reflexivity. Qed.

Lemma bind_ret {A : Type} (m : RM A) (s : run_state) :
  rm_bind m (fun a => rm_ret a) s = m s.
Proof. unfold rm_bind, rm_ret. now destruct (m s) as [[a|e|] s1]. Qed.

Lemma run_script_app (a b : list (otel_setup
                                  * (OTELInstrumentation
                                     -> OTELInstrumentation)))
  (s : run_state) (o : OTELInstrumentation) (calls : list call) :
  run_script W (a ++ b) (retel s o calls)
  = rm_bind (run_script W a) (fun _ => run_script W b) (retel s o calls).
Proof.
  revert o calls. induction a as [|[c f] a IH]; intros o calls;
    [reflexivity|].
  cbn [app run_script]. rewrite bind_assoc, !setup_step.
  destruct (otel_setup_fails W c); [reflexivity|].
  rewrite bind_assoc, !assign_step. apply IH.
Qed.

Lemma run_script_ok (steps : list (otel_setup
                                   * (OTELInstrumentation
                                      -> OTELInstrumentation)))
  (s : run_state) (o : OTELInstrumentation) (calls : list call) :
  (forall step, In step steps -> otel_setup_fails W (fst step) = None) ->
  run_script W steps (retel s o calls)
  = (Returns tt, retel s (assigned steps o) (calls ++ script_calls steps)).
Proof.
  revert o calls. induction steps as [|[c f] steps IH]; intros o calls Hok.
  - cbn. now rewrite app_nil_r.
  - cbn [run_script]. rewrite setup_step.
    rewrite (Hok (c, f) (or_introl eq_refl) : otel_setup_fails W c = None).
    rewrite assign_step, IH by (intros step Hin; apply Hok; now right).
    unfold assigned, script_calls. cbn [fold_left map fst snd].
    now rewrite <- app_assoc.
Qed.

Lemma run_script_fails (before : list (otel_setup
                                       * (OTELInstrumentation
                                          -> OTELInstrumentation)))
  (c : otel_setup) (f : OTELInstrumentation -> OTELInstrumentation)
  (after : list (otel_setup
                 * (OTELInstrumentation -> OTELInstrumentation)))
  (e : py_error) (s : run_state) (o : OTELInstrumentation)
  (calls : list call) :
  (forall step, In step before -> otel_setup_fails W (fst step) = None) ->
  otel_setup_fails W c = Some e ->
  run_script W (before ++ (c, f) :: after) (retel s o calls)
  = (Raises e,
     retel s (assigned before o) (calls ++ script_calls before ++ [Setup c])).
Proof.
  intros Hok Hfail. rewrite run_script_app.
  rewrite (bind_run _ _ _ _ _ (run_script_ok before s o calls Hok)).
  cbn [run_script]. rewrite setup_step, Hfail. now rewrite <- app_assoc.
Qed.

Lemma metrics_as_script (s : run_state) (o : OTELInstrumentation)
  (calls : list call) :
  _initialize_metrics W (retel s o calls)
  = run_script W
      [(MeterSetup (truthy_str (exporter_endpoint (otel_config o))),
        set_meter);
       (CreateInstrument "a2a_proxy_tasks_total", set_tasks_counter);
       (CreateInstrument "a2a_proxy_errors_total", set_errors_counter);
       (CreateInstrument "a2a_proxy_task_latency_ms",
        set_task_latency_histogram);
       (CreateInstrument "a2a_proxy_a2a_latency_ms",
        set_a2a_latency_histogram);
       (CreateInstrument "a2a_proxy_prompt_size_chars",
        set_prompt_size_histogram);
       (CreateInstrument "a2a_proxy_response_size_chars",
        set_response_size_histogram);
       (CreateInstrument "a2a_proxy_inflight_tasks", set_inflight_gauge)]
      (retel s o calls).
Proof.
  unfold _initialize_metrics, create. cbn [run_script].
  rewrite get_telemetry_step, !setup_step.
  destruct (otel_setup_fails W (MeterSetup _)); [reflexivity|].
  rewrite !assign_step.
  do 6 (rewrite bind_assoc, !setup_step;
        destruct (otel_setup_fails W (CreateInstrument _)); [reflexivity|];
        rewrite !assign_step).
  rewrite <- (bind_ret (rm_bind (setup W _) _)), bind_assoc, !setup_step.
  destruct (otel_setup_fails W (CreateInstrument _)); [reflexivity|].
  now rewrite bind_ret, !assign_step.
Qed.

Lemma initialize_as_script (s : run_state) (o : OTELInstrumentation)
  (calls : list call) :
  OTELInstrumentation_initialize W (retel s o calls)
  = run_script W (initialize_script o) (retel s o calls).
Proof.
  unfold OTELInstrumentation_initialize, initialize_script.
  cbn [app run_script].
  rewrite get_telemetry_step, !setup_step.
  destruct (otel_setup_fails W (ResourceCreate _)); [reflexivity|].
  rewrite assign_step. unfold _initialize_tracing.
  rewrite bind_assoc, get_telemetry_step, bind_assoc, !setup_step.
  destruct (otel_setup_fails W (TracingSetup _)); [reflexivity|].
  rewrite !assign_step. unfold _initialize_auto_instrumentation.
  rewrite bind_assoc, get_telemetry_step.
  change (otel_config (set_tracer o)) with (otel_config o).
  change (_requests_instrumented (set_tracer o))
    with (_requests_instrumented o).
  destruct (instrument_requests (otel_config o));
    [destruct (_requests_instrumented o)|]; cbn [negb andb app].
  - rewrite ret_step. exact (metrics_as_script s (set_tracer o) _).
  - cbn [run_script]. rewrite bind_assoc, !setup_step.
    destruct (otel_setup_fails W RequestsInstrument); [reflexivity|].
    rewrite !assign_step.
    exact (metrics_as_script s (set_requests_instrumented (set_tracer o)) _).
  - rewrite ret_step. exact (metrics_as_script s (set_tracer o) _).
Qed.

Lemma initialize_calls_script (o : OTELInstrumentation) :
  initialize_calls o = script_calls (initialize_script o).
Proof.
  unfold initialize_calls, initialize_script, script_calls, when_set.
  now destruct (_ && _).
Qed.

Lemma map_eq_split {A B : Type} (g : A -> B) (l : list A)
  (before : list B) (x : B) (after : list B) :
  map g l = (before ++ x :: after)%list ->
  exists lb y la,
    l = (lb ++ y :: la)%list /\ map g lb = before /\ g y = x.
Proof.
  revert l. induction before as [|b before IH]; intros l Hmap.
  - destruct l as [|y la]; [discriminate|]. injection Hmap as Hy _.
    exists [], y, la. now repeat split.
  - destruct l as [|a l]; [discriminate|]. injection Hmap as Ha Hmap.
    destruct (IH l Hmap) as (lb & y & la & -> & Hlb & Hy).
    exists (a :: lb), y, la. cbn [map app]. now rewrite Ha, Hlb.
Qed.

(** X26. [OTELInstrumentation.initialize] is all or error. When it
    returns, the tracer, the meter and the seven instruments are set and
    the configuration is the one it had. It raises as soon as one of its
    library calls raises: the exception of the first call that fails is
    the one of [initialize], and no call is made after it. When none
    fails, it makes its calls in a fixed order, one resource, the tracing
    and the metrics set-up with the endpoint (none when it is unset or
    empty) and seven instruments, and instruments [requests] only when
    asked to and not done before, so a second [initialize] does not
    instrument twice. *)
Theorem otel_initialize_all_or_error (s : run_state) :
  (forall s',
     OTELInstrumentation_initialize W s = (Returns tt, s') ->
     instruments_set (telemetry s') = true
     /\ otel_config (telemetry s') = otel_config (telemetry s)
     /\ _requests_instrumented (telemetry s')
        = instrument_requests (otel_config (telemetry s))
          || _requests_instrumented (telemetry s)
     /\ journal s' = (journal s ++ initialize_calls (telemetry s))%list
     /\ results s' = results s
     /\ adapter_initialized s' = adapter_initialized s
     /\ net_state s' = net_state s)
  /\ fst (OTELInstrumentation_initialize W s) <> Unfinished
  /\ ((forall c, In (Setup c) (initialize_calls (telemetry s)) ->
                 otel_setup_fails W c = None) ->
      exists s', OTELInstrumentation_initialize W s = (Returns tt, s'))
  /\ (forall before c after e,
        initialize_calls (telemetry s) = (before ++ Setup c :: after)%list ->
        (forall c', In (Setup c') before -> otel_setup_fails W c' = None) ->
        otel_setup_fails W c = Some e ->
        exists s',
          OTELInstrumentation_initialize W s = (Raises e, s')
          /\ journal s' = (journal s ++ before ++ [Setup c])%list
          /\ results s' = results s
          /\ net_state s' = net_state s).
Proof.
  split; [|split; [|split]].
  - intros s' Hrun. apply initialize_returns_inv in Hrun. subst s'.
    cbn [retel telemetry journal results adapter_initialized net_state].
    destruct (initialized_flags (telemetry s)) as (Hset & Hcfg & Hreq).
    now repeat split.
  - apply finishes_otel_initialize.
  - intro Hok.
    assert (Hsteps : forall step,
              In step (initialize_script (telemetry s)) ->
              otel_setup_fails W (fst step) = None).
    { intros [c f] Hin. apply Hok. rewrite initialize_calls_script.
      unfold script_calls.
      now apply (in_map (fun step => Setup (fst step))) in Hin. }
    pose proof (run_script_ok (initialize_script (telemetry s)) s
                  (telemetry s) [] Hsteps) as Hrun.
    rewrite <- initialize_as_script, retel_same in Hrun.
    eexists. exact Hrun.
  - intros before c after e Hcalls Hok Hfail.
    rewrite initialize_calls_script in Hcalls. unfold script_calls in Hcalls.
    apply map_eq_split in Hcalls
      as (sb & [c0 f] & sa & Hscript & Hbefore & Hc).
    cbn [fst] in Hc. injection Hc as ->.
    assert (Hsteps : forall step,
              In step sb -> otel_setup_fails W (fst step) = None).
    { intros [c' f'] Hin. apply Hok. rewrite <- Hbefore.
      now apply (in_map (fun step => Setup (fst step))) in Hin. }
    pose proof (run_script_fails sb c f sa e s (telemetry s) [] Hsteps Hfail)
      as Hrun.
    rewrite <- Hscript, <- initialize_as_script, retel_same in Hrun.
    eexists. split; [exact Hrun|].
    cbn [retel journal results net_state app]. unfold script_calls.
    now rewrite Hbefore.
Qed.

(** *** A task that cannot be read *)

Lemma get_task_data_empty (task_id : string) (s : run_state)
  (task : LoadedTask.t) :
  adapter_initialized s = true ->
  task_load W task_id = Ok task ->
  LoadedTask.instruction task = "" ->
  get_task_data W task_id s
  = (Raises (ValueError ("Task " ++ task_id ++ " has no instruction")),
     advance s (net_state s) [TaskLoad task_id]).
Proof.
  intros Hinit Hload Hempty.
  unfold get_task_data, rm_bind, require_initialized.
  rewrite Hinit, call_run, Hload. now rewrite Hempty.
Qed.

(** X27. A task without instruction ends the whole loop, with or
    without [ABORT_ON_FAILURE]: the [ValueError] of [get_task_data]
    leaves the generator and the loop of [run], after the AppWorld
    context of this task was opened and the task loaded; no result is
    added for it and the tasks after it are never touched. *)
Theorem task_without_instruction_stops_loop (fuel : nat) (self : Runner.t)
  (task_id : string) (later : list string) (s : run_state)
  (task : LoadedTask.t) :
  adapter_initialized s = true ->
  world_open W task_id = None ->
  task_load W task_id = Ok task ->
  LoadedTask.instruction task = "" ->
  process_tasks W fuel self (task_id :: later) s
  = (Raises (ValueError ("Task " ++ task_id ++ " has no instruction")),
     advance s (net_state s)
       [WorldOpen task_id (remote_apis_url (appworld (Runner.config self)));
        TaskLoad task_id]).
Proof.
  intros Hinit Hopen Hload Hempty.
  assert (Hyield :
            iterate_tasks_yield W (appworld (Runner.config self)) task_id s
            = (Raises (ValueError ("Task " ++ task_id
                                   ++ " has no instruction")),
               advance s (net_state s)
                 [WorldOpen task_id
                    (remote_apis_url (appworld (Runner.config self)));
                  TaskLoad task_id])).
  { unfold iterate_tasks_yield, rm_catch, rm_bind at 1, rm_call_may_raise,
      rm_bind at 1.
    rewrite call_run, Hopen. cbn [rm_ret].
    rewrite (get_task_data_empty task_id
               (advance s (net_state s)
                  [WorldOpen task_id
                     (remote_apis_url (appworld (Runner.config self)))])
               task Hinit Hload Hempty).
    unfold rm_raise. now settle. }
  cbn [process_tasks]. now rewrite (bind_raises _ _ _ _ _ Hyield).
Qed.

(** *** From the environment to the RPC URL *)

(** X28. With [A2A_ENDPOINT_PATH] unset, a client built from
    [A2AConfig.from_env] posts to [<base>/v1/chat] whenever the card
    gives no URL with a path of its own: [<base>] is the configured
    [A2A_BASE_URL], or the card's URL when that has no path beyond the
    root, with trailing slashes stripped. *)
Theorem default_endpoint_from_env (E : env) (vars : environ)
  (cfg : A2AConfig) (n : state) (b : string) :
  A2AConfig_from_env vars = Ok cfg ->
  vars "A2A_ENDPOINT_PATH" = None ->
  fallback_base cfg (agent_card E (card_url cfg)) b ->
  exists self n',
    __init__ E cfg n = (Returns self, n')
    /\ config self = cfg
    /\ rpc_url self = PyStr.rstrip_slash b ++ "/v1/chat".
Proof.
  intros Hcfg Hpath Hcase.
  assert (Hdefault : endpoint_path cfg = "/v1/chat").
  { unfold A2AConfig_from_env in Hcfg.
    destruct (missing (vars "A2A_BASE_URL")); [discriminate|].
    injection Hcfg as <-. cbn [endpoint_path]. unfold getenv_or.
    now rewrite Hpath. }
  pose proof (discover_fallback E cfg n b Hcase) as Hurl.
  unfold __init__, bind.
  destruct (_discover_rpc_url E cfg n) as [out n'].
  cbn [fst] in Hurl. subst out. cbn [ret].
  do 2 eexists. split; [reflexivity|]. split; [reflexivity|].
  cbn [rpc_url]. unfold _build_rpc_url, _normalize_endpoint_path.
  rewrite Hdefault. reflexivity.
Qed.

(** *** The resource attributes *)

Lemma attrs_set_in (k v : string) (d : list (string * string))
  (k' v' : string) :
  In (k', v') (attrs_set k v d) -> (k' = k /\ v' = v) \/ In (k', v') d.
Proof.
  induction d as [|[k0 v0] d IH]; cbn [attrs_set].
  - intros [[= <- <-]|[]]. now left.
  - destruct (String.eqb k k0) eqn:Hk.
    + intros [[= <- <-]|Hin]; [now left|right; now right].
    + intros [Heq|Hin]; [right; now left|].
      destruct (IH Hin) as [?|?]; [now left|right; now right].
Qed.

Lemma attrs_set_keys (k v : string) (d : list (string * string))
  (x : string) :
  In x (map fst (attrs_set k v d)) -> x = k \/ In x (map fst d).
Proof.
  induction d as [|[k0 v0] d IH]; cbn [attrs_set map fst].
  - intros [<-|[]]. now left.
  - destruct (String.eqb k k0) eqn:Hk; cbn [map fst].
    + intros [<-|Hin]; [now left|right; now right].
    + intros [<-|Hin]; [right; now left|].
      destruct (IH Hin) as [?|?]; [now left|right; now right].
Qed.

Lemma attrs_set_nodup (k v : string) (d : list (string * string)) :
  NoDup (map fst d) -> NoDup (map fst (attrs_set k v d)).
Proof.
  induction d as [|[k0 v0] d IH]; cbn [attrs_set map fst]; intro Hd.
  - constructor; [intros []|constructor].
  - inversion Hd as [|? ? Hnot Hrest]; subst.
    destruct (String.eqb k k0) eqn:Hk; cbn [map fst].
    + apply String.eqb_eq in Hk. subst k0. now constructor.
    + apply String.eqb_neq in Hk. constructor; [|now apply IH].
      intro Hin. apply attrs_set_keys in Hin as [Heq|Hin];
        [now subst|contradiction].
Qed.

Lemma attrs_set_keeps (k v : string) (d : list (string * string))
  (k' : string) :
  attrs_get k' d <> None -> attrs_get k' (attrs_set k v d) <> None.
Proof.
  induction d as [|[k0 v0] d IH]; cbn [attrs_set attrs_get];
    [congruence|].
  destruct (String.eqb k k0) eqn:Hk; cbn [attrs_get].
  - apply String.eqb_eq in Hk. subst k0.
    destruct (String.eqb k' k); [discriminate|auto].
  - destruct (String.eqb k' k0); [discriminate|auto].
Qed.

Lemma resource_attrs_fold (all : list string) (service : string)
  (items : list string) (d : list (string * string)) :
  (forall item, In item items -> In item all) ->
  NoDup (map fst d) ->
  attrs_get "service.name" d <> None ->
  (forall k v, In (k, v) d ->
     (k = "service.name" /\ v = service)
     \/ exists item key value,
          In item all /\ split_first "=" item = Some (key, value)
          /\ k = PyStr.strip key /\ v = PyStr.strip value) ->
  NoDup (map fst (fold_left add_resource_attr items d))
  /\ attrs_get "service.name" (fold_left add_resource_attr items d) <> None
  /\ forall k v, In (k, v) (fold_left add_resource_attr items d) ->
       (k = "service.name" /\ v = service)
       \/ exists item key value,
            In item all /\ split_first "=" item = Some (key, value)
            /\ k = PyStr.strip key /\ v = PyStr.strip value.
Proof.
  revert d. induction items as [|item items IH]; intros d Hall Hnd Hsn Hfrom;
    cbn [fold_left]; [now repeat split|].
  apply IH.
  - intros i Hi. apply Hall. now right.
  - unfold add_resource_attr.
    destruct (split_first "=" item) as [[key value]|]; [|exact Hnd].
    now apply attrs_set_nodup.
  - unfold add_resource_attr.
    destruct (split_first "=" item) as [[key value]|]; [|exact Hsn].
    now apply attrs_set_keeps.
  - intros k v Hin. unfold add_resource_attr in Hin.
    destruct (split_first "=" item) as [[key value]|] eqn:Hsplit;
      [|now apply Hfrom].
    apply attrs_set_in in Hin as [[-> ->]|Hin]; [|now apply Hfrom].
    right. exists item, key, value. split; [apply Hall; now left|].
    now repeat split.
Qed.

(** X29. The resource attributes [initialize] hands to OpenTelemetry:
    every key occurs once, [service.name] is always one of them, and
    every attribute is either the configured service name or comes from
    an item [key=value] of [OTEL_RESOURCE_ATTRIBUTES], split at its first
    [=] and stripped on both sides; items without [=] add nothing. With
    the variable unset or empty the service name is the only
    attribute. *)
Theorem resource_attrs_from_items (cfg : OTELConfig) :
  NoDup (map fst (resource_attrs cfg))
  /\ attrs_get "service.name" (resource_attrs cfg) <> None
  /\ (missing (resource_attributes cfg) = true ->
      resource_attrs cfg = [("service.name", service_name cfg)])
  /\ forall k v,
       In (k, v) (resource_attrs cfg) ->
       (k = "service.name" /\ v = service_name cfg)
       \/ exists attrs item key value,
            resource_attributes cfg = Some attrs
            /\ In item (split_on "," attrs)
            /\ split_first "=" item = Some (key, value)
            /\ k = PyStr.strip key /\ v = PyStr.strip value.
Proof.
  assert (Hbase : NoDup (map fst [("service.name", service_name cfg)])
                  /\ attrs_get "service.name"
                       [("service.name", service_name cfg)] <> None
                  /\ forall k v,
                       In (k, v) [("service.name", service_name cfg)] ->
                       k = "service.name"%string /\ v = service_name cfg).
  { split; [constructor; [intros []|constructor]|].
    split; [discriminate|]. intros k v [[= <- <-]|[]]. now split. }
  destruct Hbase as (Hnd & Hsn & Honly).
  unfold resource_attrs.
  destruct (resource_attributes cfg) as [attrs|] eqn:Hattrs; cbn [missing].
  - destruct (PyStr.is_empty attrs) eqn:Hempty.
    + split; [exact Hnd|]. split; [exact Hsn|]. split; [reflexivity|].
      intros k v Hin. left. now apply Honly.
    + destruct (resource_attrs_fold (split_on "," attrs) (service_name cfg)
                  (split_on "," attrs) [("service.name", service_name cfg)]
                  (fun _ H => H) Hnd Hsn
                  (fun k v Hin => or_introl (Honly k v Hin)))
        as (Hnd' & Hsn' & Hfrom).
      split; [exact Hnd'|]. split; [exact Hsn'|]. split; [discriminate|].
      intros k v Hin.
      destruct (Hfrom k v Hin) as [?|(item & key & value & ? & ? & ? & ?)];
        [now left|].
      right. exists attrs, item, key, value. now repeat split.
  - split; [exact Hnd|]. split; [exact Hsn|]. split; [reflexivity|].
    intros k v Hin. left. now apply Honly.
Qed.

End RunnerExtras.

(** * The properties at work on the demo world *)

#[local] Existing Instance Demo.platform.

(** Where the typing assumptions of C3 and C7 matter: a truthy [text]
    that is not a string reaches [str.join], which raises [TypeError];
    a state that cannot be hashed makes the terminal-state test raise. *)
Example non_string_text_raises :
  _extract_text_from_message
    (JObj [("parts", JArr [JObj [("kind", JStr "text"); ("text", JInt 5)]]);
           ("content", JStr "x")])
  = Raise TypeError.
Proof. reflexivity. Qed.

Example unhashable_state_raises :
  in_terminal_states (JArr [JStr "completed"]) = Raise TypeError.
Proof. reflexivity. Qed.

(** A [result.message] that yields no text is not followed by a look at
    [result.text]: the failure of the message is the failure of the
    task. *)
Example result_message_is_final :
  _extract_text_from_task
    (JObj [("status", JObj [("state", JStr "completed")]);
           ("result", JObj [("message", JObj []); ("text", JStr "x")])])
  = Raise (ValueError "Could not extract text from message").
Proof. reflexivity. Qed.

(** The ids of the two successive demo runs. *)
Example demo_request_ids :
  post_ids (trace (snd Demo.run_done)) = [1; 2; 3; 4]%Z
  /\ post_ids (trace (snd Demo.run_again)) = [1; 2; 3; 4; 1; 2]%Z
  /\ fst Demo.run_done = Returns ("a" ++ PyStr.nl ++ "b").
Proof. repeat split; reflexivity. Qed.

Lemma C7_extract_from_message_witness :
  forallb text_well_typed (parts_of Demo.message_fields) = true
  /\ _extract_text_from_message (JObj Demo.message_fields)
     = Ok ("hello" ++ PyStr.nl ++ "world").
Proof.
  split; [reflexivity|].
  rewrite (proj1 (C7_extract_from_message Demo.message_fields eq_refl)).
  reflexivity.
Defined.

Lemma C3_completed_task_precedence_witness :
  task_state Demo.completed_task = Some (JStr "completed")
  /\ existsb (eq_str (JStr "completed")) failure_states = false
  /\ forallb text_well_typed (first_artifact_parts Demo.completed_task) = true
  /\ _extract_text_from_task (JObj Demo.completed_task) = Ok "done".
Proof.
  split; [reflexivity|]. split; [reflexivity|]. split; [reflexivity|].
  rewrite (proj1 (C3_completed_task_precedence
                    Demo.completed_task (JStr "completed")
                    eq_refl eq_refl eq_refl)).
  reflexivity.
Defined.

Lemma C4_failed_task_errors_witness :
  dict_get "status" (Demo.ended_task "failed")
  = Some (JObj [("state", JStr "failed"); ("error", JStr "boom")])
  /\ _extract_text_from_task (JObj (Demo.ended_task "failed"))
     = Raise (ValueError "Task failed: boom")
  /\ _extract_text_from_task (JObj (Demo.ended_task "canceled"))
     = Raise (ValueError "Task was canceled")
  /\ _extract_text_from_task (JObj (Demo.ended_task "rejected"))
     = Raise (ValueError "Task was rejected").
Proof.
  split; [reflexivity|]. split; [|split].
  - exact (proj1 (C4_failed_task_errors (Demo.ended_task "failed") _ eq_refl)
                 eq_refl).
  - exact (proj1 (proj2 (C4_failed_task_errors (Demo.ended_task "canceled") _
                           eq_refl)) eq_refl).
  - exact (proj1 (proj2 (proj2 (C4_failed_task_errors
                                  (Demo.ended_task "rejected") _ eq_refl)))
                 eq_refl).
Defined.

Lemma C9_missing_result_and_error_witness :
  rpc_reply Demo.mute_world 0 (rpc_url Demo.client)
            (jsonrpc_payload "tasks/get" (JObj [("id", JStr "t1")]) 2)
  = ReplyJson (JObj [("jsonrpc", JStr "2.0")])
  /\ has_field "result" (JObj [("jsonrpc", JStr "2.0")]) = false
  /\ has_field "error" (JObj [("jsonrpc", JStr "2.0")]) = false
  /\ exists e,
       fst (_jsonrpc_call Demo.mute_world Demo.client "tasks/get"
                          (JObj [("id", JStr "t1")]) 2 Demo.start)
       = Raises e
       /\ e = KeyError "result".
Proof.
  split; [reflexivity|]. split; [reflexivity|]. split; [reflexivity|].
  destruct (C9_missing_result_and_error Demo.mute_world Demo.client
              "tasks/get" (JObj [("id", JStr "t1")]) 2 Demo.start
              (JObj [("jsonrpc", JStr "2.0")]) eq_refl eq_refl eq_refl)
    as (e & Hcall & Hkey & _).
  exists e. split; [exact Hcall|]. exact (Hkey _ eq_refl).
Defined.

Lemma C5_service_url_with_path_witness :
  agent_card (Demo.world Demo.card_with_path 0) (card_url Demo.cfg)
  = ReplyJson (JObj [("name", JStr "agent");
                     ("url", JStr "http://agent:8000/a2a/rpc/")])
  /\ urlparse_path "http://agent:8000/a2a/rpc/" = Some "/a2a/rpc/"
  /\ fst (_discover_rpc_url (Demo.world Demo.card_with_path 0) Demo.cfg
                            Demo.start)
     = Returns "http://agent:8000/a2a/rpc".
Proof.
  split; [reflexivity|]. split; [reflexivity|].
  refine (proj1 (proj2 (C5_service_url_with_path
                          (Demo.world Demo.card_with_path 0) Demo.cfg
                          Demo.start _ "http://agent:8000/a2a/rpc/"
                          "/a2a/rpc/" eq_refl eq_refl _ eq_refl _ _)));
    discriminate.
Defined.

Lemma C6_fallback_rpc_url_witness :
  fallback_base Demo.cfg
                (agent_card (Demo.world Demo.no_card 0) (card_url Demo.cfg))
                (base_url Demo.cfg)
  /\ exists self,
       fst (__init__ (Demo.world Demo.no_card 0) Demo.cfg Demo.start)
       = Returns self
       /\ rpc_url self = "http://agent:8000/v1/chat".
Proof.
  assert (Hcase : fallback_base Demo.cfg
                    (agent_card (Demo.world Demo.no_card 0)
                                (card_url Demo.cfg))
                    (base_url Demo.cfg)).
  { apply fetch_failed with (e := RequestException "connection refused").
    reflexivity. }
  split; [exact Hcase|].
  destruct (C6_fallback_rpc_url (Demo.world Demo.no_card 0) Demo.cfg
                                Demo.start)
    as (self & Hinit & _ & Hurl & _).
  exists self. split; [exact Hinit|]. rewrite (Hurl _ Hcase). reflexivity.
Defined.

Lemma C1_body_carries_jsonrpc_field_witness :
  exists evs,
    trace (snd Demo.run_done) = (trace Demo.start ++ evs)%list
    /\ forall url payload,
         In (EvPost url payload) evs ->
         url = rpc_url Demo.client
         /\ rpc_body "jsonrpc" payload
         /\ payload_field "protocol_version" payload = JNull
         /\ (payload_field "method" payload = JStr "message/send"
             \/ payload_field "method" payload = JStr "tasks/get").
Proof.
  apply (C1_body_carries_jsonrpc_field (Demo.world Demo.no_card 3) 10
           Demo.client "hi" 1%Z (Some 100%Z) Demo.start
           (fst Demo.run_done) (snd Demo.run_done)).
  reflexivity.
Defined.

(** C1 as the specification states it fails: the first body posted by a
    run has no [protocol_version] field. *)
Lemma C1_counterexample :
  ~ (forall url payload,
       In (EvPost url payload) (trace (snd Demo.run_done)) ->
       rpc_body "protocol_version" payload).
Proof.
  intro Hall.
  destruct (Hall "http://agent:8000/v1/chat"
                 (jsonrpc_payload "message/send"
                    (JObj [("message", user_message "hi" "uuid-0");
                           ("metadata", JObj [])]) 1))
    as (fields & Hfields & Hversion & _).
  - vm_compute. right. left. reflexivity.
  - injection Hfields as <-. discriminate Hversion.
Qed.

Lemma C8_request_ids_increase_from_one_witness :
  resolved_timeout Demo.client (Some 100%Z) = Some 100%Z
  /\ exists evs n,
       trace (snd Demo.run_done) = (trace Demo.start ++ evs)%list
       /\ posted evs = calls_from_one n
       /\ post_ids evs = map Z.of_nat (seq 1 (S n))
       /\ StronglySorted Z.lt (post_ids evs).
Proof.
  split; [reflexivity|].
  apply (C8_request_ids_increase_from_one (Demo.world Demo.no_card 3) 10
           Demo.client "hi" 1%Z (Some 100%Z) 100%Z Demo.start
           (fst Demo.run_done) (snd Demo.run_done));
    reflexivity.
Defined.

Lemma C10_request_ids_restart_witness :
  resolved_timeout Demo.client (Some 100%Z) = Some 100%Z
  /\ resolved_timeout Demo.client None = Some 300%Z
  /\ exists evs1 evs2 n1 n2,
       trace (snd Demo.run_done) = (trace Demo.start ++ evs1)%list
       /\ trace (snd Demo.run_again)
          = (trace Demo.start ++ evs1 ++ evs2)%list
       /\ posted evs1 = calls_from_one n1
       /\ posted evs2 = calls_from_one n2
       /\ ~ NoDup (post_ids (evs1 ++ evs2)).
Proof.
  split; [reflexivity|]. split; [reflexivity|].
  apply (C10_request_ids_restart (Demo.world Demo.no_card 3) 10 10
           Demo.client "hi" "hello" 1%Z 1%Z (Some 100%Z) None 100%Z 300%Z
           Demo.start (snd Demo.run_done) (snd Demo.run_again)
           (fst Demo.run_done) (fst Demo.run_again));
    reflexivity.
Defined.

Lemma C2_deadline_checked_before_each_poll_witness :
  (exists s',
     Demo.run_late
     = (Raises (TimeoutError "Task t1 did not finish within 2.0s"), s')
     /\ posts s' = 2)
  /\ exists message_id polling,
       trace (snd Demo.run_late)
       = (trace Demo.start
          ++ [EvUuid message_id; send_event Demo.client "hi" message_id]
          ++ polling)%list
       /\ (polling = []
           \/ exists start task_id evs,
                polling = EvTime start :: evs
                /\ (forall url payload,
                      In (EvPost url payload) evs ->
                      payload_field "method" payload = JStr "tasks/get")
                /\ (forall before url payload after,
                      evs = (before ++ EvPost url payload :: after)%list ->
                      exists before' now,
                        before = (before' ++ [EvTime now])%list
                        /\ float_ltb now (float_add start 2%Z) = true)
                /\ (forall before now after,
                      evs = (before ++ EvTime now :: after)%list ->
                      float_ltb now (float_add start 2%Z) = false ->
                      after = []
                      /\ fst Demo.run_late
                         = Raises
                             (TimeoutError
                                (timeout_message task_id 2%Z)))).
Proof.
  split.
  - destruct (proj2 (C2_deadline_checked_before_each_poll
                       (Demo.world Demo.no_card 100))
                    1 10 Demo.client "hi" 1%Z (Some 2%Z) 2%Z Demo.start
                    Demo.task_announcement (JStr "t1"))
      as (s' & Hrun & Hposts & _).
    + reflexivity.
    + reflexivity.
    + eexists. repeat split; reflexivity.
    + intros i Hi. destruct i as [|i]; [|lia].
      split; [reflexivity|]. eexists. split; reflexivity.
    + now right.
    + reflexivity.
    + lia.
    + exists s'. split; [exact Hrun|exact Hposts].
  - apply (proj1 (C2_deadline_checked_before_each_poll
                    (Demo.world Demo.no_card 100))
                 10 Demo.client "hi" 1%Z (Some 2%Z) 2%Z Demo.start
                 (fst Demo.run_late) (snd Demo.run_late));
      reflexivity.
Defined.

(** * The rest of the package at work on the demo worlds *)

#[local] Existing Instance Trial.runtime.

Lemma jsonrpc_error_field_wins_witness :
  rpc_reply (Trial.constant_world (ReplyJson (JObj Trial.null_error))) 0
            (rpc_url Demo.client)
            (jsonrpc_payload "tasks/get" (JObj [("id", JStr "t1")]) 2)
  = ReplyJson (JObj Trial.null_error)
  /\ dict_get "error" Trial.null_error = Some JNull
  /\ dict_get "result" Trial.null_error = Some (JStr "fine")
  /\ fst (_jsonrpc_call
            (Trial.constant_world (ReplyJson (JObj Trial.null_error)))
            Demo.client "tasks/get" (JObj [("id", JStr "t1")]) 2 Demo.start)
     = Raises (RuntimeError "JSON-RPC error: None").
Proof.
  split; [reflexivity|]. split; [reflexivity|]. split; [reflexivity|].
  rewrite (proj1 (jsonrpc_error_field_wins
                    (Trial.constant_world (ReplyJson (JObj Trial.null_error)))
                    Demo.client "tasks/get" (JObj [("id", JStr "t1")]) 2
                    Demo.start Trial.null_error eq_refl) JNull eq_refl).
  reflexivity.
Defined.

Lemma send_prompt_direct_answer_witness :
  resolved_timeout Demo.client None = Some 300%Z
  /\ send_reply Trial.direct_world Demo.client "ping" Demo.start
     = ReplyJson Trial.pong
  /\ fst (send_prompt Trial.direct_world 0 Demo.client "ping" 1%Z None
                      Demo.start)
     = Returns "pong"
  /\ posted (trace (snd (send_prompt Trial.direct_world 0 Demo.client "ping"
                                     1%Z None Demo.start)))
     = [(JStr "message/send", JInt 1)].
Proof.
  split; [reflexivity|]. split; [reflexivity|].
  assert (Hkind : dict_get "kind"
                    [("kind", JStr "message"); ("role", JStr "agent");
                     ("parts", JArr [text_part "pong"])]
                  <> Some (JStr "task" : Demo.J)) by discriminate.
  rewrite (send_prompt_direct_answer Trial.direct_world 0 Demo.client "ping"
             1%Z None 300%Z Demo.start Trial.pong _ eq_refl eq_refl eq_refl
             Hkind).
  split; reflexivity.
Defined.

Lemma send_prompt_task_without_id_witness :
  send_reply (Trial.constant_world (ReplyJson Trial.nameless_task))
             Demo.client "ping" Demo.start
  = ReplyJson Trial.nameless_task
  /\ fst (send_prompt (Trial.constant_world (ReplyJson Trial.nameless_task))
                      5 Demo.client "ping" 1%Z None Demo.start)
     = Raises (KeyError "id")
  /\ clock_reads
       (trace (snd (send_prompt
                      (Trial.constant_world (ReplyJson Trial.nameless_task))
                      5 Demo.client "ping" 1%Z None Demo.start)))
     = 0.
Proof.
  split; [reflexivity|].
  rewrite (send_prompt_task_without_id
             (Trial.constant_world (ReplyJson Trial.nameless_task))
             5 Demo.client "ping" 1%Z None 300%Z Demo.start
             Trial.nameless_task [("kind", JStr "task")]
             eq_refl eq_refl eq_refl eq_refl eq_refl).
  split; reflexivity.
Defined.

Lemma send_prompt_echo_witness :
  send_reply Trial.echo_world Demo.client "ping" Demo.start
  = ReplyJson (JObj [("jsonrpc", JStr "2.0");
                     ("result", user_message "ping" "uuid-0")])
  /\ fst (send_prompt Trial.echo_world 0 Demo.client "ping" 1%Z None
                      Demo.start)
     = Returns "ping".
Proof.
  split; [reflexivity|].
  assert (Hne : "ping" <> ""%string) by discriminate.
  rewrite (proj2 (send_prompt_echo Trial.echo_world 0 Demo.client "ping"
                    1%Z None 300%Z Demo.start
                    [("jsonrpc", JStr "2.0");
                     ("result", user_message "ping" "uuid-0")]
                    Hne eq_refl eq_refl eq_refl eq_refl)).
  reflexivity.
Defined.

Lemma demo_task_announced :
  announced (Demo.world Demo.no_card 3) Demo.client "hi" Demo.start
            (JStr "t1").
Proof.
  exists Demo.task_announcement. split; [reflexivity|].
  exists [("kind", JStr "task"); ("id", JStr "t1")]. now repeat split.
Qed.

Lemma demo_pending_polls :
  pending_polls (Demo.world Demo.no_card 3) Demo.client Demo.start
                (JStr "t1") 100%Z 2.
Proof.
  intros i Hi. destruct i as [|[|i]]; [| |lia].
  - split; [reflexivity|]. eexists. split; reflexivity.
  - split; [reflexivity|]. eexists. split; reflexivity.
Qed.

Lemma send_prompt_settles_witness :
  announced (Demo.world Demo.no_card 3) Demo.client "hi" Demo.start
            (JStr "t1")
  /\ pending_polls (Demo.world Demo.no_card 3) Demo.client Demo.start
                   (JStr "t1") 100%Z 2
  /\ in_time (Demo.world Demo.no_card 3) Demo.start 100%Z 2
  /\ exists s' evs,
       send_prompt (Demo.world Demo.no_card 3) 3 Demo.client "hi" 1%Z
                   (Some 100%Z) Demo.start
       = (Returns ("a" ++ PyStr.nl ++ "b"), s')
       /\ trace s' = (trace Demo.start ++ evs)%list
       /\ posted evs = calls_from_one 3
       /\ sleeps evs = 2
       /\ posts s' = 4.
Proof.
  split; [exact demo_task_announced|].
  split; [exact demo_pending_polls|]. split; [reflexivity|].
  destruct (send_prompt_settles (Demo.world Demo.no_card 3) 2 0 Demo.client
              "hi" 1%Z (Some 100%Z) 100%Z Demo.start (JStr "t1")
              (Demo.task_report "completed")
              (JObj [("kind", JStr "task"); ("id", JStr "t1");
                     ("status", JObj [("state", JStr "completed")]);
                     ("artifacts",
                      JArr [JObj [("parts",
                                   JArr [text_part "a"; text_part "b"])]])])
              eq_refl demo_task_announced demo_pending_polls
              (or_intror eq_refl) eq_refl eq_refl eq_refl)
    as (s' & evs & Hrun & Htrace & Hposted & Hsleeps & Hposts).
  exists s', evs. repeat split; assumption.
Defined.

Lemma lossy_task_announced :
  announced Trial.lossy_world Demo.client "hi" Demo.start (JStr "t1").
Proof.
  exists Demo.task_announcement. split; [reflexivity|].
  exists [("kind", JStr "task"); ("id", JStr "t1")]. now repeat split.
Qed.

Lemma lossy_pending_polls :
  pending_polls Trial.lossy_world Demo.client Demo.start (JStr "t1") 300%Z 1.
Proof.
  intros i Hi. destruct i as [|i]; [|lia].
  split; [reflexivity|]. eexists. split; reflexivity.
Qed.

Lemma send_prompt_no_retry_witness :
  resolved_timeout Demo.client None = Some 300%Z
  /\ poll_reply Trial.lossy_world Demo.client Demo.start (JStr "t1") 1
     = ReplyRaise (RequestException "connection reset")
  /\ exists s',
       send_prompt Trial.lossy_world 7 Demo.client "hi" 1%Z None Demo.start
       = (Raises (RequestException "connection reset"), s')
       /\ posts s' = 3.
Proof.
  split; [reflexivity|]. split; [reflexivity|].
  exact (proj2 (send_prompt_no_retry Trial.lossy_world Demo.client "hi" 1%Z
                  None 300%Z Demo.start eq_refl)
               1 5 (JStr "t1") (RequestException "connection reset")
               lossy_task_announced lossy_pending_polls (or_intror eq_refl)
               eq_refl eq_refl).
Defined.

Lemma polls_ask_for_announced_task_witness :
  exists evs,
    trace (snd Demo.run_done)
    = (trace (after_start (Demo.world Demo.no_card 3) Demo.client "hi"
                          Demo.start) ++ evs)%list
    /\ posted evs = [(JStr "tasks/get", JInt 2); (JStr "tasks/get", JInt 3);
                     (JStr "tasks/get", JInt 4)]
    /\ forall url payload,
         In (EvPost url payload) evs ->
         url = rpc_url Demo.client
         /\ exists id,
              payload
              = jsonrpc_payload "tasks/get" (JObj [("id", JStr "t1")]) id.
Proof.
  destruct (polls_ask_for_announced_task (Demo.world Demo.no_card 3) 10
              Demo.client "hi" 1%Z (Some 100%Z) 100%Z Demo.start (JStr "t1")
              (fst Demo.run_done) (snd Demo.run_done)
              eq_refl demo_task_announced (surjective_pairing _))
    as (evs & Htrace & Hposts).
  exists evs. split; [exact Htrace|]. split; [|exact Hposts].
  apply (f_equal (skipn 3)) in Htrace. vm_compute in Htrace.
  now rewrite <- Htrace.
Defined.

Lemma sleeps_follow_polls_witness :
  exists evs,
    trace (snd Demo.run_done) = (trace Demo.start ++ evs)%list
    /\ sleeps evs = 2
    /\ forall before d after,
         evs = (before ++ EvSleep d :: after)%list ->
         d = 1%Z
         /\ exists before' url payload,
              before = (before' ++ [EvPost url payload])%list
              /\ payload_field "method" payload = JStr "tasks/get".
Proof.
  destruct (sleeps_follow_polls (Demo.world Demo.no_card 3) 10 Demo.client
              "hi" 1%Z (Some 100%Z) Demo.start
              (fst Demo.run_done) (snd Demo.run_done) (surjective_pairing _))
    as (evs & Htrace & Hsleeps).
  exists evs. split; [exact Htrace|]. split; [|exact Hsleeps].
  cbn [Demo.start trace app] in Htrace. now rewrite <- Htrace.
Defined.

Lemma never_announces_direct : never_announces Trial.direct_world.
Proof.
  intros n url payload data res Hreply Hres.
  injection Hreply as <-. injection Hres as <-. discriminate.
Qed.

Lemma get_task_data_closes_witness :
  task_load (Trial.tasks Trial.direct_world) "t2"
  = Ok (LoadedTask.make "" (JStr "Ada") (JArr [JStr "phone"]))
  /\ fst (get_task_data (Trial.tasks Trial.direct_world) "t2" Trial.ready)
     = Raises (ValueError "Task t2 has no instruction")
  /\ loaded (journal (snd (get_task_data (Trial.tasks Trial.direct_world)
                                         "t2" Trial.ready))) = ["t2"]
  /\ closed (journal (snd (get_task_data (Trial.tasks Trial.direct_world)
                                         "t2" Trial.ready))) = [].
Proof.
  split; [reflexivity|].
  rewrite (proj1 (get_task_data_closes (Trial.tasks Trial.direct_world) "t2"
                    Trial.ready
                    (LoadedTask.make "" (JStr "Ada") (JArr [JStr "phone"]))
                    eq_refl eq_refl) eq_refl).
  repeat split; reflexivity.
Defined.

Lemma initialize_after_from_env_witness :
  exists cfg,
    Config_from_env Trial.env_ok = Ok cfg
    /\ max_tasks (appworld cfg) = Some (-1)%Z
    /\ abort_on_failure (appworld cfg) = true
    /\ exists s',
         AppWorldAdapter_initialize (appworld cfg) Trial.fresh
         = (Returns tt, s')
         /\ adapter_initialized s' = true.
Proof.
  eexists. split; [reflexivity|]. split; [reflexivity|].
  split; [reflexivity|].
  destruct (initialize_after_from_env Trial.env_ok _ Trial.fresh eq_refl)
    as (s' & Hinit & Hflag & _).
  exists s'. split; [exact Hinit|exact Hflag].
Defined.

Lemma direct_answer_to_task1 :
  send_prompt Trial.direct_world 0 Demo.client
    (build_prompt "Say ping." (JStr "Ada") (JArr [JStr "phone"]))
    float_half None (reads Trial.direct_world 3 Demo.start)
  = (Returns "pong",
     snd (send_prompt Trial.direct_world 0 Demo.client
            (build_prompt "Say ping." (JStr "Ada") (JArr [JStr "phone"]))
            float_half None (reads Trial.direct_world 3 Demo.start))).
Proof. vm_compute. reflexivity. Qed.

Lemma no_answer_to_task1 :
  send_prompt Trial.down_world 0 Demo.client
    (build_prompt "Say ping." (JStr "Ada") (JArr [JStr "phone"]))
    float_half None (reads Trial.down_world 3 Demo.start)
  = (Raises (RequestException "connection refused"),
     snd (send_prompt Trial.down_world 0 Demo.client
            (build_prompt "Say ping." (JStr "Ada") (JArr [JStr "phone"]))
            float_half None (reads Trial.down_world 3 Demo.start))).
Proof. vm_compute. reflexivity. Qed.

Lemma process_task_reports_witness :
  tracer (telemetry Trial.ready) = true
  /\ exists r s',
       process_task (Trial.tasks Trial.down_world) 0 Trial.runner Trial.task1
                    Trial.ready
       = (Returns r, s')
       /\ TaskResult.task_id r = "t1"
       /\ TaskResult.success r = false
       /\ TaskResult.error r = Some "ConnectionError: connection refused"
       /\ TaskResult.response_chars r = None.
Proof.
  split; [reflexivity|].
  assert (Hfin : fst (send_prompt (net (Trial.tasks Trial.down_world)) 0
                        (Runner.a2a_client Trial.runner)
                        (build_prompt (TaskData.instruction Trial.task1)
                           (TaskData.supervisor Trial.task1)
                           (TaskData.app_descriptions Trial.task1))
                        float_half None
                        (reads (net (Trial.tasks Trial.down_world)) 3
                               (net_state Trial.ready)))
                 <> Unfinished).
  { change (fst (send_prompt Trial.down_world 0 Demo.client
                   (build_prompt "Say ping." (JStr "Ada")
                                 (JArr [JStr "phone"]))
                   float_half None (reads Trial.down_world 3 Demo.start))
            <> Unfinished).
    rewrite no_answer_to_task1. discriminate. }
  destruct (process_task_reports (Trial.tasks Trial.down_world) 0
              Trial.runner Trial.task1 Trial.ready eq_refl Hfin)
    as (r & s' & Hrun & Hid & Hcase).
  change (fst (send_prompt (net (Trial.tasks Trial.down_world)) 0
                 (Runner.a2a_client Trial.runner)
                 (build_prompt (TaskData.instruction Trial.task1)
                    (TaskData.supervisor Trial.task1)
                    (TaskData.app_descriptions Trial.task1))
                 float_half None
                 (reads (net (Trial.tasks Trial.down_world)) 3
                        (net_state Trial.ready))))
    with (fst (send_prompt Trial.down_world 0 Demo.client
                 (build_prompt "Say ping." (JStr "Ada")
                               (JArr [JStr "phone"]))
                 float_half None (reads Trial.down_world 3 Demo.start)))
    in Hcase.
  rewrite no_answer_to_task1 in Hcase. cbn [fst] in Hcase.
  destruct Hcase as (Hs & He & Hc).
  exists r, s'. repeat split; assumption.
Defined.

Lemma process_task_telemetry_balanced_witness :
  exists r s' calls,
    process_task (Trial.tasks Trial.direct_world) 0 Trial.runner Trial.task1
                 Trial.ready
    = (Returns r, s')
    /\ journal s' = calls
    /\ inflight calls = 0%Z
    /\ counted "success" calls = 1
    /\ counted "failed" calls = 0
    /\ TaskResult.success r = true.
Proof.
  assert (Hfin : fst (send_prompt (net (Trial.tasks Trial.direct_world)) 0
                        (Runner.a2a_client Trial.runner)
                        (build_prompt (TaskData.instruction Trial.task1)
                           (TaskData.supervisor Trial.task1)
                           (TaskData.app_descriptions Trial.task1))
                        float_half None
                        (reads (net (Trial.tasks Trial.direct_world)) 3
                               (net_state Trial.ready)))
                 <> Unfinished).
  { change (fst (send_prompt Trial.direct_world 0 Demo.client
                   (build_prompt "Say ping." (JStr "Ada")
                                 (JArr [JStr "phone"]))
                   float_half None (reads Trial.direct_world 3 Demo.start))
            <> Unfinished).
    rewrite direct_answer_to_task1. discriminate. }
  destruct (process_task_telemetry_balanced (Trial.tasks Trial.direct_world)
              0 Trial.runner Trial.task1 Trial.ready eq_refl Hfin)
    as (r & s' & calls & Hrun & Hj & _ & _ & Hin & Hok & Hko).
  assert (Hsucc : TaskResult.success r = true).
  { rewrite (process_task_returns (Trial.tasks Trial.direct_world) 0
               Trial.runner Trial.task1 Trial.ready "pong" _ eq_refl
               direct_answer_to_task1) in Hrun.
    apply (f_equal fst) in Hrun. cbn [fst] in Hrun.
    injection Hrun as <-. reflexivity. }
  rewrite Hsucc in Hok, Hko.
  exists r, s', calls. repeat split; assumption.
Defined.

Lemma process_task_sends_built_prompt_witness :
  exists r s' rest,
    process_task (Trial.tasks Trial.direct_world) 0 Trial.runner Trial.task1
                 Trial.ready
    = (Returns r, s')
    /\ trace (net_state s')
       = ([EvTime 0%Z; EvTime 1%Z; EvTime 2%Z; EvUuid "uuid-0";
           send_event Demo.client
             ("I am your supervisor:" ++ PyStr.nl ++ "Ada" ++ PyStr.nl
              ++ PyStr.nl ++ "The task you are to complete is:" ++ PyStr.nl
              ++ "Say ping." ++ PyStr.nl ++ PyStr.nl
              ++ "The applications available to you to help you complete the task are the following:"
              ++ PyStr.nl ++ "['phone']") "uuid-0"]
          ++ rest)%list.
Proof.
  pose proof (process_task_returns (Trial.tasks Trial.direct_world) 0
                Trial.runner Trial.task1 Trial.ready "pong" _ eq_refl
                direct_answer_to_task1) as Hrun.
  destruct (process_task_sends_built_prompt
              (Trial.tasks Trial.direct_world) 0 Trial.runner Trial.task1
              Trial.ready 300%Z _ _ eq_refl eq_refl Hrun)
    as (m & rest & Htrace).
  do 2 eexists. exists rest. split; [exact Hrun|].
  rewrite Htrace.
  assert (Hm : m = "uuid-0"%string).
  { apply (f_equal (fun l => nth 3 l (EvUuid ""))) in Htrace.
    vm_compute in Htrace. now injection Htrace as <-. }
  rewrite Hm. reflexivity.
Defined.

Lemma process_task_needs_tracer_witness :
  tracer (telemetry Trial.fresh) = false
  /\ exists s',
       process_task (Trial.tasks Trial.direct_world) 0 Trial.runner
                    Trial.task1 Trial.fresh
       = (Raises (RuntimeError "OTEL not initialized"), s')
       /\ journal s' = []
       /\ posts (net_state s') = 0.
Proof.
  split; [reflexivity|].
  destruct (process_task_needs_tracer (Trial.tasks Trial.direct_world) 0
              Trial.runner Trial.task1 Trial.fresh eq_refl)
    as (s' & Hrun & Hj & _ & Hp).
  exists s'. repeat split; assumption.
Defined.

Lemma process_tasks_in_order_witness :
  abort_on_failure (appworld (Runner.config Trial.runner)) = true
  /\ fst (process_tasks (Trial.tasks Trial.down_world) 0 Trial.runner
                        ["t1"; "t3"] Trial.ready)
     = Returns tt
  /\ exists new rest,
       results (snd (process_tasks (Trial.tasks Trial.down_world) 0
                                   Trial.runner ["t1"; "t3"] Trial.ready))
       = (results Trial.ready ++ new)%list
       /\ ["t1"; "t3"] = (map TaskResult.task_id new ++ rest)%list
       /\ (forall r, In r (removelast new) -> TaskResult.success r = true)
       /\ (rest <> [] ->
           exists front r,
             new = (front ++ [r])%list /\ TaskResult.success r = false).
Proof.
  assert (Hout : fst (process_tasks (Trial.tasks Trial.down_world) 0
                                    Trial.runner ["t1"; "t3"] Trial.ready)
                 = Returns tt) by (vm_compute; reflexivity).
  split; [reflexivity|]. split; [exact Hout|].
  assert (Hfin : fst (process_tasks (Trial.tasks Trial.down_world) 0
                                    Trial.runner ["t1"; "t3"] Trial.ready)
                 <> Unfinished) by (rewrite Hout; discriminate).
  destruct (process_tasks_in_order (Trial.tasks Trial.down_world) 0
              Trial.runner ["t1"; "t3"] Trial.ready _ _
              (surjective_pairing _) Hfin)
    as (new & rest & Hres & Hids & Hprev & Hend).
  exists new, rest. split; [exact Hres|]. split; [exact Hids|].
  split; [exact (Hprev eq_refl)|].
  intro Hrest. exact (proj2 (Hend Hout Hrest)).
Defined.

(** The resource attributes of the demo configuration: the service name
    is overridden, the item without [=] is dropped, and a value keeps
    its own [=]. *)
Example demo_resource_attrs :
  resource_attrs Trial.otel_cfg
  = [("service.name", "runner"); ("team", "qa"); ("k", "a=b")].
Proof. vm_compute. reflexivity. Qed.

(** A second [initialize] on the same telemetry object sets everything
    up again but leaves [requests] alone. *)
Example initialize_twice :
  fst (OTELInstrumentation_initialize (Trial.tasks Trial.direct_world)
                                      Trial.fresh)
  = Returns tt
  /\ fst (OTELInstrumentation_initialize
            (Trial.tasks Trial.direct_world)
            (snd (OTELInstrumentation_initialize
                    (Trial.tasks Trial.direct_world) Trial.fresh)))
     = Returns tt
  /\ length (filter (fun c => match c with
                              | Setup RequestsInstrument => true
                              | _ => false
                              end)
               (journal (snd (OTELInstrumentation_initialize
                                (Trial.tasks Trial.direct_world)
                                (snd (OTELInstrumentation_initialize
                                        (Trial.tasks Trial.direct_world)
                                        Trial.fresh))))))
     = 1.
Proof. vm_compute. repeat split; reflexivity. Qed.

Lemma task_without_instruction_stops_loop_witness :
  task_load (Trial.tasks Trial.direct_world) "t2"
  = Ok (LoadedTask.make "" (JStr "Ada") (JArr [JStr "phone"]))
  /\ fst (process_tasks (Trial.tasks Trial.direct_world) 0 Trial.runner
                        ["t2"; "t3"] Trial.ready)
     = Raises (ValueError "Task t2 has no instruction")
  /\ opened (journal (snd (process_tasks (Trial.tasks Trial.direct_world) 0
                                         Trial.runner ["t2"; "t3"]
                                         Trial.ready)))
     = ["t2"]
  /\ results (snd (process_tasks (Trial.tasks Trial.direct_world) 0
                                 Trial.runner ["t2"; "t3"] Trial.ready))
     = [].
Proof.
  split; [reflexivity|].
  rewrite (task_without_instruction_stops_loop
             (Trial.tasks Trial.direct_world) 0 Trial.runner "t2" ["t3"]
             Trial.ready
             (LoadedTask.make "" (JStr "Ada") (JArr [JStr "phone"]))
             eq_refl eq_refl eq_refl eq_refl).
  repeat split; reflexivity.
Defined.

Lemma default_endpoint_from_env_witness :
  A2AConfig_from_env Trial.env_ok
  = Ok {| base_url := "http://agent:8000/"; timeout_seconds := 300;
          auth_token := None; verify_tls := true;
          endpoint_path := "/v1/chat" |}
  /\ exists self n',
       __init__ (Demo.world Demo.no_card 0)
                {| base_url := "http://agent:8000/"; timeout_seconds := 300;
                   auth_token := None; verify_tls := true;
                   endpoint_path := "/v1/chat" |}
                Demo.start
       = (Returns self, n')
       /\ rpc_url self = "http://agent:8000/v1/chat".
Proof.
  assert (Hcfg : A2AConfig_from_env Trial.env_ok
                 = Ok {| base_url := "http://agent:8000/";
                         timeout_seconds := 300;
                         auth_token := None; verify_tls := true;
                         endpoint_path := "/v1/chat" |})
    by (vm_compute; reflexivity).
  split; [exact Hcfg|].
  destruct (default_endpoint_from_env (Demo.world Demo.no_card 0)
              Trial.env_ok _ Demo.start "http://agent:8000/" Hcfg eq_refl
              (fetch_failed _ _ (RequestException "connection refused")
                            eq_refl))
    as (self & n' & Hinit & _ & Hurl).
  exists self, n'. split; [exact Hinit|]. rewrite Hurl. reflexivity.
Defined.

Lemma get_bool_reading_witness :
  Trial.env_ok "ABORT_ON_FAILURE" = Some "Yes"
  /\ _get_bool Trial.env_ok "ABORT_ON_FAILURE" false = true
  /\ _get_bool Trial.env_ok "A2A_VERIFY_TLS" true = true.
Proof.
  split; [reflexivity|]. split.
  - apply (proj1 (proj2 (get_bool_reading Trial.env_ok "ABORT_ON_FAILURE"))).
    reflexivity.
  - apply (proj1 (proj2 (proj2 (get_bool_reading Trial.env_ok
                                  "A2A_VERIFY_TLS")))).
    reflexivity.
Defined.

Lemma config_from_env_required_witness :
  Trial.env_no_remote "APPWORLD_REMOTE_APIS_URL" = Some ""
  /\ Config_from_env Trial.env_no_remote
     = Raise (ValueError
                "APPWORLD_REMOTE_APIS_URL environment variable is required")
  /\ exists cfg,
       Config_from_env Trial.env_ok = Ok cfg
       /\ remote_apis_url (appworld cfg) = Some "http://apis:9000".
Proof.
  split; [reflexivity|]. split.
  - exact (proj1 (proj2 (proj2 (config_from_env_required
                                  Trial.env_no_remote)))
                 eq_refl eq_refl eq_refl).
  - destruct (proj2 (proj2 (proj2 (config_from_env_required Trial.env_ok)))
                eq_refl eq_refl eq_refl)
      as (cfg & Hcfg & _ & _ & Hremote & _).
    exists cfg. split; [exact Hcfg|]. rewrite Hremote. reflexivity.
Defined.

Lemma get_task_ids_prefix_witness :
  max_tasks Trial.appworld_cfg = Some (-1)%Z
  /\ load_task_ids (Trial.tasks Trial.direct_world)
                   (dataset Trial.appworld_cfg)
     = Ok ["t1"; "t2"; "t3"]
  /\ fst (get_task_ids (Trial.tasks Trial.direct_world) Trial.appworld_cfg
                       Trial.ready)
     = Returns ["t1"; "t2"]
  /\ fst (get_task_ids (Trial.tasks Trial.direct_world) Trial.appworld_cfg
                       Trial.fresh)
     = Raises (RuntimeError
                 "AppWorld adapter not initialized. Call initialize() first.").
Proof.
  split; [reflexivity|]. split; [reflexivity|]. split.
  - destruct (proj2 (get_task_ids_prefix (Trial.tasks Trial.direct_world)
                       Trial.appworld_cfg Trial.ready)
                    eq_refl ["t1"; "t2"; "t3"] eq_refl)
      as (chosen & rest & Hrun & Hids & Hlen).
    rewrite Hrun. cbn [fst]. vm_compute in Hlen.
    destruct chosen as [|a [|b [|c chosen]]]; try discriminate Hlen.
    now injection Hids as <- <- _.
  - now rewrite (proj1 (get_task_ids_prefix (Trial.tasks Trial.direct_world)
                          Trial.appworld_cfg Trial.fresh) eq_refl).
Defined.

Lemma run_always_raises_witness :
  never_announces Trial.direct_world
  /\ fst (run (Trial.tasks Trial.direct_world) 0 Trial.runner Trial.fresh)
     = Raises AttributeError.
Proof.
  split; [exact never_announces_direct|].
  exact (proj2 (proj2 (run_always_raises (Trial.tasks Trial.direct_world) 0
                         Trial.runner Trial.fresh))
               never_announces_direct).
Defined.

Lemma main_exit_code_witness :
  fst (main (Trial.tasks Trial.direct_world) Trial.env_ok 0 None Trial.fresh)
  = Returns 1%Z
  /\ fst (main (Trial.tasks Trial.direct_world) Trial.env_no_remote 0
               (Some DuringCardFetch) Trial.fresh)
     <> Returns 130%Z
  /\ fst (main (Trial.tasks Trial.direct_world) Trial.env_ok 0
               (Some DuringCardFetch) Trial.fresh)
     = Returns 130%Z.
Proof.
  split; [|split].
  - exact (proj2 (proj2 (proj2 (proj2
             (main_exit_code (Trial.tasks Trial.direct_world) Trial.env_ok 0
                None Trial.fresh))))
             eq_refl (or_intror never_announces_direct)).
  - intro H.
    apply (proj1 (proj2 (proj2
             (main_exit_code (Trial.tasks Trial.direct_world)
                Trial.env_no_remote 0 (Some DuringCardFetch) Trial.fresh))))
      in H.
    destruct H as [H|[_ [cfg H]]]; [discriminate H|].
    vm_compute in H. discriminate H.
  - apply (proj1 (proj2 (proj2
             (main_exit_code (Trial.tasks Trial.direct_world) Trial.env_ok 0
                (Some DuringCardFetch) Trial.fresh)))).
    right. split; [discriminate|]. eexists. vm_compute. reflexivity.
Defined.

Lemma otel_initialize_all_or_error_witness :
  (exists s',
     OTELInstrumentation_initialize (Trial.tasks Trial.direct_world)
                                    Trial.fresh
     = (Returns tt, s')
     /\ instruments_set (telemetry s') = true
     /\ _requests_instrumented (telemetry s') = true
     /\ length (journal s') = 11)
  /\ exists s',
       OTELInstrumentation_initialize Trial.no_meter Trial.fresh
       = (Raises (RuntimeError "no meter provider"), s')
       /\ journal s'
          = [Setup (ResourceCreate
                      [("service.name", "runner"); ("team", "qa");
                       ("k", "a=b")]);
             Setup (TracingSetup None); Setup RequestsInstrument;
             Setup (MeterSetup None)].
Proof.
  split.
  - destruct (otel_initialize_all_or_error (Trial.tasks Trial.direct_world)
                Trial.fresh)
      as (Hset & _ & Hok & _).
    destruct (Hok (fun _ _ => eq_refl)) as (s' & Hrun).
    destruct (Hset s' Hrun) as (Hall & _ & Hreq & Hj & _).
    exists s'. split; [exact Hrun|]. split; [exact Hall|].
    split; [rewrite Hreq; reflexivity|]. rewrite Hj. reflexivity.
  - destruct (otel_initialize_all_or_error Trial.no_meter Trial.fresh)
      as (_ & _ & _ & Hfail).
    destruct (Hfail (firstn 3 (initialize_calls (telemetry Trial.fresh)))
                    (MeterSetup None)
                    (skipn 4 (initialize_calls (telemetry Trial.fresh)))
                    (RuntimeError "no meter provider"))
      as (s' & Hrun & Hj & _).
    + vm_compute. reflexivity.
    + intros c' Hin. vm_compute in Hin.
      destruct Hin as [[= <-]|[[= <-]|[[= <-]|[]]]]; reflexivity.
    + reflexivity.
    + exists s'. split; [exact Hrun|]. rewrite Hj. vm_compute. reflexivity.
Defined.

(** C2 as the specification states it fails. In a run with a timeout of
    two seconds whose clock reads 0, 1 and 1000, the check of the
    deadline fails 1000 seconds after polling began; the error names the
    task and the two seconds of the timeout, not the time that has
    elapsed. *)
Lemma C2_counterexample :
  ~ (forall start between now message,
       Trial.readings (trace (snd Trial.run_held_up))
       = (start :: between ++ [now])%list ->
       fst Trial.run_held_up = Raises (TimeoutError message) ->
       PyStr.contains (str_float (now - start)%Z) message = true).
Proof.
  intro Hnames.
  assert (Hclock : Trial.readings (trace (snd Trial.run_held_up))
                   = (0 :: [1] ++ [1000])%Z)
    by (vm_compute; reflexivity).
  assert (Hrun : fst Trial.run_held_up
                 = Raises (TimeoutError "Task t1 did not finish within 2.0s"))
    by (vm_compute; reflexivity).
  specialize (Hnames 0%Z [1%Z] 1000%Z _ Hclock Hrun).
  vm_compute in Hnames. discriminate Hnames.
Qed.
